(** * Carbon time-series analysis of the FullCAM integration

    A shallow embedding of the analysis functions of the repository
    (the sequestration calculator of the API client and the step-series
    builder of [carbon-charts.ts]) together with the JavaScript runtime
    operations they call, and the properties of the specification that
    are stated about them.

    Number representation.  A JavaScript Number that carries a measured
    quantity (decimal years, carbon masses, differences, averages) is an
    IEEE 754 binary64 value: [spec_float] of the standard library at
    precision 53 and maximal exponent 1024, with NaN, the infinities and
    the signed zeros.  A Number that carries a count (a year, a step in
    the year, a month, an array index, an array length) is an integer
    [Z]; binary64 represents those exactly up to 2^53.  Strings are
    sequences of code units below 256. *)

From Stdlib Require Import ZArith Lia List Bool Ascii String.
From Stdlib Require Import Floats.SpecFloat.
From Stdlib Require Import Numbers.DecimalString DecimalN DecimalPos.
From Stdlib Require Import Sorting.Permutation Sorting.Sorted.
From stdpp Require Import base list gmap.

Open Scope Z_scope.

(** ** The JavaScript runtime *)

Module JS.

(** *** Numbers *)

Definition prec : Z := 53.
Definition emax : Z := 1024.

Abbreviation number := spec_float.

Definition NaN : number := S754_nan.
Definition Infinity : number := S754_infinity false.
Definition zero : number := S754_zero false.

Definition add : number -> number -> number := SFadd prec emax.
Definition sub : number -> number -> number := SFsub prec emax.
Definition div : number -> number -> number := SFdiv prec emax.
Definition mul : number -> number -> number := SFmul prec emax.
Definition abs : number -> number := SFabs.
Definition lt : number -> number -> bool := SFltb.
Definition gt (x y : number) : bool := SFltb y x.
Definition le : number -> number -> bool := SFleb.

Definition isNaN (x : number) : bool :=
  match x with S754_nan => true | _ => false end.

(** The Number value of an integer. *)
Definition ofZ (n : Z) : number := binary_normalize prec emax n 0 false.

(** The Number value of the rational [p / q], of the given sign: the
    binary64 value nearest to it, ties to even. *)
Definition ofRatio (neg : bool) (p : Z) (q : positive) : number :=
  match p with
  | Zpos p' => SFdiv prec emax (S754_finite neg p' 0) (S754_finite false q 0)
  | _ => S754_zero neg
  end.

(** The Number value of [m * 10^e]. *)
Definition ofDecimal (neg : bool) (m e : Z) : number :=
  if 0 <=? e then ofRatio neg (m * 10 ^ e) 1
  else ofRatio neg m (Z.to_pos (10 ^ (- e))).

(** The mathematical value of a finite positive Number [m * 2^e], as a
    fraction. *)
Definition ratioOf (m : positive) (e : Z) : Z * Z :=
  if 0 <=? e then (Zpos m * 2 ^ e, 1) else (Zpos m, 2 ^ (- e)).

Definition number_eqb (x y : number) : bool :=
  match x, y with
  | S754_nan, S754_nan => true
  | S754_zero a, S754_zero b => Bool.eqb a b
  | S754_infinity a, S754_infinity b => Bool.eqb a b
  | S754_finite a m e, S754_finite b n f =>
      Bool.eqb a b && Pos.eqb m n && Z.eqb e f
  | _, _ => false
  end.

(** *** Strings *)

(** WhiteSpace and LineTerminator code units. *)
Definition isWhiteSpace (c : ascii) : bool :=
  match c with
  | "009" | "010" | "011" | "012" | "013" | " " | "160" => true
  | _ => false
  end%char.

Fixpoint trimStart (s : string) : string :=
  match s with
  | String c r => if isWhiteSpace c then trimStart r else s
  | EmptyString => EmptyString
  end.

Fixpoint trimEnd (s : string) : string :=
  match s with
  | String c r =>
      match trimEnd r with
      | EmptyString => if isWhiteSpace c then EmptyString else String c EmptyString
      | r' => String c r'
      end
  | EmptyString => EmptyString
  end.

Definition trim (s : string) : string := trimEnd (trimStart s).

(** A string is truthy when it is not empty. *)
Definition truthy (s : string) : bool :=
  match s with EmptyString => false | _ => true end.

(** [s.split(sep)] for a separator of one code unit. *)
Fixpoint split (sep : ascii) (s : string) : list string :=
  match s with
  | EmptyString => [EmptyString]
  | String c r =>
      if Ascii.eqb c sep then EmptyString :: split sep r
      else match split sep r with
           | h :: t => String c h :: t
           | [] => [String c EmptyString]
           end
  end.

Fixpoint includes (sub s : string) : bool :=
  String.prefix sub s ||
  match s with
  | String _ r => includes sub r
  | EmptyString => false
  end.

Definition lowerChar (c : ascii) : ascii :=
  let n := N_of_ascii c in
  if ((65 <=? n) && (n <=? 90))%N then ascii_of_N (n + 32)
  else if ((192 <=? n) && (n <=? 222) && negb (n =? 215))%N
       then ascii_of_N (n + 32)
       else c.

Fixpoint toLowerCase (s : string) : string :=
  match s with
  | String c r => String (lowerChar c) (toLowerCase r)
  | EmptyString => EmptyString
  end.

(** [a.findIndex(p)]: the first index whose element satisfies [p], -1
    when there is none. *)
Fixpoint findIndexFrom {A} (p : A -> bool) (l : list A) (i : Z) : Z :=
  match l with
  | [] => -1
  | x :: r => if p x then i else findIndexFrom p r (i + 1)
  end.

Definition findIndex {A} (p : A -> bool) (l : list A) : Z :=
  findIndexFrom p l 0.

(** [a[i]] for an index that is not negative; [None] is [undefined]. *)
Definition at_ {A} (l : list A) (i : Z) : option A := l !! Z.to_nat i.

(** ToString of a value that may be [undefined]. *)
Definition toStringOpt (v : option string) : string :=
  match v with Some s => s | None => "undefined" end.

(** *** Reading numbers *)

Definition digitValue (c : ascii) : option Z :=
  let n := Z.of_N (N_of_ascii c) in
  if (48 <=? n) && (n <=? 57) then Some (n - 48) else None.

(** The longest run of decimal digits at the head of [s]: its value
    on top of [acc], its length on top of [cnt], and what follows. *)
Fixpoint readDigits (s : string) (acc cnt : Z) : Z * Z * string :=
  match s with
  | String c r =>
      match digitValue c with
      | Some d => readDigits r (10 * acc + d) (cnt + 1)
      | None => (acc, cnt, s)
      end
  | EmptyString => (acc, cnt, s)
  end.

Definition readSign (s : string) : bool * string :=
  match s with
  | String "-" r => (true, r)
  | String "+" r => (false, r)
  | _ => (false, s)
  end.

(** The value of an ExponentPart at the head of [s], 0 when there is
    none. *)
Definition readExponent (s : string) : Z :=
  match s with
  | String c r =>
      if Ascii.eqb c "e" || Ascii.eqb c "E" then
        let '(eneg, r') := readSign r in
        let '(ev, ec, _) := readDigits r' 0 0 in
        if ec =? 0 then 0 else if eneg then - ev else ev
      else 0
  | EmptyString => 0
  end.

(** [parseFloat(s)]: the Number value of the longest prefix of the
    string, leading white space removed, that is a StrDecimalLiteral;
    NaN when no prefix is one. *)
Definition parseFloat (input : string) : number :=
  let '(neg, s) := readSign (trimStart input) in
  if String.prefix "Infinity" s then S754_infinity neg
  else
    let '(ip, ic, s1) := readDigits s 0 0 in
    let '(fp, fc, s2) :=
      match s1 with
      | String "." r => readDigits r 0 0
      | _ => (0, 0, s1)
      end in
    if (ic =? 0) && (fc =? 0) then NaN
    else ofDecimal neg (ip * 10 ^ fc + fp) (readExponent s2 - fc).

(** [parseInt(s, 10)]: the integer written by the longest prefix of
    the string, leading white space removed, made of a sign and decimal
    digits; [None] is NaN.  The result is the integer as written: the
    Number that the code holds is that integer as long as it is a safe
    integer, of magnitude below 2^53, and the nearest binary64 value
    beyond. *)
Definition parseInt (input : string) : option Z :=
  let '(neg, s) := readSign (trimStart input) in
  let '(v, c, _) := readDigits s 0 0 in
  if c =? 0 then None else Some (if neg then - v else v).

(** *** Writing numbers *)

Definition digitsOfN (n : N) : string := NilZero.string_of_uint (N.to_uint n).

Definition digitsOf (n : Z) : string := digitsOfN (Z.to_N n).

(** ToString of an integer Number: the decimal digits of a safe
    integer. *)
Definition intToString (n : Z) : string :=
  if n <? 0 then ("-" ++ digitsOf (- n))%string else digitsOf n.

Fixpoint zeros (n : nat) : string :=
  match n with O => EmptyString | S k => String "0" (zeros k) end.

Fixpoint takeStr (n : nat) (s : string) : string :=
  match n, s with
  | S k, String c r => String c (takeStr k r)
  | _, _ => EmptyString
  end.

Fixpoint dropStr (n : nat) (s : string) : string :=
  match n, s with
  | S k, String _ r => dropStr k r
  | _, _ => s
  end.

(** The number of decimal digits of a positive integer, by counting. *)
Fixpoint countDigits (fuel : nat) (n : Z) : Z :=
  match fuel with
  | O => 0
  | S k => if n <? 10 then 1 else 1 + countDigits k (n / 10)
  end.

(** For a fraction below 1: the least [j >= 1] with [p * 10^j >= q]. *)
Fixpoint leadingShift (fuel : nat) (p q j : Z) : Z :=
  match fuel with
  | O => j
  | S k => if q <=? p * 10 then j else leadingShift k (p * 10) q (j + 1)
  end.

(** The decimal exponent [n] of [p / q > 0]: [10^(n-1) <= p/q < 10^n]. *)
Definition decimalExponent (p q : Z) : Z :=
  if q <=? p then countDigits 400 (p / q)
  else 1 - leadingShift 400 p q 1.

(** One round of the search for the shortest decimal that reads back
    as [x]: the candidates with [k] digits on either side of [p / q],
    the nearer one first, the even one on a tie. *)
Definition shortestAt (x : number) (p q n k : Z) : option (Z * Z) :=
  let t := n - k in
  let '(a, b) := if t <? 0 then (p * 10 ^ (- t), q) else (p, q * 10 ^ t) in
  let lo := a / b in
  let hi := lo + 1 in
  let okLo := (0 <? lo) && number_eqb (ofDecimal false lo t) x in
  let okHi := number_eqb (ofDecimal false hi t) x in
  let hiOut := if hi =? 10 ^ k then (10 ^ (k - 1), n + 1) else (hi, n) in
  match okLo, okHi with
  | true, true =>
      match 2 * (a - lo * b) ?= b with
      | Lt => Some (lo, n)
      | Gt => Some hiOut
      | Eq => if Z.even lo then Some (lo, n) else Some hiOut
      end
  | true, false => Some (lo, n)
  | false, true => Some hiOut
  | false, false => None
  end.

Fixpoint shortestFrom (fuel : nat) (x : number) (p q n k : Z) : Z * Z :=
  match fuel with
  | O => (p / q, n)
  | S f =>
      match shortestAt x p q n k with
      | Some r => r
      | None => shortestFrom f x p q n (k + 1)
      end
  end.

(** Number::toString for radix 10. *)
Definition numberToString (x : number) : string :=
  match x with
  | S754_nan => "NaN"%string
  | S754_zero _ => "0"%string
  | S754_infinity s => (if s then "-Infinity" else "Infinity")%string
  | S754_finite s m e =>
      let '(p, q) := ratioOf m e in
      let '(d, n) := shortestFrom 25 (S754_finite false m e) p q (decimalExponent p q) 1 in
      let ds := digitsOf d in
      let k := Z.of_nat (String.length ds) in
      let sg := if n - 1 <? 0 then "-"%string else "+"%string in
      let ex := (sg ++ digitsOf (Z.abs (n - 1)))%string in
      let body :=
        if (k <=? n) && (n <=? 21) then (ds ++ zeros (Z.to_nat (n - k)))%string
        else if (0 <? n) && (n <=? 21) then
          (takeStr (Z.to_nat n) ds ++ "." ++ dropStr (Z.to_nat n) ds)%string
        else if (-6 <? n) && (n <=? 0) then
          ("0." ++ zeros (Z.to_nat (- n)) ++ ds)%string
        else if k =? 1 then (ds ++ "e" ++ ex)%string
        else (takeStr 1 ds ++ "." ++ dropStr 1 ds ++ "e" ++ ex)%string in
      ((if s then "-" else "") ++ body)%string
  end.

(** [x.toFixed(f)]. *)
Definition toFixed (x : number) (f : nat) : string :=
  match x with
  | S754_finite s m e =>
      let '(p, q) := ratioOf m e in
      if 10 ^ 21 * q <=? p then numberToString x
      else
        let n := (2 * p * 10 ^ Z.of_nat f + q) / (2 * q) in
        let ds := digitsOf n in
        let ds := (zeros (S f - String.length ds) ++ ds)%string in
        let k := String.length ds in
        ((if s then "-" else "")
           ++ takeStr (k - f) ds
           ++ (match f with O => "" | _ => "." ++ dropStr (k - f) ds end))%string
  | S754_zero _ =>
      match f with
      | O => "0"%string
      | _ => ("0." ++ zeros f)%string
      end
  | _ => numberToString x
  end.

End JS.

(** ** Results of the analysis functions

    Each function returns an object with a [success] flag, and an
    [error] message when the flag is false. *)

Inductive Outcome (A : Type) : Type :=
  | Success (value : A)
  | Failure (error : string).

Arguments Success {A} value.
Arguments Failure {A} error.

Definition succeeded {A} (r : Outcome A) : bool :=
  match r with Success _ => true | Failure _ => false end.

(** ** The sequestration calculator of the API client *)

Module Fullcam.
Import JS.

(** The response of a simulation run.  [data] is the text of the
    export, [None] when the response carries none; a payload that is
    not a string stands here as the JSON text the code makes of it. *)
Record SimulationResponse := {
  success : bool;
  data : option string
}.

Record Sequestration := {
  totalCarbon : number;
  startCarbon : number;
  endCarbon : number;
  dataPoints : Z
}.

(** The decimal year and the carbon value read from a data row. *)
Record Row := {
  decYear : number;
  carbonValue : number
}.

(** The variables of the scan over the data rows. *)
Module Scan.
Record t := {
  startCarbon : option number;
  endCarbon : option number;
  closestStartDiff : number;
  closestEndDiff : number
}.
End Scan.

Module Average.
Record t := {
  totalCarbon : number;
  averagePerYear : number;
  years : number
}.
End Average.

(** [parseFloat(x.toFixed(digits))] *)
Definition fixed (digits : nat) (x : number) : number :=
  parseFloat (toFixed x digits).

(** [csvData.split('\n').filter(line => line.trim())] *)
Definition splitLines (csvData : string) : list string :=
  List.filter (fun line => truthy (trim line)) (split "010" csvData).

(** [line.split(',').map(v => v.trim())] *)
Definition splitFields (line : string) : list string :=
  map trim (split "," line).

Definition isDecYear (h : string) : bool := includes "Dec. Year" h.

Definition isTreeCarbon (h : string) : bool :=
  includes "C mass of trees" h && includes "tC/ha" h.

Definition quoted (s : string) : string :=
  (String "034" s ++ String "034" EmptyString)%string.

(** The first half of the body of the loop over the data rows: the
    decimal year and the carbon value of a row; [None] when one of
    them does not read as a number and the loop passes the row over. *)
Definition readRow (decYearIndex carbonIndex : Z) (line : string) : option Row :=
  let values := splitFields line in
  let decYear := parseFloat (toStringOpt (at_ values decYearIndex)) in
  let carbonValue := parseFloat (toStringOpt (at_ values carbonIndex)) in
  if isNaN decYear || isNaN carbonValue then None
  else Some {| decYear := decYear; carbonValue := carbonValue |}.

(** The second half: the row replaces a closest value when it is
    strictly nearer to the date. *)
Definition nearer (startDate endDate : number) (st : Scan.t) (row : Row) : Scan.t :=
  let startDiff := abs (sub (decYear row) startDate) in
  let st :=
    if lt startDiff (Scan.closestStartDiff st)
    then {| Scan.startCarbon := Some (carbonValue row);
            Scan.endCarbon := Scan.endCarbon st;
            Scan.closestStartDiff := startDiff;
            Scan.closestEndDiff := Scan.closestEndDiff st |}
    else st in
  let endDiff := abs (sub (decYear row) endDate) in
  if lt endDiff (Scan.closestEndDiff st)
  then {| Scan.startCarbon := Scan.startCarbon st;
          Scan.endCarbon := Some (carbonValue row);
          Scan.closestStartDiff := Scan.closestStartDiff st;
          Scan.closestEndDiff := endDiff |}
  else st.

Definition scanRow (decYearIndex carbonIndex : Z) (startDate endDate : number)
    (st : Scan.t) (line : string) : Scan.t :=
  match readRow decYearIndex carbonIndex line with
  | None => st
  | Some row => nearer startDate endDate st row
  end.

Definition scanStart : Scan.t :=
  {| Scan.startCarbon := None;
     Scan.endCarbon := None;
     Scan.closestStartDiff := Infinity;
     Scan.closestEndDiff := Infinity |}.

(** The part of [calculateCarbonSequestration] that follows the split
    of the export into its lines that are not blank. *)
Definition sequestrationOfLines (lines : list string)
    (startDate endDate : number) : Outcome Sequestration :=
  if (length lines <? 2)%nat then
    Failure "No data rows found in simulation response"
  else
    let headers := splitFields (hd EmptyString lines) in
    let decYearIndex := findIndex isDecYear headers in
    let carbonIndex := findIndex isTreeCarbon headers in
    if decYearIndex =? -1 then
      Failure ("Could not find " ++ quoted "Dec. Year" ++ " column in CSV data")
    else if carbonIndex =? -1 then
      Failure ("Could not find " ++ quoted "C mass of trees (tC/ha)"
                 ++ " column in CSV data")
    else
      let st := fold_left (scanRow decYearIndex carbonIndex startDate endDate)
                  (tl lines) scanStart in
      match Scan.startCarbon st, Scan.endCarbon st with
      | Some startCarbon, Some endCarbon =>
          let totalCarbon := sub endCarbon startCarbon in
          Success {| totalCarbon := fixed 10 totalCarbon;
                     startCarbon := fixed 10 startCarbon;
                     endCarbon := fixed 10 endCarbon;
                     dataPoints := 2 |}
      | _, _ =>
          Failure "Could not find carbon values for the specified date range"
      end.

Definition calculateCarbonSequestration (simulationResponse : SimulationResponse)
    (startDate endDate : number) : Outcome Sequestration :=
  match data simulationResponse with
  | Some csvData =>
      if negb (success simulationResponse) || negb (truthy csvData) then
        Failure "Invalid simulation response or no data available"
      else sequestrationOfLines (splitLines csvData) startDate endDate
  | None => Failure "Invalid simulation response or no data available"
  end.

(** [dateToDecimalYear]; the error it throws is the [Failure]. *)
Definition dateToDecimalYear (year month : Z) : Outcome number :=
  if (month <? 1) || (12 <? month) then
    Failure "Month must be between 1 and 12"
  else
    let decimalPart := div (ofZ (month - 1)) (ofZ 12) in
    Success (fixed 3 (add (ofZ year) decimalPart)).

Definition calculateAverageAnnualSequestration
    (simulationResponse : SimulationResponse)
    (startYear startMonth endYear endMonth : Z) : Outcome Average.t :=
  match dateToDecimalYear startYear startMonth with
  | Failure message => Failure message
  | Success startDate =>
  match dateToDecimalYear endYear endMonth with
  | Failure message => Failure message
  | Success endDate =>
  match calculateCarbonSequestration simulationResponse startDate endDate with
  | Failure error => Failure error
  | Success result =>
      let years := sub endDate startDate in
      let averagePerYear :=
        if gt years zero then div (totalCarbon result) years else zero in
      Success {| Average.totalCarbon := totalCarbon result;
                 Average.averagePerYear := fixed 10 averagePerYear;
                 Average.years := fixed 2 years |}
  end end end.

Definition calculateTotalCarbonForArea (carbonPerHectare areaInHectares : number)
    : number :=
  fixed 10 (mul carbonPerHectare areaInHectares).

Module AreaMetrics.
Record t := {
  totalCarbonPerHectare : number;
  totalCarbonForArea : number;
  averagePerYearPerHectare : number;
  averagePerYearForArea : number
}.
End AreaMetrics.

(** Of [carbonResult] only the field [totalCarbon] is read. *)
Definition calculateAreaCarbonMetrics (carbonResult : Sequestration)
    (areaInHectares years : number) : AreaMetrics.t :=
  let averagePerYearPerHectare := div (totalCarbon carbonResult) years in
  {| AreaMetrics.totalCarbonPerHectare := fixed 10 (totalCarbon carbonResult);
     AreaMetrics.totalCarbonForArea :=
       calculateTotalCarbonForArea (totalCarbon carbonResult) areaInHectares;
     AreaMetrics.averagePerYearPerHectare := fixed 10 averagePerYearPerHectare;
     AreaMetrics.averagePerYearForArea :=
       calculateTotalCarbonForArea averagePerYearPerHectare areaInHectares |}.

(** [str.replace(/\\c/g, r)] for one code unit [c] after the
    backslash and a replacement [r] of one code unit: the matches are
    taken from the left and do not overlap. *)
Fixpoint replaceEscape (c r : ascii) (str : string) : string :=
  match str with
  | String x (String y rest as t) =>
      if Ascii.eqb x "\" && Ascii.eqb y c
      then String r (replaceEscape c r rest)
      else String x (replaceEscape c r t)
  | _ => str
  end.

(** [unescapeJsonString]: the five replacements, in the order of the
    code. *)
Definition unescapeJsonString (str : string) : string :=
  replaceEscape "\" "\"
    (replaceEscape "t" "009"
       (replaceEscape "r" "013"
          (replaceEscape "n" "010"
             (replaceEscape "034" "034" str)))).

End Fullcam.

(** ** The step series of [carbon-charts.ts] *)

Module CarbonCharts.
Import JS.

Record CarbonAnalysisRange := {
  startYear : Z;
  startStepInYear : Z;
  endYear : Z;
  endStepInYear : Z
}.

Module StepCarbonChange.
Record t := { label : string; delta : number }.
End StepCarbonChange.

Module CumulativeCarbonPoint.
Record t := { label : string; total : number }.
End CumulativeCarbonPoint.

(** An element of the array [points]. *)
Record Point := {
  year : Z;
  step : Z;
  point : Z;
  combinedCarbon : number
}.

Definition fixed (digits : nat) (x : number) : number :=
  parseFloat (toFixed x digits).

Definition splitLines (csvData : string) : list string :=
  List.filter (fun line => truthy (trim line)) (split "010" csvData).

Definition splitFields (line : string) : list string :=
  map trim (split "," line).

(** The arithmetic of [toStepPoint] is that of the integers: it is the
    arithmetic of the code as long as the product, the difference and
    the sum are safe integers, of magnitude below 2^53. *)
Definition toStepPoint (year stepInYear : Z) : Z :=
  (year * 12) + (stepInYear - 1).

(** The same expression in the arithmetic of Numbers, for the
    comparison of the two at given integers. *)
Definition toStepPointNumber (year stepInYear : number) : number :=
  add (mul year (ofZ 12)) (sub stepInYear (ofZ 1)).

Definition isYear (h : string) : bool := String.eqb (toLowerCase h) "year".

Definition isStep (h : string) : bool := includes "step in year" (toLowerCase h).

Definition isTrees (h : string) : bool :=
  includes "C mass of trees" h && includes "tC/ha" h.

Definition isDebris (h : string) : bool :=
  includes "C mass of forest debris" h && includes "tC/ha" h.

(** The body of the loop that fills [points]: [None] when the row is
    passed over. *)
Definition readPoint (yearIndex stepIndex treesIndex debrisIndex : Z)
    (line : string) : option Point :=
  let values := splitFields line in
  match parseInt (toStringOpt (at_ values yearIndex)),
        parseInt (toStringOpt (at_ values stepIndex)) with
  | Some year, Some step =>
      let trees := parseFloat (toStringOpt (at_ values treesIndex)) in
      let debris := parseFloat (toStringOpt (at_ values debrisIndex)) in
      if isNaN trees || isNaN debris then None
      else Some {| year := year;
                   step := step;
                   point := toStepPoint year step;
                   combinedCarbon := add trees debris |}
  | _, _ => None
  end.

(** [a.sort(compare)]: the sort is stable, so an element goes in front
    of the first element that compares greater and behind all others. *)
Section Sort.
Context {A : Type} (compare : A -> A -> Z).

Fixpoint insert (x : A) (l : list A) : list A :=
  match l with
  | [] => [x]
  | y :: r => if 0 <? compare x y then y :: insert x r else x :: l
  end.

Definition sort (l : list A) : list A := foldr insert [] l.
End Sort.

Definition comparePoints (a b : Point) : Z := point a - point b.

(** The body of the loop that fills [changes], at index [i]. *)
Definition changeAt (points : list Point) (startPoint endPoint : Z) (i : nat)
    : option StepCarbonChange.t :=
  match points !! i, points !! (i - 1)%nat with
  | Some current, Some previous =>
      if (point current <? startPoint) || (endPoint <? point current) then None
      else Some
        {| StepCarbonChange.label :=
             (intToString (year current) ++ "-S" ++ intToString (step current))%string;
           StepCarbonChange.delta :=
             fixed 10 (sub (combinedCarbon current) (combinedCarbon previous)) |}
  | _, _ => None
  end.

(** The part of [extractStepCarbonChanges] that follows the split of
    the export into its lines that are not blank. *)
Definition stepChangesOfLines (lines : list string)
    (range : CarbonAnalysisRange) : Outcome (list StepCarbonChange.t) :=
  if (length lines <? 2)%nat then Failure "No simulation rows to chart"
  else
    let headers := splitFields (hd EmptyString lines) in
    let yearIndex := findIndex isYear headers in
    let stepIndex := findIndex isStep headers in
    let treesIndex := findIndex isTrees headers in
    let debrisIndex := findIndex isDebris headers in
    if (yearIndex =? -1) || (stepIndex =? -1) || (treesIndex =? -1)
       || (debrisIndex =? -1) then
      Failure "Required carbon chart columns not found in simulation CSV"
    else
      let points :=
        omap (readPoint yearIndex stepIndex treesIndex debrisIndex) (tl lines) in
      let points := sort comparePoints points in
      if (length points <? 2)%nat then
        Failure "Not enough data points to chart carbon change per step"
      else
        let startPoint :=
          Z.min (toStepPoint (startYear range) (startStepInYear range))
                (toStepPoint (endYear range) (endStepInYear range)) in
        let endPoint :=
          Z.max (toStepPoint (startYear range) (startStepInYear range))
                (toStepPoint (endYear range) (endStepInYear range)) in
        let changes :=
          omap (changeAt points startPoint endPoint)
               (seq 1 (length points - 1)) in
        if (length changes =? 0)%nat then
          Failure "No step changes found in selected analysis period"
        else Success changes.

Definition extractStepCarbonChanges (csvData : string)
    (range : CarbonAnalysisRange) : Outcome (list StepCarbonChange.t) :=
  stepChangesOfLines (splitLines csvData) range.

(** [Math.ceil(a / b)] for an integer [a] and a positive integer [b]. *)
Definition ceilDiv (a b : Z) : Z := - ((- a) / b).

Definition getSharedTickIndices (seriesLength : Z) : gset Z :=
  if seriesLength <? 1 then ∅
  else
    let xTickStep := Z.max 1 (ceilDiv seriesLength 8) in
    fold_left
      (fun indices index =>
         if (Z.rem index xTickStep =? 0) || (index =? seriesLength - 1)
         then indices ∪ {[ index ]}
         else indices)
      (seqZ 0 seriesLength) ∅.

(** The callback of [changes.map], with the running total it adds to
    passed along. *)
Fixpoint accumulate (runningTotal : number) (changes : list StepCarbonChange.t)
    : list CumulativeCarbonPoint.t :=
  match changes with
  | [] => []
  | change :: rest =>
      let runningTotal := add runningTotal (StepCarbonChange.delta change) in
      {| CumulativeCarbonPoint.label := StepCarbonChange.label change;
         CumulativeCarbonPoint.total := fixed 10 runningTotal |}
        :: accumulate runningTotal rest
  end.

Definition buildCumulativeSequestrationSeries
    (changes : list StepCarbonChange.t) : list CumulativeCarbonPoint.t :=
  match changes with
  | [] => []
  | _ => accumulate zero changes
  end.

End CarbonCharts.

(** ** Notions used in the statements *)

Module Notions.
Import JS.

Definition joinLines (lines : list string) : string :=
  String.concat (String "010" EmptyString) lines.

(** *** Rounding to decimal places *)

(** A string of decimal digits, and the integer it writes on top of
    [acc]. *)
Fixpoint allDigits (s : string) : bool :=
  match s with
  | String c r => match digitValue c with Some _ => allDigits r | None => false end
  | EmptyString => true
  end.

Fixpoint valueFrom (acc : Z) (s : string) : Z :=
  match s with
  | String c r =>
      match digitValue c with Some d => valueFrom (10 * acc + d) r | None => acc end
  | EmptyString => acc
  end.

(** A string at which a run of digits ends. *)
Definition stopsDigits (s : string) : Prop :=
  match s with String c _ => digitValue c = None | EmptyString => True end.

(** The numbers that [toFixed] writes in fixed notation: all but the
    finite ones of magnitude 10^21 and more. *)
Definition below1e21 (x : number) : Prop :=
  match x with
  | S754_finite _ m e => fst (ratioOf m e) < 10 ^ 21 * snd (ratioOf m e)
  | _ => True
  end.

(** [y] is [x] rounded to [digits] decimal places: the Number value of
    the decimal [n / 10^digits] of the sign of [x] for which [n] is the
    integer nearest to the magnitude of [x] times [10^digits], the
    greater [n] when two are as near. *)
Definition isRounded (digits : nat) (x y : number) : Prop :=
  match x with
  | S754_finite s m e =>
      let p := fst (ratioOf m e) in
      let q := snd (ratioOf m e) in
      exists n : Z,
        y = ofDecimal s n (- Z.of_nat digits) /\
        - q < 2 * (n * q - p * 10 ^ Z.of_nat digits) <= q
  | S754_zero _ => y = zero
  | _ => y = x
  end.

(** The decimal year in exact arithmetic, for a year that is not
    negative: [year + (month - 1) / 12] is [(12 * year + month - 1) / 12],
    and the integer nearest to a thousand times that is taken as in
    [isRounded]. *)
Definition exactDecimalYear (year month : Z) : number :=
  let p := 12 * year + (month - 1) in
  ofDecimal false ((2 * p * 1000 + 12) / (2 * 12)) (-3).

Definition exactOn (year month : Z) : bool :=
  match Fullcam.dateToDecimalYear year month with
  | Success x => number_eqb x (exactDecimalYear year month)
  | Failure _ => false
  end.

Definition exactOnYears (first count : Z) : bool :=
  forallb (fun year => forallb (exactOn year) (seqZ 1 12)) (seqZ first count).

(** *** Column resolution *)

Inductive Role := DecYear | Year | StepInYear | TreeCarbon | DebrisCarbon.

(** The test that the code applies to a header to find the column of
    a role. *)
Definition matches (role : Role) : string -> bool :=
  match role with
  | DecYear => Fullcam.isDecYear
  | Year => CarbonCharts.isYear
  | StepInYear => CarbonCharts.isStep
  | TreeCarbon => Fullcam.isTreeCarbon
  | DebrisCarbon => CarbonCharts.isDebris
  end.

Definition resolve (role : Role) (headers : list string) : Z :=
  findIndex (matches role) headers.

(** [headers'] reorders columns of [headers] that are unrelated to the
    role: it has the same columns, and wherever the two rows differ
    neither column passes the test of the role. *)
Definition unrelatedReordering (role : Role) (headers headers' : list string) : Prop :=
  Permutation headers headers' /\
  forall (i : nat) (a b : string),
    headers !! i = Some a -> headers' !! i = Some b -> a <> b ->
    matches role a = false /\ matches role b = false.

(** *** Usable rows of the sequestration calculator *)

(** The rows that the scan of [calculateCarbonSequestration] reads,
    in the order of the export. *)
Definition usableRows (lines : list string) : list Fullcam.Row :=
  let headers := Fullcam.splitFields (hd EmptyString lines) in
  let decYearIndex := findIndex Fullcam.isDecYear headers in
  let carbonIndex := findIndex Fullcam.isTreeCarbon headers in
  if (decYearIndex =? -1) || (carbonIndex =? -1) then []
  else omap (Fullcam.readRow decYearIndex carbonIndex) (tl lines).

Definition records (r : Fullcam.SimulationResponse) : list Fullcam.Row :=
  match Fullcam.data r with
  | Some csvData => usableRows (Fullcam.splitLines csvData)
  | None => []
  end.

(** The distance of a row to a date, as the scan computes it. *)
Definition distance (target : number) (row : Fullcam.Row) : number :=
  abs (sub (Fullcam.decYear row) target).

(** Row [r], at index [k], is the first of the rows that is nearest to
    the date: it is at a finite distance, no row is strictly nearer,
    and no earlier row is as near. *)
Definition firstNearest (rows : list Fullcam.Row) (target : number)
    (k : nat) (r : Fullcam.Row) : Prop :=
  rows !! k = Some r /\
  lt (distance target r) Infinity = true /\
  (forall (j : nat) (r' : Fullcam.Row), rows !! j = Some r' ->
     lt (distance target r') (distance target r) = false) /\
  (forall (j : nat) (r' : Fullcam.Row), (j < k)%nat -> rows !! j = Some r' ->
     le (distance target r') (distance target r) = false).

(** The scan for one date alone: the closest value so far and its
    distance. *)
Definition nearerTo (target : number) (best : option number * number)
    (row : Fullcam.Row) : option number * number :=
  let diff := distance target row in
  if lt diff (snd best) then (Some (Fullcam.carbonValue row), diff) else best.

(** *** Usable rows of the step series *)

Definition usablePoints (lines : list string) : list CarbonCharts.Point :=
  let headers := CarbonCharts.splitFields (hd EmptyString lines) in
  let yearIndex := findIndex CarbonCharts.isYear headers in
  let stepIndex := findIndex CarbonCharts.isStep headers in
  let treesIndex := findIndex CarbonCharts.isTrees headers in
  let debrisIndex := findIndex CarbonCharts.isDebris headers in
  if (yearIndex =? -1) || (stepIndex =? -1) || (treesIndex =? -1)
     || (debrisIndex =? -1) then []
  else omap (CarbonCharts.readPoint yearIndex stepIndex treesIndex debrisIndex)
            (tl lines).

Definition ascending (a b : CarbonCharts.Point) : Prop :=
  CarbonCharts.point a <= CarbonCharts.point b.

Definition inWindow (startPoint endPoint : Z) (p : CarbonCharts.Point) : bool :=
  (startPoint <=? CarbonCharts.point p) && (CarbonCharts.point p <=? endPoint).

(** The change of a record against the record before it. *)
Definition changeBetween (previous current : CarbonCharts.Point)
    : CarbonCharts.StepCarbonChange.t :=
  {| CarbonCharts.StepCarbonChange.label :=
       (intToString (CarbonCharts.year current) ++ "-S"
          ++ intToString (CarbonCharts.step current))%string;
     CarbonCharts.StepCarbonChange.delta :=
       CarbonCharts.fixed 10
         (sub (CarbonCharts.combinedCarbon current)
              (CarbonCharts.combinedCarbon previous)) |}.

(** Every record but the first, with the record before it. *)
Definition withPrevious (sorted : list CarbonCharts.Point)
    : list (CarbonCharts.Point * CarbonCharts.Point) :=
  zip sorted (tl sorted).

Definition swapped (range : CarbonCharts.CarbonAnalysisRange)
    : CarbonCharts.CarbonAnalysisRange :=
  {| CarbonCharts.startYear := CarbonCharts.endYear range;
     CarbonCharts.startStepInYear := CarbonCharts.endStepInYear range;
     CarbonCharts.endYear := CarbonCharts.startYear range;
     CarbonCharts.endStepInYear := CarbonCharts.startStepInYear range |}.

(** *** Exports used as examples *)

Definition treeHeader : string := "Dec. Year,C mass of trees (tC/ha)".

Definition oneRowExport : string := joinLines [treeHeader; "2024.0,10.0"%string].

Definition noRowExport : string := joinLines [treeHeader; "n/a,n/a"%string].

Definition threeYearExport : string :=
  joinLines [treeHeader; "2024.0,10.0"; "2027.0,11.0"]%string.

(** Two rows at the same distance, one half, from 2024.5. *)
Definition tieExport : string :=
  joinLines [treeHeader; "2024.0,10.0"; "2025.0,20.0"]%string.

(** An export whose data rows stop before the last column. *)
Definition shortHeader : string :=
  "Year,Step in Year,Dec. Year,C mass of trees (tC/ha),C mass of forest debris (tC/ha),Notes".

Definition shortRows : list string :=
  ["2024,1,2024.0,10.0,2.0"; "2024,2,2024.083,10.5,2.1"]%string.

Definition shortRowExport : string := joinLines (shortHeader :: shortRows).

Definition exampleExport : string :=
  joinLines
    ["Year,Step in Year,Dec. Year,C mass of trees (tC/ha),C mass of forest debris (tC/ha)";
     "2024,1,2024.0,10.0,2.0";
     "2024,2,2024.083,10.5,2.1"]%string.

Definition chartHeader : string :=
  "Year,Step in Year,C mass of trees (tC/ha),C mass of forest debris (tC/ha)".

Definition exampleRange : CarbonCharts.CarbonAnalysisRange :=
  {| CarbonCharts.startYear := 2024;
     CarbonCharts.startStepInYear := 1;
     CarbonCharts.endYear := 2024;
     CarbonCharts.endStepInYear := 2 |}.

(** Two step changes, of 0.6 and of -0.1. *)
Definition exampleChanges : list CarbonCharts.StepCarbonChange.t :=
  [ {| CarbonCharts.StepCarbonChange.label := "2024-S2";
       CarbonCharts.StepCarbonChange.delta := ofDecimal false 6 (-1) |};
    {| CarbonCharts.StepCarbonChange.label := "2024-S3";
       CarbonCharts.StepCarbonChange.delta := ofDecimal true 1 (-1) |} ].

Definition response (csvData : string) : Fullcam.SimulationResponse :=
  {| Fullcam.success := true; Fullcam.data := Some csvData |}.

(** *** Notions of the further properties *)

(** The value that the scan settles on for one date; [None] when it
    settles on no row. *)
Definition resolveDate (rows : list Fullcam.Row) (target : number) : option number :=
  fst (fold_left (nearerTo target) rows (None, Infinity)).

(** The result that [calculateCarbonSequestration] builds from the
    values resolved for the two dates. *)
Definition sequestrationBetween (startCarbon endCarbon : number) : Fullcam.Sequestration :=
  {| Fullcam.totalCarbon := Fullcam.fixed 10 (sub endCarbon startCarbon);
     Fullcam.startCarbon := Fullcam.fixed 10 startCarbon;
     Fullcam.endCarbon := Fullcam.fixed 10 endCarbon;
     Fullcam.dataPoints := 2 |}.

Definition isFiniteNumber (x : number) : bool :=
  match x with
  | S754_finite _ _ _ | S754_zero _ => true
  | _ => false
  end.

Definition isZero (x : number) : bool :=
  match x with S754_zero _ => true | _ => false end.

Fixpoint hasBackslash (s : string) : bool :=
  match s with
  | String c r => Ascii.eqb c "\" || hasBackslash r
  | EmptyString => false
  end.

(** The export with every line feed written as a carriage return and
    a line feed. *)
Fixpoint crlf (s : string) : string :=
  match s with
  | String c r =>
      if Ascii.eqb c "010" then String "013" (String "010" (crlf r))
      else String c (crlf r)
  | EmptyString => EmptyString
  end.

(** A line, and the same line with a carriage return at its end. *)
Definition sameLine (a b : string) : Prop :=
  b = a \/ b = (a ++ String "013" EmptyString)%string.

Definition newline : string := String "010" EmptyString.

(** The two ends of the window of a range. *)
Definition windowStart (range : CarbonCharts.CarbonAnalysisRange) : Z :=
  Z.min (CarbonCharts.toStepPoint (CarbonCharts.startYear range)
           (CarbonCharts.startStepInYear range))
        (CarbonCharts.toStepPoint (CarbonCharts.endYear range)
           (CarbonCharts.endStepInYear range)).

Definition windowEnd (range : CarbonCharts.CarbonAnalysisRange) : Z :=
  Z.max (CarbonCharts.toStepPoint (CarbonCharts.startYear range)
           (CarbonCharts.startStepInYear range))
        (CarbonCharts.toStepPoint (CarbonCharts.endYear range)
           (CarbonCharts.endStepInYear range)).

(** Two lines that split into the same trimmed fields. *)
Definition sameFields (a b : string) : Prop :=
  Fullcam.splitFields a = Fullcam.splitFields b.

(** The exact decimal year of the month of index [p = 12 * year +
    (month - 1)], and the test that it rises from each month to the
    next over a span of years. *)
Definition risesOnYears (first count : Z) : bool :=
  forallb (fun p => lt (exactDecimalYear 0 (p + 1)) (exactDecimalYear 0 (p + 2)))
          (seqZ (12 * first) (12 * count - 1)).

(** The integers that a Number holds exactly, [Number.isSafeInteger]:
    on them the arithmetic of the code is the arithmetic of the
    integers, and ToString writes their decimal digits. *)
Definition safeInteger (n : Z) : Prop := - 2 ^ 53 < n < 2 ^ 53.

(** A year and a step whose step point the code computes exactly: the
    two integers read, the product [year * 12], the difference
    [step - 1] and their sum are safe integers. *)
Definition exactStepPoint (year step : Z) : Prop :=
  safeInteger year /\ safeInteger step /\
  safeInteger (year * 12) /\ safeInteger (step - 1) /\
  safeInteger (CarbonCharts.toStepPoint year step).

Definition exactPoints (points : list CarbonCharts.Point) : Prop :=
  Forall (fun p => exactStepPoint (CarbonCharts.year p) (CarbonCharts.step p))
         points.

Definition exactRange (range : CarbonCharts.CarbonAnalysisRange) : Prop :=
  exactStepPoint (CarbonCharts.startYear range) (CarbonCharts.startStepInYear range)
  /\ exactStepPoint (CarbonCharts.endYear range) (CarbonCharts.endStepInYear range).

(** The escaping that [unescapeJsonString] undoes: a character with an
    escape letter is written as a backslash and the letter.  The
    letters are those of JSON for the quote, the line feed, the
    carriage return and the tab. *)
Definition escapeLetter (x : ascii) : option ascii :=
  if Ascii.eqb x "034" then Some "034"%char
  else if Ascii.eqb x "010" then Some "n"%char
  else if Ascii.eqb x "013" then Some "r"%char
  else if Ascii.eqb x "009" then Some "t"%char
  else None.

Fixpoint escapeWith (letter : ascii -> option ascii) (s : string) : string :=
  match s with
  | String x r =>
      match letter x with
      | Some c => String "\" (String c (escapeWith letter r))
      | None => String x (escapeWith letter r)
      end
  | EmptyString => EmptyString
  end.

Definition escapeJson : string -> string := escapeWith escapeLetter.

(** The letters of [letter] without the one of the character [r]. *)
Definition without (r : ascii) (letter : ascii -> option ascii) (x : ascii) :
    option ascii :=
  if Ascii.eqb x r then None else letter x.

End Notions.

(** ** Facts about the runtime *)

Module NumberFacts.
Import JS.

(** The comparison of two numbers is decided by their sign, exponent
    and mantissa; the tactics below split a goal along them. *)
Ltac by_class x := destruct x as [[]|[]| |[] ? ?].

Ltac compare_cases :=
  repeat match goal with
  | H : context [Pos.compare_cont Eq ?a ?b] |- _ =>
      change (Pos.compare_cont Eq a b) with (Pos.compare a b) in H
  | |- context [Pos.compare_cont Eq ?a ?b] =>
      change (Pos.compare_cont Eq a b) with (Pos.compare a b)
  end;
  repeat match goal with
  | H : context [Z.compare ?a ?b] |- _ =>
      destruct (Z.compare_spec a b); simpl in H
  | |- context [Z.compare ?a ?b] =>
      destruct (Z.compare_spec a b); simpl
  | H : context [Pos.compare ?a ?b] |- _ =>
      destruct (Pos.compare_spec a b); simpl in H
  | |- context [Pos.compare ?a ?b] =>
      destruct (Pos.compare_spec a b); simpl
  end;
  try discriminate; try reflexivity; try lia.

Lemma lt_irrefl (x : number) : lt x x = false.
Proof. unfold lt, SFltb, SFcompare. by_class x; simpl; compare_cases. Qed.

Lemma le_lt_trans (y x d : number) :
  le y x = true -> lt x d = true -> lt y d = true.
Proof.
  unfold lt, le, SFltb, SFleb, SFcompare.
  by_class x; by_class d; simpl; try discriminate;
    by_class y; simpl; try discriminate; try reflexivity;
    intros; compare_cases.
Qed.

Lemma lt_below_Infinity (x d : number) : lt x d = true -> lt x Infinity = true.
Proof.
  unfold lt, Infinity, SFltb, SFcompare.
  by_class x; by_class d; simpl; try discriminate; reflexivity.
Qed.

Lemma le_not_gt (x y : number) : le x y = true -> gt x y = false.
Proof.
  unfold gt, le, SFltb, SFleb, SFcompare.
  by_class x; by_class y; simpl; try discriminate; try reflexivity;
    intros; compare_cases.
Qed.

Lemma not_lt_not_le (x y d : number) :
  lt x d = true -> lt y d = false -> le y x = false.
Proof.
  intros Hx Hy. destruct (le y x) eqn:E; [|reflexivity].
  rewrite (le_lt_trans _ _ _ E Hx) in Hy. discriminate.
Qed.

Lemma not_le_not_lt (x y : number) : le y x = false -> lt y x = false.
Proof.
  unfold lt, le, SFltb, SFleb. destruct (SFcompare y x) as [[]|]; congruence.
Qed.

End NumberFacts.

Module ListFacts.
Import JS.

Lemma findIndexFrom_map {A} (p : A -> bool) (l l' : list A) (i : Z) :
  map p l = map p l' -> findIndexFrom p l i = findIndexFrom p l' i.
Proof.
  revert l' i. induction l as [|x l IH]; intros [|y l'] i E;
    simpl in *; try discriminate; [reflexivity|].
  injection E as Hxy Hl. rewrite Hxy.
  destruct (p y); [reflexivity|]. apply IH, Hl.
Qed.

Lemma findIndexFrom_found {A} (p : A -> bool) (l : list A) (i : Z) :
  (exists x, In x l /\ p x = true) ->
  exists (n : nat) (x : A),
    findIndexFrom p l i = i + Z.of_nat n /\ l !! n = Some x /\ p x = true.
Proof.
  revert i. induction l as [|y l IH]; intros i [x [Hin Hp]]; [destruct Hin|].
  simpl. destruct (p y) eqn:Ey.
  - exists 0%nat, y. split; [lia|]. split; [reflexivity|exact Ey].
  - destruct Hin as [->|Hin]; [congruence|].
    destruct (IH (i + 1) (ex_intro _ x (conj Hin Hp))) as (n & z & Hn & Hz & Hpz).
    exists (S n), z. split; [lia|]. split; assumption.
Qed.

Lemma omap_cons {A B} (f : A -> option B) (x : A) (l : list A) :
  omap f (x :: l) = match f x with Some y => y :: omap f l | None => omap f l end.
Proof. reflexivity. Qed.

Lemma at_beyond {A} (l : list A) (i : Z) :
  Z.of_nat (length l) <= i -> at_ l i = None.
Proof. intros H. unfold at_. apply lookup_ge_None. lia. Qed.

End ListFacts.

Module RoundingFacts.
Import JS Notions.

Lemma readDigits_all (A rest : string) (acc cnt : Z) :
  allDigits A = true -> stopsDigits rest ->
  readDigits (A ++ rest) acc cnt = (valueFrom acc A, cnt + Z.of_nat (String.length A), rest).
Proof.
  revert acc cnt. induction A as [|c A IH]; intros acc cnt HA Hrest.
  - change (readDigits rest acc cnt = (acc, cnt + 0, rest)). rewrite Z.add_0_r.
    destruct rest as [|c r]; [reflexivity|]. simpl in *. rewrite Hrest. reflexivity.
  - simpl in *. destruct (digitValue c) as [d|]; [|discriminate].
    rewrite IH by assumption. f_equal. f_equal. lia.
Qed.

Lemma valueFrom_app (A B : string) (acc : Z) :
  allDigits A = true -> valueFrom acc (A ++ B) = valueFrom (valueFrom acc A) B.
Proof.
  revert acc. induction A as [|c A IH]; intros acc HA; [reflexivity|].
  simpl in *. destruct (digitValue c); [apply IH, HA|discriminate].
Qed.

Lemma valueFrom_shift (B : string) (acc : Z) :
  allDigits B = true ->
  valueFrom acc B = acc * 10 ^ Z.of_nat (String.length B) + valueFrom 0 B.
Proof.
  revert acc. induction B as [|c B IH]; intros acc HB; [simpl; lia|].
  simpl in HB. cbn [valueFrom String.length].
  destruct (digitValue c) as [d|]; [|discriminate].
  rewrite (IH (10 * acc + d) HB), (IH (10 * 0 + d) HB).
  rewrite Nat2Z.inj_succ, Z.pow_succ_r by lia. ring.
Qed.

Lemma allDigits_app (A B : string) :
  allDigits (A ++ B) = allDigits A && allDigits B.
Proof.
  induction A as [|c A IH]; [reflexivity|]. simpl.
  destruct (digitValue c); [exact IH|reflexivity].
Qed.

Lemma allDigits_uint (d : Decimal.uint) : allDigits (NilEmpty.string_of_uint d) = true.
Proof. induction d; simpl; auto. Qed.

Lemma valueFrom_uint_acc (d : Decimal.uint) (acc : positive) :
  valueFrom (Zpos acc) (NilEmpty.string_of_uint d) = Zpos (Pos.of_uint_acc d acc).
Proof.
  revert acc. induction d; intros acc; cbn [NilEmpty.string_of_uint valueFrom Pos.of_uint_acc];
    try reflexivity;
    match goal with
    | |- context [digitValue ?c] =>
        let v := eval vm_compute in (digitValue c) in
        change (digitValue c) with v; cbv iota beta
    end;
    rewrite <- IHd; f_equal; lia.
Qed.

Lemma valueFrom_uint (d : Decimal.uint) :
  valueFrom 0 (NilEmpty.string_of_uint d) = Z.of_N (Pos.of_uint d).
Proof.
  induction d; cbn [NilEmpty.string_of_uint valueFrom Pos.of_uint];
    try reflexivity;
    match goal with
    | |- context [digitValue ?c] =>
        let v := eval vm_compute in (digitValue c) in
        change (digitValue c) with v; cbv iota beta
    end;
    try exact IHd;
    match goal with
    | |- valueFrom ?a _ = _ =>
        let v := eval vm_compute in a in change a with v
    end;
    apply valueFrom_uint_acc.
Qed.

Lemma digitsOfN_uint (n : N) :
  digitsOfN n = NilEmpty.string_of_uint (N.to_uint n).
Proof.
  unfold digitsOfN, NilZero.string_of_uint.
  destruct n as [|p]; [reflexivity|].
  simpl. pose proof (DecimalPos.Unsigned.to_uint_nonnil p) as H.
  destruct (Pos.to_uint p); [contradiction|..]; reflexivity.
Qed.

Lemma digitsOf_all (n : Z) : allDigits (digitsOf n) = true.
Proof. unfold digitsOf. rewrite digitsOfN_uint. apply allDigits_uint. Qed.

Lemma digitsOf_value (n : Z) : 0 <= n -> valueFrom 0 (digitsOf n) = n.
Proof.
  intros H. unfold digitsOf. rewrite digitsOfN_uint, valueFrom_uint.
  change (Pos.of_uint (N.to_uint (Z.to_N n))) with (N.of_uint (N.to_uint (Z.to_N n))).
  rewrite DecimalN.Unsigned.of_to. lia.
Qed.

Lemma digit_char (c : ascii) (d : Z) (r : string) :
  digitValue c = Some d ->
  isWhiteSpace c = false /\
  readSign (String c r) = (false, String c r) /\
  String.prefix "Infinity" (String c r) = false.
Proof.
  destruct c as [[] [] [] [] [] [] [] []]; vm_compute; intros H;
    try discriminate H; repeat split.
Qed.

Lemma length_zeros (n : nat) : String.length (zeros n) = n.
Proof. induction n; simpl; congruence. Qed.

Lemma allDigits_zeros (n : nat) : allDigits (zeros n) = true.
Proof. induction n; simpl; auto. Qed.

Lemma valueFrom_zeros (n : nat) (s : string) : valueFrom 0 (zeros n ++ s) = valueFrom 0 s.
Proof. induction n; simpl; auto. Qed.

Lemma append_cons (c : ascii) (a b : string) :
  (String c a ++ b)%string = String c (a ++ b).
Proof. reflexivity. Qed.

Lemma append_nil (a : string) : (a ++ "")%string = a.
Proof. induction a as [|c a IH]; [reflexivity|]. rewrite append_cons, IH. reflexivity. Qed.

Lemma length_append (a b : string) :
  String.length (a ++ b)%string = (String.length a + String.length b)%nat.
Proof. induction a as [|c a IH]; simpl; [reflexivity|]. rewrite IH. reflexivity. Qed.

Lemma take_drop (n : nat) (s : string) : (takeStr n s ++ dropStr n s)%string = s.
Proof.
  revert s. induction n as [|n IH]; intros [|c s]; try reflexivity.
  simpl. rewrite append_cons. f_equal. apply IH.
Qed.

Lemma length_drop (n : nat) (s : string) :
  String.length (dropStr n s) = (String.length s - n)%nat.
Proof.
  revert s. induction n as [|n IH]; intros [|c s]; simpl; try reflexivity. apply IH.
Qed.

Lemma length_take (n : nat) (s : string) :
  (n <= String.length s)%nat -> String.length (takeStr n s) = n.
Proof.
  revert s. induction n as [|n IH]; intros [|c s] H; simpl in *; try reflexivity;
    [lia|]. rewrite IH by lia. reflexivity.
Qed.

Lemma parseFloat_digits (s : bool) (A tail : string) :
  allDigits A = true -> A <> EmptyString -> stopsDigits tail ->
  parseFloat ((if s then "-" else "") ++ A ++ tail)
  = let '(fp, fc, s2) :=
      match tail with
      | String "." r => readDigits r 0 0
      | _ => (0, 0, tail)
      end in
    ofDecimal s (valueFrom 0 A * 10 ^ fc + fp) (readExponent s2 - fc).
Proof.
  intros HA Hne Htail. destruct A as [|c A]; [contradiction|].
  pose proof HA as HA'. simpl in HA'.
  destruct (digitValue c) as [d|] eqn:Hc; [|discriminate].
  destruct (digit_char c d (A ++ tail) Hc) as (Hws & Hsign & Hinf).
  unfold parseFloat.
  assert (Hhead : readSign (trimStart ((if s then "-" else "") ++ String c A ++ tail))
                  = (s, (String c A ++ tail)%string)).
  { destruct s.
    - reflexivity.
    - change (("" ++ String c A ++ tail)%string) with (String c (A ++ tail)).
      cbn [trimStart]. rewrite Hws. exact Hsign. }
  rewrite Hhead.
  change ((String c A ++ tail)%string) with (String c (A ++ tail)) at 1.
  rewrite Hinf.
  rewrite (readDigits_all (String c A) tail 0 0 HA Htail).
  destruct (match tail with String "." r => readDigits r 0 0 | _ => (0, 0, tail) end)
    as [[fp fc] s2].
  replace (0 + Z.of_nat (String.length (String c A)) =? 0) with false
    by (symmetry; apply Z.eqb_neq; simpl String.length; lia).
  reflexivity.
Qed.

Lemma ratioOf_positive (m : positive) (e : Z) :
  0 < fst (ratioOf m e) /\ 0 < snd (ratioOf m e).
Proof.
  unfold ratioOf. destruct (Z.leb_spec 0 e); simpl; split; try lia;
    try (apply Z.mul_pos_pos; [lia|]); apply Z.pow_pos_nonneg; lia.
Qed.

(** The integer that [toFixed] writes is the nearest to the scaled
    value, the greater of two that are as near. *)
Lemma nearest_integer (p q t : Z) :
  0 < q -> let n := (2 * p * t + q) / (2 * q) in - q < 2 * (n * q - p * t) <= q.
Proof.
  intros Hq n.
  pose proof (Z.mul_div_le (2 * p * t + q) (2 * q) ltac:(lia)).
  pose proof (Z.mul_succ_div_gt (2 * p * t + q) (2 * q) ltac:(lia)).
  fold n in H, H0. lia.
Qed.

Lemma toFixed_parse (digits : nat) (s : bool) (n : Z) :
  0 <= n ->
  let ds := (zeros (S digits - String.length (digitsOf n)) ++ digitsOf n)%string in
  let k := String.length ds in
  parseFloat ((if s then "-" else "")
                ++ takeStr (k - digits) ds
                ++ (match digits with
                    | O => ""
                    | _ => "." ++ dropStr (k - digits) ds
                    end))%string
  = ofDecimal s n (- Z.of_nat digits).
Proof.
  intros Hn ds k.
  assert (Hall : allDigits ds = true).
  { unfold ds. rewrite allDigits_app, allDigits_zeros, digitsOf_all. reflexivity. }
  assert (Hval : valueFrom 0 ds = n).
  { unfold ds. rewrite valueFrom_zeros. apply digitsOf_value, Hn. }
  assert (Hk : (S digits <= k)%nat).
  { unfold k, ds. rewrite length_append, length_zeros. lia. }
  pose proof (take_drop (k - digits) ds) as Hsplit.
  assert (HallAB : allDigits (takeStr (k - digits) ds) = true
                   /\ allDigits (dropStr (k - digits) ds) = true).
  { rewrite <- Hsplit, allDigits_app in Hall. apply andb_true_iff in Hall. exact Hall. }
  destruct HallAB as [HA HB].
  assert (HlenA : String.length (takeStr (k - digits) ds) = (k - digits)%nat)
    by (apply length_take; fold k; lia).
  assert (HlenB : String.length (dropStr (k - digits) ds) = digits)
    by (rewrite length_drop; fold k; lia).
  assert (HneA : takeStr (k - digits) ds <> EmptyString).
  { intros E. rewrite E in HlenA. simpl in HlenA. lia. }
  assert (Hsum : valueFrom 0 (takeStr (k - digits) ds) * 10 ^ Z.of_nat digits
                 + valueFrom 0 (dropStr (k - digits) ds) = n).
  { assert (E : valueFrom 0 (takeStr (k - digits) ds ++ dropStr (k - digits) ds) = n)
      by (rewrite Hsplit; exact Hval).
    rewrite valueFrom_app in E by exact HA.
    rewrite (valueFrom_shift _ _ HB), HlenB in E. exact E. }
  destruct digits as [|d].
  - rewrite parseFloat_digits by (try assumption; exact I).
    cbv iota beta. change (readExponent "") with 0.
    simpl in Hsum. rewrite <- Hsum.
    destruct (dropStr (k - 0) ds) eqn:E; [|simpl in HlenB; discriminate].
    simpl. f_equal; lia.
  - change ("." ++ dropStr (k - S d) ds)%string
      with (String "." (dropStr (k - S d) ds)).
    rewrite parseFloat_digits by (try assumption; reflexivity).
    cbv iota beta.
    rewrite <- (append_nil (dropStr (k - S d) ds)).
    rewrite (readDigits_all _ EmptyString 0 0 HB I).
    cbv iota beta. change (readExponent "") with 0.
    rewrite HlenB, Z.add_0_l, Hsum. f_equal.
Qed.

Lemma number_eqb_eq (x y : number) : number_eqb x y = true -> x = y.
Proof.
  destruct x as [a|a| |a m e], y as [b|b| |b n f]; simpl; try discriminate;
    try reflexivity.
  - intros H. apply eqb_prop in H. congruence.
  - intros H. apply eqb_prop in H. congruence.
  - intros H. apply andb_true_iff in H as [H He].
    apply andb_true_iff in H as [Hs Hm].
    apply eqb_prop in Hs. apply Pos.eqb_eq in Hm. apply Z.eqb_eq in He.
    congruence.
Qed.

(** What [parseFloat(x.toFixed(digits))] is. *)
Lemma fixed_isRounded (digits : nat) (x : number) :
  below1e21 x -> isRounded digits x (parseFloat (toFixed x digits)).
Proof.
  destruct x as [s|s| |s m e]; intros Hbelow.
  - unfold isRounded, toFixed. destruct digits as [|d]; [reflexivity|].
    change ("0." ++ zeros (S d))%string
      with ((if false then "-" else "") ++ "0" ++ String "." (zeros (S d)))%string.
    rewrite parseFloat_digits by (try discriminate; reflexivity).
    cbv iota beta.
    rewrite <- (append_nil (zeros (S d))).
    rewrite (readDigits_all _ EmptyString 0 0 (allDigits_zeros (S d)) I).
    cbv iota beta.
    assert (E : valueFrom 0 (zeros (S d)) = 0)
      by (rewrite <- (append_nil (zeros (S d))); apply valueFrom_zeros).
    rewrite E. change (valueFrom 0 "0") with 0.
    rewrite Z.mul_0_l. unfold ofDecimal. destruct (_ <=? _); reflexivity.
  - destruct s; reflexivity.
  - reflexivity.
  - unfold isRounded, below1e21 in *.
    destruct (ratioOf_positive m e) as [Hp Hq].
    set (p := fst (ratioOf m e)) in *. set (q := snd (ratioOf m e)) in *.
    exists ((2 * p * 10 ^ Z.of_nat digits + q) / (2 * q)).
    split; [|apply nearest_integer, Hq].
    unfold toFixed. unfold p, q in *. destruct (ratioOf m e) as [p' q'].
    cbn [fst snd] in *.
    destruct (Z.leb_spec (10 ^ 21 * q') p'); [lia|].
    apply toFixed_parse.
    apply Z.div_pos; [|lia].
    assert (0 <= 10 ^ Z.of_nat digits) by (apply Z.pow_nonneg; lia). nia.
Qed.

End RoundingFacts.

(** ** Facts about the sequestration calculator *)

Module FullcamFacts.
Import JS Fullcam Notions NumberFacts ListFacts.

Lemma parseFloat_undefined : parseFloat (toStringOpt None) = NaN.
Proof. reflexivity. Qed.

Lemma readRow_missing (decYearIndex carbonIndex : Z) (line : string) :
  Z.of_nat (length (splitFields line)) <= decYearIndex \/
  Z.of_nat (length (splitFields line)) <= carbonIndex ->
  readRow decYearIndex carbonIndex line = None.
Proof.
  intros H. unfold readRow. destruct H as [H|H].
  - rewrite (at_beyond _ _ H), parseFloat_undefined. reflexivity.
  - rewrite (at_beyond _ _ H), parseFloat_undefined.
    rewrite orb_true_r. reflexivity.
Qed.

Lemma scan_rows (di ci : Z) (s e : number) (lines : list string) (st : Scan.t) :
  fold_left (scanRow di ci s e) lines st
  = fold_left (nearer s e) (omap (readRow di ci) lines) st.
Proof.
  revert st. induction lines as [|line lines IH]; intros st; [reflexivity|].
  simpl. unfold scanRow at 2.
  destruct (readRow di ci line); simpl; apply IH.
Qed.

(** The two halves of the scan do not interfere. *)
Lemma nearer_start (s e : number) (rows : list Row) (st : Scan.t) :
  let st' := fold_left (nearer s e) rows st in
  (Scan.startCarbon st', Scan.closestStartDiff st')
  = fold_left (nearerTo s) rows (Scan.startCarbon st, Scan.closestStartDiff st).
Proof.
  revert st. induction rows as [|r rows IH]; intros st; [reflexivity|].
  simpl. simpl in IH. rewrite IH. f_equal.
  unfold nearer, nearerTo, distance. simpl.
  destruct (lt (abs (sub (decYear r) s)) (Scan.closestStartDiff st));
    simpl; destruct (lt (abs (sub (decYear r) e)) _); reflexivity.
Qed.

Lemma nearer_end (s e : number) (rows : list Row) (st : Scan.t) :
  let st' := fold_left (nearer s e) rows st in
  (Scan.endCarbon st', Scan.closestEndDiff st')
  = fold_left (nearerTo e) rows (Scan.endCarbon st, Scan.closestEndDiff st).
Proof.
  revert st. induction rows as [|r rows IH]; intros st; [reflexivity|].
  simpl. simpl in IH. rewrite IH. f_equal.
  unfold nearer, nearerTo, distance. simpl.
  destruct (lt (abs (sub (decYear r) s)) (Scan.closestStartDiff st));
    simpl; destruct (lt (abs (sub (decYear r) e)) _); reflexivity.
Qed.

(** What the scan for one date holds after any number of rows. *)
Lemma nearerTo_scan (target : number) (rows : list Row) :
  let best := fold_left (nearerTo target) rows (None, Infinity) in
  (forall (j : nat) (r' : Row), rows !! j = Some r' ->
     lt (distance target r') (snd best) = false) /\
  (best = (None, Infinity) \/
   exists (k : nat) (r : Row),
     best = (Some (carbonValue r), distance target r) /\
     firstNearest rows target k r).
Proof.
  induction rows as [|x rows IH] using rev_ind.
  - simpl. split; [intros j r' H; destruct j; discriminate H | left; reflexivity].
  - rewrite fold_left_app. simpl.
    destruct IH as [Hmin Hbest].
    set (best := fold_left (nearerTo target) rows (None, Infinity)) in *.
    assert (Hstep : nearerTo target best x
                    = if lt (distance target x) (snd best)
                      then (Some (carbonValue x), distance target x) else best)
      by reflexivity.
    rewrite Hstep. clear Hstep.
    destruct (lt (distance target x) (snd best)) eqn:Hlt.
    + assert (Hfar : forall (j : nat) (r' : Row), rows !! j = Some r' ->
                le (distance target r') (distance target x) = false).
      { intros j r' Hj. eapply not_lt_not_le; [exact Hlt | eapply Hmin, Hj]. }
      assert (Hall : forall (j : nat) (r' : Row), (rows ++ [x]) !! j = Some r' ->
                lt (distance target r') (distance target x) = false).
      { intros j r' Hj. apply lookup_app_Some in Hj as [Hj|[_ Hj]].
        - eapply not_le_not_lt, Hfar, Hj.
        - apply list_lookup_singleton_Some in Hj as [_ <-]. apply lt_irrefl. }
      split; [exact Hall|]. right. exists (length rows), x.
      split; [reflexivity|]. repeat split.
      * rewrite lookup_app_r by lia. rewrite Nat.sub_diag. reflexivity.
      * eapply lt_below_Infinity, Hlt.
      * exact Hall.
      * intros j r' Hj Hr'. rewrite lookup_app_l in Hr' by exact Hj.
        eapply Hfar, Hr'.
    + assert (Hall : forall (j : nat) (r' : Row), (rows ++ [x]) !! j = Some r' ->
                lt (distance target r') (snd best) = false).
      { intros j r' Hj. apply lookup_app_Some in Hj as [Hj|[_ Hj]].
        - eapply Hmin, Hj.
        - apply list_lookup_singleton_Some in Hj as [_ <-]. exact Hlt. }
      split; [exact Hall|].
      destruct Hbest as [Hb|(k & r & Hb & Hk & Hfin & Hnear & Hfirst)];
        [left; exact Hb|].
      right. exists k, r. split; [exact Hb|]. repeat split.
      * apply lookup_app_l_Some, Hk.
      * exact Hfin.
      * intros j r' Hj. rewrite Hb in Hall. eapply Hall, Hj.
      * intros j r' Hj Hr'.
        assert (j < length rows)%nat
          by (apply lookup_lt_Some in Hk; lia).
        rewrite lookup_app_l in Hr' by assumption. eapply Hfirst; eassumption.
Qed.

(** A row at a finite distance makes the scan settle on a row. *)
Lemma nearerTo_found (target : number) (rows : list Row) :
  (exists r, In r rows /\ lt (distance target r) Infinity = true) ->
  exists (k : nat) (r : Row),
    fold_left (nearerTo target) rows (None, Infinity)
    = (Some (carbonValue r), distance target r) /\
    firstNearest rows target k r.
Proof.
  intros (r0 & Hin & Hfin).
  destruct (nearerTo_scan target rows) as [Hmin [Hb|Hb]]; [|exact Hb].
  apply list_elem_of_In, list_elem_of_lookup in Hin as [j Hj].
  specialize (Hmin j r0 Hj). rewrite Hb in Hmin. simpl in Hmin. congruence.
Qed.

(** The outcome in terms of the usable rows, once the export has a
    data line and both columns. *)
Lemma sequestrationOfLines_rows (lines : list string) (s e : number) :
  (2 <= length lines)%nat ->
  findIndex isDecYear (splitFields (hd EmptyString lines)) <> -1 ->
  findIndex isTreeCarbon (splitFields (hd EmptyString lines)) <> -1 ->
  sequestrationOfLines lines s e =
    let st := fold_left (nearer s e) (usableRows lines) scanStart in
    match Scan.startCarbon st, Scan.endCarbon st with
    | Some startCarbon, Some endCarbon =>
        Success {| totalCarbon := fixed 10 (sub endCarbon startCarbon);
                   startCarbon := fixed 10 startCarbon;
                   endCarbon := fixed 10 endCarbon;
                   dataPoints := 2 |}
    | _, _ => Failure "Could not find carbon values for the specified date range"
    end.
Proof.
  intros Hlen Hd Hc. unfold sequestrationOfLines, usableRows.
  destruct (Nat.ltb_spec (length lines) 2) as [?|_]; [lia|].
  destruct (Z.eqb_spec (findIndex isDecYear (splitFields (hd EmptyString lines))) (-1));
    [contradiction|].
  destruct (Z.eqb_spec (findIndex isTreeCarbon (splitFields (hd EmptyString lines))) (-1));
    [contradiction|].
  simpl. rewrite scan_rows. reflexivity.
Qed.

End FullcamFacts.

(** ** Facts about the step series *)

Module ChartFacts.
Import JS CarbonCharts Notions ListFacts.

(** *** The sort *)

Lemma insert_Permutation {A} (compare : A -> A -> Z) (x : A) (l : list A) :
  Permutation (x :: l) (insert compare x l).
Proof.
  induction l as [|y r IH]; simpl; [reflexivity|].
  destruct (0 <? compare x y); [|reflexivity].
  rewrite perm_swap. apply perm_skip, IH.
Qed.

Lemma sort_Permutation {A} (compare : A -> A -> Z) (l : list A) :
  Permutation l (sort compare l).
Proof.
  induction l as [|x l IH]; simpl; [reflexivity|].
  rewrite <- insert_Permutation. apply perm_skip, IH.
Qed.

Lemma sort_length {A} (compare : A -> A -> Z) (l : list A) :
  length (sort compare l) = length l.
Proof. symmetry. apply Permutation_length, sort_Permutation. Qed.

Lemma insert_ascending (x : Point) (l : list Point) :
  StronglySorted ascending l -> StronglySorted ascending (insert comparePoints x l).
Proof.
  induction l as [|y r IH]; intros Hs; simpl.
  - constructor; constructor.
  - apply StronglySorted_inv in Hs as [Hr Hy].
    unfold comparePoints at 1.
    destruct (Z.ltb_spec 0 (point x - point y)) as [Hgt|Hle].
    + constructor; [apply IH, Hr|].
      rewrite <- insert_Permutation. constructor; [|exact Hy].
      unfold ascending. lia.
    + constructor; [constructor; assumption|].
      constructor; [unfold ascending; lia|].
      eapply Forall_impl; [exact Hy|].
      unfold ascending. intros z Hz. simpl in Hz. lia.
Qed.

Lemma sort_ascending (l : list Point) :
  StronglySorted ascending (sort comparePoints l).
Proof.
  induction l as [|x l IH]; simpl; [constructor|]. apply insert_ascending, IH.
Qed.

(** The sort is stable: records of one step point keep their order. *)
Lemma insert_stable (k : Z) (x : Point) (l : list Point) :
  List.filter (fun p => point p =? k) (insert comparePoints x l)
  = List.filter (fun p => point p =? k) (x :: l).
Proof.
  induction l as [|y r IH]; [reflexivity|].
  simpl insert. unfold comparePoints at 1.
  destruct (Z.ltb_spec 0 (point x - point y)) as [Hgt|Hle]; [|reflexivity].
  simpl. simpl in IH. rewrite IH.
  destruct (Z.eqb_spec (point x) k), (Z.eqb_spec (point y) k);
    try reflexivity; lia.
Qed.

Lemma sort_stable (k : Z) (l : list Point) :
  List.filter (fun p => point p =? k) (sort comparePoints l)
  = List.filter (fun p => point p =? k) l.
Proof.
  induction l as [|x l IH]; [reflexivity|].
  simpl sort. rewrite insert_stable. simpl. rewrite IH. reflexivity.
Qed.

(** *** The steps of a record *)

Lemma readPoint_point (yi si ti di : Z) (line : string) (p : Point) :
  readPoint yi si ti di line = Some p -> point p = toStepPoint (year p) (step p).
Proof.
  unfold readPoint.
  destruct (parseInt _) as [y|]; [|discriminate].
  destruct (parseInt _) as [s|]; [|discriminate].
  destruct (isNaN _ || isNaN _); [discriminate|].
  intros [= <-]. reflexivity.
Qed.

Lemma usablePoints_point (lines : list string) :
  Forall (fun p => point p = toStepPoint (year p) (step p)) (usablePoints lines).
Proof.
  unfold usablePoints. destruct (_ || _); [constructor|].
  induction (tl lines) as [|line rest IH]; simpl; [constructor|].
  destruct (readPoint _ _ _ _ line) eqn:E; [|exact IH].
  constructor; [eapply readPoint_point, E | exact IH].
Qed.

(** *** The loop over the sorted records *)

Lemma changeAt_pair (pre rest : list Point) (x y : Point) (a b : Z) :
  changeAt (pre ++ x :: y :: rest) a b (S (length pre))
  = if inWindow a b y then Some (changeBetween x y) else None.
Proof.
  unfold changeAt.
  replace (S (length pre) - 1)%nat with (length pre) by lia.
  rewrite (lookup_app_r pre _ (S (length pre))) by lia.
  replace (S (length pre) - length pre)%nat with 1%nat by lia.
  rewrite (lookup_app_r pre _ (length pre)) by lia.
  rewrite Nat.sub_diag. simpl. unfold inWindow.
  destruct (Z.ltb_spec (point y) a), (Z.ltb_spec b (point y)),
    (Z.leb_spec a (point y)), (Z.leb_spec (point y) b);
    simpl; try reflexivity; lia.
Qed.

Lemma changes_from (pre rest : list Point) (x : Point) (a b : Z) :
  omap (changeAt (pre ++ x :: rest) a b) (seq (S (length pre)) (length rest))
  = map (fun pc => changeBetween (fst pc) (snd pc))
        (List.filter (fun pc => inWindow a b (snd pc)) (zip (x :: rest) rest)).
Proof.
  revert pre x. induction rest as [|y rest IH]; intros pre x; [reflexivity|].
  simpl length. rewrite <- cons_seq, omap_cons, changeAt_pair.
  specialize (IH (pre ++ [x]) y).
  rewrite <- app_assoc in IH. simpl app in IH.
  rewrite length_app in IH. simpl length in IH.
  replace (length pre + 1)%nat with (S (length pre)) in IH by lia.
  rewrite IH. simpl. destruct (inWindow a b y); reflexivity.
Qed.

Lemma changes_withPrevious (sorted : list Point) (a b : Z) :
  omap (changeAt sorted a b) (seq 1 (length sorted - 1))
  = map (fun pc => changeBetween (fst pc) (snd pc))
        (List.filter (fun pc => inWindow a b (snd pc)) (withPrevious sorted)).
Proof.
  destruct sorted as [|x rest]; [reflexivity|].
  replace (length (x :: rest) - 1)%nat with (length rest) by (simpl; lia).
  apply (changes_from [] rest x a b).
Qed.

(** The outcome in terms of the usable rows. *)
Lemma stepChangesOfLines_points (lines : list string) (range : CarbonAnalysisRange) :
  (2 <= length (usablePoints lines))%nat ->
  stepChangesOfLines lines range =
    let sorted := sort comparePoints (usablePoints lines) in
    let startPoint :=
      Z.min (toStepPoint (startYear range) (startStepInYear range))
            (toStepPoint (endYear range) (endStepInYear range)) in
    let endPoint :=
      Z.max (toStepPoint (startYear range) (startStepInYear range))
            (toStepPoint (endYear range) (endStepInYear range)) in
    let changes := omap (changeAt sorted startPoint endPoint)
                        (seq 1 (length sorted - 1)) in
    match changes with
    | [] => Failure "No step changes found in selected analysis period"
    | _ => Success changes
    end.
Proof.
  intros Hlen. unfold stepChangesOfLines. unfold usablePoints in *.
  destruct (Nat.ltb_spec (length lines) 2) as [Hl|_].
  { destruct lines as [|h [|? ?]]; simpl in Hl; try lia;
      simpl in Hlen; destruct (_ || _); simpl in Hlen; lia. }
  destruct (_ || _ || _ || _); [simpl in Hlen; lia|].
  cbv zeta.
  match goal with
  | |- context [(length (sort comparePoints ?l) <? 2)%nat] =>
      destruct (Nat.ltb_spec (length (sort comparePoints l)) 2) as [Hs|_]
  end.
  { rewrite sort_length in Hs. lia. }
  destruct (omap (changeAt _ _ _) _); reflexivity.
Qed.

(** *** The tick indices *)

Lemma ticks_fold (f : Z -> bool) (l : list Z) (acc : gset Z) (i : Z) :
  i ∈ fold_left (fun indices index => if f index then indices ∪ {[ index ]} else indices)
        l acc
  <-> i ∈ acc \/ (In i l /\ f i = true).
Proof.
  revert acc. induction l as [|x l IH]; intros acc; simpl.
  - intuition.
  - rewrite IH. destruct (f x) eqn:Ex.
    + rewrite elem_of_union, elem_of_singleton.
      intuition (subst; auto).
    + intuition (subst; auto). congruence.
Qed.

Lemma ceilDiv_spec (a b : Z) : 0 < b -> b * (ceilDiv a b - 1) < a <= b * ceilDiv a b.
Proof.
  intros Hb. unfold ceilDiv.
  pose proof (Z.mul_div_le (- a) b Hb).
  pose proof (Z.mul_succ_div_gt (- a) b Hb). lia.
Qed.

(** *** The running total *)

Lemma accumulate_length (runningTotal : number) (changes : list StepCarbonChange.t) :
  length (accumulate runningTotal changes) = length changes.
Proof.
  revert runningTotal. induction changes as [|c rest IH]; intros t; simpl;
    [reflexivity | rewrite IH; reflexivity].
Qed.

Lemma accumulate_labels (runningTotal : number) (changes : list StepCarbonChange.t) :
  map CumulativeCarbonPoint.label (accumulate runningTotal changes)
  = map StepCarbonChange.label changes.
Proof.
  revert runningTotal. induction changes as [|c rest IH]; intros t; simpl;
    [reflexivity | rewrite IH; reflexivity].
Qed.

Lemma accumulate_lookup (runningTotal : number) (changes : list StepCarbonChange.t)
    (i : nat) (change : StepCarbonChange.t) :
  changes !! i = Some change ->
  accumulate runningTotal changes !! i
  = Some {| CumulativeCarbonPoint.label := StepCarbonChange.label change;
            CumulativeCarbonPoint.total :=
              fixed 10 (fold_left add
                          (map StepCarbonChange.delta (take (S i) changes))
                          runningTotal) |}.
Proof.
  revert runningTotal i.
  induction changes as [|c rest IH]; intros t i Hi; [destruct i; discriminate|].
  destruct i as [|i]; simpl in *.
  - injection Hi as ->. reflexivity.
  - apply IH, Hi.
Qed.

End ChartFacts.

(** ** The properties of the specification *)

Import JS Notions.

(** *** Usable rows and the failure of the sequestration *)

Lemma sequestrationOfLines_no_row (lines : list string) (s e : number) :
  usableRows lines = [] ->
  succeeded (Fullcam.sequestrationOfLines lines s e) = false.
Proof.
  intros Hrows.
  destruct (Nat.ltb_spec (length lines) 2) as [Hl|Hl].
  { unfold Fullcam.sequestrationOfLines.
    destruct (Nat.ltb_spec (length lines) 2); [reflexivity|lia]. }
  destruct (Z.eq_dec
    (findIndex Fullcam.isDecYear (Fullcam.splitFields (hd EmptyString lines))) (-1))
    as [Hd|Hd].
  { unfold Fullcam.sequestrationOfLines. rewrite Hd.
    destruct (_ <? _)%nat; reflexivity. }
  destruct (Z.eq_dec
    (findIndex Fullcam.isTreeCarbon (Fullcam.splitFields (hd EmptyString lines))) (-1))
    as [Hc|Hc].
  { unfold Fullcam.sequestrationOfLines. rewrite Hc.
    destruct (_ <? _)%nat; [reflexivity|]. destruct (_ =? _); reflexivity. }
  rewrite FullcamFacts.sequestrationOfLines_rows by assumption.
  rewrite Hrows. reflexivity.
Qed.

(** C1, as stated, fails: an export with a header and one valid data
    row has a single usable row, and the sequestration succeeds on it,
    both dates resolving to that row. *)
Lemma one_usable_row_is_accepted :
  (length (records (response oneRowExport)) < 2)%nat /\
  Fullcam.calculateCarbonSequestration (response oneRowExport)
    (ofDecimal false 20240 (-1)) (ofDecimal false 2024083 (-3))
  = Success {| Fullcam.totalCarbon := zero;
               Fullcam.startCarbon := ofZ 10;
               Fullcam.endCarbon := ofZ 10;
               Fullcam.dataPoints := 2 |}.
Proof. split; [vm_compute; lia | vm_compute; reflexivity]. Qed.

(** C1, amended: for every simulation payload that parses to no usable
    data row, the sequestration returns a failure, never a success. *)
Theorem sequestration_fails_without_usable_row
    (r : Fullcam.SimulationResponse) (startDate endDate : number) :
  records r = [] ->
  succeeded (Fullcam.calculateCarbonSequestration r startDate endDate) = false.
Proof.
  unfold records, Fullcam.calculateCarbonSequestration.
  destruct (Fullcam.data r) as [csvData|]; [|reflexivity].
  intros Hrows. destruct (_ || _); [reflexivity|].
  apply sequestrationOfLines_no_row, Hrows.
Qed.

Lemma sequestration_fails_without_usable_row_witness :
  records (response noRowExport) = [] /\
  succeeded (Fullcam.calculateCarbonSequestration (response noRowExport)
               (ofZ 2024) (ofZ 2025)) = false.
Proof.
  split; [reflexivity|].
  apply (sequestration_fails_without_usable_row (response noRowExport)).
  reflexivity.
Defined.

(** *** Rows shorter than the header *)

Lemma parseInt_undefined : parseInt (toStringOpt None) = None.
Proof. reflexivity. Qed.

Lemma readPoint_missing (yi si ti di : Z) (line : string) :
  Z.of_nat (length (CarbonCharts.splitFields line)) <= yi \/
  Z.of_nat (length (CarbonCharts.splitFields line)) <= si \/
  Z.of_nat (length (CarbonCharts.splitFields line)) <= ti \/
  Z.of_nat (length (CarbonCharts.splitFields line)) <= di ->
  CarbonCharts.readPoint yi si ti di line = None.
Proof.
  intros H. unfold CarbonCharts.readPoint.
  destruct H as [H|[H|[H|H]]]; rewrite (ListFacts.at_beyond _ _ H).
  - rewrite parseInt_undefined. reflexivity.
  - rewrite parseInt_undefined. destruct (parseInt _); reflexivity.
  - rewrite FullcamFacts.parseFloat_undefined.
    destruct (parseInt _); [|reflexivity]. destruct (parseInt _); reflexivity.
  - rewrite FullcamFacts.parseFloat_undefined.
    destruct (parseInt _); [|reflexivity]. destruct (parseInt _); [|reflexivity].
    rewrite orb_true_r. reflexivity.
Qed.

Lemma omap_skip {A B} (f : A -> option B) (before after : list A) (x : A) :
  f x = None -> omap f (before ++ x :: after) = omap f (before ++ after).
Proof.
  intros H. rewrite !omap_app, ListFacts.omap_cons, H. reflexivity.
Qed.

Lemma length_with_row {A} (h x : A) (before after : list A) :
  before ++ after <> [] ->
  (length (h :: before ++ x :: after) <? 2)%nat = false /\
  (length (h :: before ++ after) <? 2)%nat = false.
Proof.
  intros H. split; apply Nat.ltb_ge; simpl; rewrite length_app; simpl; [lia|].
  destruct before; [destruct after; [contradiction|simpl; lia]|simpl; lia].
Qed.

(** C2, as stated, fails: in this export every data row has five
    fields under a header of six columns, and both operations use the
    rows all the same. *)
Lemma short_row_with_required_fields_is_used :
  Forall (fun row => (length (Fullcam.splitFields row)
                      < length (Fullcam.splitFields shortHeader))%nat) shortRows /\
  Fullcam.calculateCarbonSequestration (response shortRowExport)
    (ofDecimal false 20240 (-1)) (ofDecimal false 2024083 (-3))
  = Success {| Fullcam.totalCarbon := ofDecimal false 5 (-1);
               Fullcam.startCarbon := ofZ 10;
               Fullcam.endCarbon := ofDecimal false 105 (-1);
               Fullcam.dataPoints := 2 |} /\
  CarbonCharts.extractStepCarbonChanges shortRowExport exampleRange
  = Success [ {| CarbonCharts.StepCarbonChange.label := "2024-S2";
                 CarbonCharts.StepCarbonChange.delta := ofDecimal false 6 (-1) |} ].
Proof.
  split; [repeat constructor|]. split; vm_compute; reflexivity.
Qed.

(** C2, amended: a data row that has no field at the index of a column
    which the operation requires is passed over in silence: no record
    is read from it, and next to another data row its presence leaves
    the outcome of the sequestration and of the step changes as it is
    without the row.  (A row that is only shorter than the header is
    not passed over for that.) *)
Theorem row_without_required_field_is_skipped
    (header row : string) (before after : list string)
    (startDate endDate : number) (range : CarbonCharts.CarbonAnalysisRange) :
  let headers := Fullcam.splitFields header in
  let fields := Z.of_nat (length (Fullcam.splitFields row)) in
  before ++ after <> [] ->
  (fields <= findIndex Fullcam.isDecYear headers \/
   fields <= findIndex Fullcam.isTreeCarbon headers ->
   Fullcam.readRow (findIndex Fullcam.isDecYear headers)
     (findIndex Fullcam.isTreeCarbon headers) row = None /\
   Fullcam.sequestrationOfLines (header :: before ++ row :: after) startDate endDate
   = Fullcam.sequestrationOfLines (header :: before ++ after) startDate endDate) /\
  (fields <= findIndex CarbonCharts.isYear headers \/
   fields <= findIndex CarbonCharts.isStep headers \/
   fields <= findIndex CarbonCharts.isTrees headers \/
   fields <= findIndex CarbonCharts.isDebris headers ->
   CarbonCharts.readPoint (findIndex CarbonCharts.isYear headers)
     (findIndex CarbonCharts.isStep headers)
     (findIndex CarbonCharts.isTrees headers)
     (findIndex CarbonCharts.isDebris headers) row = None /\
   CarbonCharts.stepChangesOfLines (header :: before ++ row :: after) range
   = CarbonCharts.stepChangesOfLines (header :: before ++ after) range).
Proof.
  intros headers fields Hother.
  destruct (length_with_row header row before after Hother) as [Hl1 Hl2].
  split; intros Hshort.
  - pose proof (FullcamFacts.readRow_missing _ _ row Hshort) as Hnone.
    split; [exact Hnone|].
    unfold Fullcam.sequestrationOfLines. rewrite Hl1, Hl2.
    change (hd EmptyString (header :: before ++ row :: after)) with header.
    change (hd EmptyString (header :: before ++ after)) with header.
    change (tl (header :: before ++ row :: after)) with (before ++ row :: after).
    change (tl (header :: before ++ after)) with (before ++ after).
    fold headers.
    rewrite !FullcamFacts.scan_rows, (omap_skip _ _ _ _ Hnone). reflexivity.
  - pose proof (readPoint_missing _ _ _ _ row Hshort) as Hnone.
    split; [exact Hnone|].
    unfold CarbonCharts.stepChangesOfLines. rewrite Hl1, Hl2.
    change (hd EmptyString (header :: before ++ row :: after)) with header.
    change (hd EmptyString (header :: before ++ after)) with header.
    change (tl (header :: before ++ row :: after)) with (before ++ row :: after).
    change (tl (header :: before ++ after)) with (before ++ after).
    change (CarbonCharts.splitFields header) with headers.
    rewrite (omap_skip _ _ _ _ Hnone). reflexivity.
Qed.

Lemma row_without_required_field_is_skipped_witness :
  ["2025.0,11.0"%string] ++ [] <> [] /\
  Fullcam.sequestrationOfLines
    (treeHeader :: ["2025.0,11.0"%string] ++ "2024.0"%string :: [])
    (ofZ 2024) (ofZ 2025)
  = Fullcam.sequestrationOfLines (treeHeader :: ["2025.0,11.0"%string] ++ [])
      (ofZ 2024) (ofZ 2025).
Proof.
  split; [discriminate|].
  refine (proj2 (proj1 (row_without_required_field_is_skipped treeHeader
            "2024.0" ["2025.0,11.0"%string] [] (ofZ 2024) (ofZ 2025)
            exampleRange _) _)).
  - discriminate.
  - right. vm_compute. discriminate.
Defined.

(** *** Column resolution *)

Lemma unrelatedReordering_tests (role : Role) (headers headers' : list string) :
  unrelatedReordering role headers headers' ->
  map (matches role) headers = map (matches role) headers'.
Proof.
  intros [Hperm Hsame]. apply list_eq. intros i.
  rewrite !list_lookup_fmap.
  destruct (headers !! i) as [a|] eqn:Ha, (headers' !! i) as [b|] eqn:Hb; simpl.
  - destruct (string_dec a b) as [->|Hab]; [reflexivity|].
    destruct (Hsame i a b Ha Hb Hab) as [-> ->]. reflexivity.
  - apply lookup_lt_Some in Ha. apply lookup_ge_None in Hb.
    apply Permutation_length in Hperm. lia.
  - apply lookup_lt_Some in Hb. apply lookup_ge_None in Ha.
    apply Permutation_length in Hperm. lia.
  - reflexivity.
Qed.

(** C3: for every header row in which the column of a role is present,
    and every reordering of the columns unrelated to the role, column
    resolution returns the same index, that of a column of the role,
    on the original and on the reordered header. *)
Theorem resolution_ignores_unrelated_reordering
    (role : Role) (headers headers' : list string) :
  (exists h, In h headers /\ matches role h = true) ->
  unrelatedReordering role headers headers' ->
  resolve role headers' = resolve role headers /\
  exists h, headers !! Z.to_nat (resolve role headers) = Some h /\
            0 <= resolve role headers /\ matches role h = true.
Proof.
  intros Hpresent Hreorder. split.
  - unfold resolve, findIndex. symmetry.
    apply ListFacts.findIndexFrom_map, unrelatedReordering_tests, Hreorder.
  - destruct (ListFacts.findIndexFrom_found (matches role) headers 0 Hpresent)
      as (n & h & Hn & Hh & Hp).
    exists h. unfold resolve, findIndex. rewrite Hn.
    replace (Z.to_nat (0 + Z.of_nat n)) with n by lia.
    split; [exact Hh|]. split; [lia|exact Hp].
Qed.

Lemma resolution_ignores_unrelated_reordering_witness :
  resolve DecYear ["Year"; "Notes"; "Dec. Year"; "Site"]%string
  = resolve DecYear ["Year"; "Site"; "Dec. Year"; "Notes"]%string.
Proof.
  refine (proj1 (resolution_ignores_unrelated_reordering DecYear
            ["Year"; "Site"; "Dec. Year"; "Notes"]%string
            ["Year"; "Notes"; "Dec. Year"; "Site"]%string _ _)).
  - exists "Dec. Year"%string. split; [simpl; tauto | reflexivity].
  - split.
    + apply perm_skip. apply (Permutation_rev ["Site"; "Dec. Year"; "Notes"]%string).
    + intros [|[|[|[|i]]]] a b Ha Hb Hab; simpl in Ha, Hb;
        try discriminate; injection Ha as <-; injection Hb as <-;
        try contradiction; split; reflexivity.
Defined.

(** *** The nearest record *)

Lemma records_truthy (r : Fullcam.SimulationResponse) (row : Fullcam.Row) :
  In row (records r) ->
  exists csvData, Fullcam.data r = Some csvData /\ truthy csvData = true /\
    records r = usableRows (Fullcam.splitLines csvData).
Proof.
  unfold records. destruct (Fullcam.data r) as [csvData|]; [|intros []].
  intros Hin. exists csvData. split; [reflexivity|]. split; [|reflexivity].
  destruct csvData; [destruct Hin | reflexivity].
Qed.

Lemma usableRows_columns (lines : list string) (row : Fullcam.Row) :
  In row (usableRows lines) ->
  (2 <= length lines)%nat /\
  findIndex Fullcam.isDecYear (Fullcam.splitFields (hd EmptyString lines)) <> -1 /\
  findIndex Fullcam.isTreeCarbon (Fullcam.splitFields (hd EmptyString lines)) <> -1.
Proof.
  unfold usableRows.
  destruct (Z.eqb_spec (findIndex Fullcam.isDecYear
              (Fullcam.splitFields (hd EmptyString lines))) (-1)); [intros []|].
  destruct (Z.eqb_spec (findIndex Fullcam.isTreeCarbon
              (Fullcam.splitFields (hd EmptyString lines))) (-1)); [intros []|].
  simpl. intros Hin. split; [|split; assumption].
  destruct lines as [|h [|x rest]]; try destruct Hin. simpl. lia.
Qed.

(** C4: for every set of usable records of which one lies at a finite
    distance from each date, the resolution of the date returns the
    value of the first record, in the order of the export, that attains
    the least distance [|decimalYear - target|]: no record is strictly
    nearer and no earlier record is as near, a later record replacing
    the closest value only when it is strictly nearer. *)
Theorem nearest_record_is_first_minimum
    (r : Fullcam.SimulationResponse) (startDate endDate : number) :
  Fullcam.success r = true ->
  (exists row, In row (records r) /\ lt (distance startDate row) Infinity = true) ->
  (exists row, In row (records r) /\ lt (distance endDate row) Infinity = true) ->
  exists (ks ke : nat) (rs re : Fullcam.Row),
    firstNearest (records r) startDate ks rs /\
    firstNearest (records r) endDate ke re /\
    Fullcam.calculateCarbonSequestration r startDate endDate
    = Success
        {| Fullcam.totalCarbon :=
             Fullcam.fixed 10 (sub (Fullcam.carbonValue re) (Fullcam.carbonValue rs));
           Fullcam.startCarbon := Fullcam.fixed 10 (Fullcam.carbonValue rs);
           Fullcam.endCarbon := Fullcam.fixed 10 (Fullcam.carbonValue re);
           Fullcam.dataPoints := 2 |}.
Proof.
  intros Hok Hs He.
  destruct Hs as (row & Hin & Hfin).
  destruct (records_truthy r row Hin) as (csvData & Hdata & Htruthy & Hrec).
  assert (Hs : exists row, In row (records r)
                           /\ lt (distance startDate row) Infinity = true)
    by (exists row; split; assumption).
  rewrite Hrec in *.
  destruct (usableRows_columns _ _ Hin) as (Hlen & Hd & Hc).
  destruct (FullcamFacts.nearerTo_found startDate _ Hs) as (ks & rs & Hfs & Hns).
  destruct (FullcamFacts.nearerTo_found endDate _ He) as (ke & re & Hfe & Hne).
  exists ks, ke, rs, re. split; [exact Hns|]. split; [exact Hne|].
  unfold Fullcam.calculateCarbonSequestration.
  rewrite Hdata, Hok, Htruthy. simpl.
  rewrite FullcamFacts.sequestrationOfLines_rows by assumption. cbv zeta.
  pose proof (FullcamFacts.nearer_start startDate endDate
                (usableRows (Fullcam.splitLines csvData)) Fullcam.scanStart) as Ps.
  pose proof (FullcamFacts.nearer_end startDate endDate
                (usableRows (Fullcam.splitLines csvData)) Fullcam.scanStart) as Pe.
  cbv zeta in Ps, Pe. simpl in Ps, Pe. rewrite Hfs in Ps. rewrite Hfe in Pe.
  injection Ps as -> _. injection Pe as -> _. reflexivity.
Qed.

Lemma nearest_record_is_first_minimum_witness :
  exists (ks ke : nat) (rs re : Fullcam.Row),
    firstNearest (records (response tieExport)) (ofDecimal false 20245 (-1)) ks rs /\
    firstNearest (records (response tieExport)) (ofZ 2025) ke re /\
    Fullcam.calculateCarbonSequestration (response tieExport)
      (ofDecimal false 20245 (-1)) (ofZ 2025)
    = Success
        {| Fullcam.totalCarbon :=
             Fullcam.fixed 10 (sub (Fullcam.carbonValue re) (Fullcam.carbonValue rs));
           Fullcam.startCarbon := Fullcam.fixed 10 (Fullcam.carbonValue rs);
           Fullcam.endCarbon := Fullcam.fixed 10 (Fullcam.carbonValue re);
           Fullcam.dataPoints := 2 |}.
Proof.
  apply (nearest_record_is_first_minimum (response tieExport)).
  - reflexivity.
  - exists {| Fullcam.decYear := ofZ 2024; Fullcam.carbonValue := ofZ 10 |}.
    split; [vm_compute; tauto | vm_compute; reflexivity].
  - exists {| Fullcam.decYear := ofZ 2025; Fullcam.carbonValue := ofZ 20 |}.
    split; [vm_compute; tauto | vm_compute; reflexivity].
Defined.

(** Of the two rows of [tieExport], both one half away from 2024.5,
    the earlier one gives the start value. *)
Example tie_keeps_earlier_row :
  distance (ofDecimal false 20245 (-1))
    {| Fullcam.decYear := ofZ 2024; Fullcam.carbonValue := ofZ 10 |}
  = distance (ofDecimal false 20245 (-1))
      {| Fullcam.decYear := ofZ 2025; Fullcam.carbonValue := ofZ 20 |} /\
  Fullcam.calculateCarbonSequestration (response tieExport)
    (ofDecimal false 20245 (-1)) (ofZ 2025)
  = Success {| Fullcam.totalCarbon := ofZ 10;
               Fullcam.startCarbon := ofZ 10;
               Fullcam.endCarbon := ofZ 20;
               Fullcam.dataPoints := 2 |}.
Proof. split; vm_compute; reflexivity. Qed.

(** *** The step changes *)

(** C5: for every export with at least two usable rows, whose years
    and steps, like those of the range, have step points that the code
    computes exactly (safe integers, below 2^53), the step changes are
    taken over the records sorted ascending by their step point
    [year * 12 + (step - 1)], a stable rearrangement of the usable
    rows; every record but the first whose step point lies in the
    window [[startPoint, endPoint]], ends included, gives a change
    labelled with its year and step whose delta is the combined carbon
    of the record less that of the record just before it in the sorted
    order, in the window or not, rounded to ten decimals: the nearest
    decimal of ten places when the difference is below 10^21.  On the
    example export the one change is 0.6, labelled 2024-S2. *)
Theorem step_changes_follow_sorted_order
    (csvData : string) (range : CarbonCharts.CarbonAnalysisRange) :
  let points := usablePoints (CarbonCharts.splitLines csvData) in
  (2 <= length points)%nat ->
  exactPoints points -> exactRange range ->
  (exists sorted : list CarbonCharts.Point,
      Permutation points sorted /\
      StronglySorted ascending sorted /\
      (forall k : Z,
          List.filter (fun p => CarbonCharts.point p =? k) sorted
          = List.filter (fun p => CarbonCharts.point p =? k) points) /\
      Forall (fun p => CarbonCharts.point p
                       = CarbonCharts.year p * 12 + (CarbonCharts.step p - 1)) sorted /\
      exactPoints sorted /\
      Forall (fun pc =>
                let difference :=
                  sub (CarbonCharts.combinedCarbon (snd pc))
                      (CarbonCharts.combinedCarbon (fst pc)) in
                below1e21 difference ->
                isRounded 10 difference
                  (CarbonCharts.StepCarbonChange.delta
                     (changeBetween (fst pc) (snd pc))))
             (withPrevious sorted) /\
      let startPoint :=
        Z.min (CarbonCharts.toStepPoint (CarbonCharts.startYear range)
                 (CarbonCharts.startStepInYear range))
              (CarbonCharts.toStepPoint (CarbonCharts.endYear range)
                 (CarbonCharts.endStepInYear range)) in
      let endPoint :=
        Z.max (CarbonCharts.toStepPoint (CarbonCharts.startYear range)
                 (CarbonCharts.startStepInYear range))
              (CarbonCharts.toStepPoint (CarbonCharts.endYear range)
                 (CarbonCharts.endStepInYear range)) in
      let changes :=
        map (fun pc => changeBetween (fst pc) (snd pc))
            (List.filter (fun pc => inWindow startPoint endPoint (snd pc))
                         (withPrevious sorted)) in
      CarbonCharts.extractStepCarbonChanges csvData range
      = match changes with
        | [] => Failure "No step changes found in selected analysis period"
        | _ => Success changes
        end) /\
  CarbonCharts.extractStepCarbonChanges exampleExport exampleRange
  = Success [ {| CarbonCharts.StepCarbonChange.label := "2024-S2";
                 CarbonCharts.StepCarbonChange.delta := ofDecimal false 6 (-1) |} ].
Proof.
  intros points Hlen Hexact _. split; [|vm_compute; reflexivity].
  exists (CarbonCharts.sort CarbonCharts.comparePoints points).
  split; [apply ChartFacts.sort_Permutation|].
  split; [apply ChartFacts.sort_ascending|].
  split; [intros k; apply ChartFacts.sort_stable|].
  split; [|split; [|split]].
  - eapply Permutation_Forall; [apply ChartFacts.sort_Permutation|].
    apply ChartFacts.usablePoints_point.
  - eapply Permutation_Forall; [apply ChartFacts.sort_Permutation|exact Hexact].
  - apply Forall_forall. intros pc _. cbv zeta.
    apply RoundingFacts.fixed_isRounded.
  - cbv zeta. unfold CarbonCharts.extractStepCarbonChanges.
    rewrite ChartFacts.stepChangesOfLines_points by exact Hlen. cbv zeta.
    rewrite ChartFacts.changes_withPrevious. reflexivity.
Qed.

(** The bound on the step points of an export that is given: the
    usable rows are listed and the bound is evaluated on each. *)
Ltac exact_points :=
  apply List.Forall_forall; intros ? Hp; vm_compute in Hp;
  repeat (destruct Hp as [<-|Hp]; [vm_compute; repeat constructor|]);
  contradiction.

Lemma step_changes_follow_sorted_order_witness :
  (2 <= length (usablePoints (CarbonCharts.splitLines exampleExport)))%nat /\
  exactPoints (usablePoints (CarbonCharts.splitLines exampleExport)) /\
  exactRange exampleRange /\
  CarbonCharts.extractStepCarbonChanges exampleExport exampleRange
  = Success [ {| CarbonCharts.StepCarbonChange.label := "2024-S2";
                 CarbonCharts.StepCarbonChange.delta := ofDecimal false 6 (-1) |} ].
Proof.
  assert (H : (2 <= length (usablePoints (CarbonCharts.splitLines exampleExport)))%nat)
    by (vm_compute; lia).
  assert (Hp : exactPoints (usablePoints (CarbonCharts.splitLines exampleExport)))
    by exact_points.
  assert (Hr : exactRange exampleRange) by (vm_compute; repeat constructor).
  split; [exact H|]. split; [exact Hp|]. split; [exact Hr|].
  exact (proj2 (step_changes_follow_sorted_order exampleExport exampleRange H Hp Hr)).
Defined.

(** C6: for every export and every analysis range, the step changes
    are the same when the start and the end of the range are swapped. *)
Theorem step_changes_ignore_direction
    (csvData : string) (range : CarbonCharts.CarbonAnalysisRange) :
  CarbonCharts.extractStepCarbonChanges csvData (swapped range)
  = CarbonCharts.extractStepCarbonChanges csvData range.
Proof.
  unfold CarbonCharts.extractStepCarbonChanges, CarbonCharts.stepChangesOfLines.
  unfold swapped.
  cbn [CarbonCharts.startYear CarbonCharts.startStepInYear
       CarbonCharts.endYear CarbonCharts.endStepInYear].
  rewrite Z.min_comm, Z.max_comm. reflexivity.
Qed.

(** *** The decimal year *)

Lemma exactOnYears_spec (first count year month : Z) :
  exactOnYears first count = true ->
  first <= year < first + count -> 1 <= month <= 12 ->
  Fullcam.dateToDecimalYear year month = Success (exactDecimalYear year month).
Proof.
  intros Hall Hyear Hmonth. unfold exactOnYears in Hall.
  rewrite forallb_forall in Hall.
  assert (Hy : In year (seqZ first count))
    by (apply list_elem_of_In, elem_of_seqZ; lia).
  specialize (Hall year Hy). rewrite forallb_forall in Hall.
  assert (Hm : In month (seqZ 1 12))
    by (apply list_elem_of_In, elem_of_seqZ; lia).
  specialize (Hall month Hm). unfold exactOn in Hall.
  destruct (Fullcam.dateToDecimalYear year month) as [x|]; [|discriminate].
  apply RoundingFacts.number_eqb_eq in Hall. congruence.
Qed.

Lemma exact_on_calendar_years : exactOnYears 1800 600 = true.
Proof. vm_compute. reflexivity. Qed.

(** C7: for every year and every month from 1 to 12 the decimal year
    is [year + (month - 1) / 12] rounded to three decimal places: the
    sum, as the code computes it, written by [toFixed(3)], which is the
    nearest decimal of three places whenever the sum is below 10^21;
    for the years 1800 to 2399 that is the exact sum rounded to three
    places.  It is 2024.0 for January 2024 and 2024.083 for February
    2024, and for every month outside of 1 to 12 the call fails. *)
Theorem decimal_year_of_month (year month : Z) :
  (1 <= month <= 12 ->
   exists y : number,
     Fullcam.dateToDecimalYear year month = Success y /\
     let x := add (ofZ year) (div (ofZ (month - 1)) (ofZ 12)) in
     y = Fullcam.fixed 3 x /\ (below1e21 x -> isRounded 3 x y)) /\
  (1 <= month <= 12 -> 1800 <= year < 2400 ->
   Fullcam.dateToDecimalYear year month = Success (exactDecimalYear year month)) /\
  (month < 1 \/ 12 < month ->
   Fullcam.dateToDecimalYear year month = Failure "Month must be between 1 and 12") /\
  Fullcam.dateToDecimalYear 2024 1 = Success (ofDecimal false 20240 (-1)) /\
  Fullcam.dateToDecimalYear 2024 2 = Success (ofDecimal false 2024083 (-3)) /\
  Fullcam.dateToDecimalYear 2024 13 = Failure "Month must be between 1 and 12".
Proof.
  split; [|split; [|split; [|repeat split; vm_compute; reflexivity]]].
  - intros [H1 H12]. unfold Fullcam.dateToDecimalYear.
    destruct (Z.ltb_spec month 1); [lia|]. destruct (Z.ltb_spec 12 month); [lia|].
    eexists. split; [reflexivity|]. cbv zeta. split; [reflexivity|].
    apply RoundingFacts.fixed_isRounded.
  - intros Hmonth Hyear.
    apply (exactOnYears_spec 1800 600 year month exact_on_calendar_years);
      [lia | exact Hmonth].
  - intros H. unfold Fullcam.dateToDecimalYear.
    destruct (Z.ltb_spec month 1); [reflexivity|].
    destruct (Z.ltb_spec 12 month); [reflexivity|lia].
Qed.

(** *** The average per year *)

(** C8, as stated, fails: over three years and one tonne the average
    returned is 0.3333333333, which is not the quotient of the total
    by the years. *)
Lemma average_is_rounded :
  Fullcam.calculateAverageAnnualSequestration (response threeYearExport) 2024 1 2027 1
  = Success {| Fullcam.Average.totalCarbon := ofZ 1;
               Fullcam.Average.averagePerYear := ofDecimal false 3333333333 (-10);
               Fullcam.Average.years := ofZ 3 |} /\
  ofDecimal false 3333333333 (-10) <> div (ofZ 1) (ofZ 3).
Proof. split; [vm_compute; reflexivity | vm_compute; discriminate]. Qed.

(** C8, amended: for every payload and dates for which the sequestration
    succeeds, the average is a success whose average per year is the
    total divided by the years, [years = endDecimalYear -
    startDecimalYear], rounded to ten decimals, and is 0 without any
    division whenever the years are not above 0; the years are returned
    rounded to two decimals.  Rounded is: the nearest decimal of that
    many places, for a number below 10^21. *)
Theorem average_divides_by_elapsed_years
    (r : Fullcam.SimulationResponse) (startYear startMonth endYear endMonth : Z)
    (startDate endDate : number) (result : Fullcam.Sequestration) :
  Fullcam.dateToDecimalYear startYear startMonth = Success startDate ->
  Fullcam.dateToDecimalYear endYear endMonth = Success endDate ->
  Fullcam.calculateCarbonSequestration r startDate endDate = Success result ->
  let years := sub endDate startDate in
  exists average : Fullcam.Average.t,
    Fullcam.calculateAverageAnnualSequestration r startYear startMonth endYear endMonth
    = Success average /\
    Fullcam.Average.totalCarbon average = Fullcam.totalCarbon result /\
    Fullcam.Average.years average = Fullcam.fixed 2 years /\
    (gt years zero = true ->
     Fullcam.Average.averagePerYear average
     = Fullcam.fixed 10 (div (Fullcam.totalCarbon result) years)) /\
    (gt years zero = false -> Fullcam.Average.averagePerYear average = zero) /\
    (le years zero = true -> Fullcam.Average.averagePerYear average = zero) /\
    (gt years zero = true ->
     below1e21 (div (Fullcam.totalCarbon result) years) ->
     isRounded 10 (div (Fullcam.totalCarbon result) years)
       (Fullcam.Average.averagePerYear average)) /\
    (below1e21 years -> isRounded 2 years (Fullcam.Average.years average)).
Proof.
  intros Hs He Hr years.
  exists {| Fullcam.Average.totalCarbon := Fullcam.totalCarbon result;
            Fullcam.Average.averagePerYear :=
              Fullcam.fixed 10
                (if gt years zero then div (Fullcam.totalCarbon result) years
                 else zero);
            Fullcam.Average.years := Fullcam.fixed 2 years |}.
  split.
  { unfold Fullcam.calculateAverageAnnualSequestration. rewrite Hs, He, Hr.
    reflexivity. }
  cbn [Fullcam.Average.totalCarbon Fullcam.Average.years
       Fullcam.Average.averagePerYear].
  split; [reflexivity|]. split; [reflexivity|].
  split; [intros ->; reflexivity|].
  split; [intros ->; reflexivity|].
  split; [intros Hle; rewrite (NumberFacts.le_not_gt _ _ Hle); reflexivity|].
  split.
  - intros ->. apply RoundingFacts.fixed_isRounded.
  - apply RoundingFacts.fixed_isRounded.
Qed.

Lemma average_divides_by_elapsed_years_witness :
  exists average : Fullcam.Average.t,
    Fullcam.calculateAverageAnnualSequestration (response threeYearExport)
      2027 1 2024 1 = Success average /\
    Fullcam.Average.averagePerYear average = zero.
Proof.
  destruct (average_divides_by_elapsed_years (response threeYearExport)
              2027 1 2024 1 (ofZ 2027) (ofZ 2024)
              {| Fullcam.totalCarbon := ofZ (-1);
                 Fullcam.startCarbon := ofZ 11;
                 Fullcam.endCarbon := ofZ 10;
                 Fullcam.dataPoints := 2 |})
    as (average & Hcall & _ & _ & _ & _ & Hzero & _);
    try (vm_compute; reflexivity).
  exists average. split; [exact Hcall|]. apply Hzero. vm_compute. reflexivity.
Defined.

(** *** The tick indices *)

(** C9: for every series length of at least 1, the tick indices are
    the indices below the length that are 0, a multiple of the step
    [max(1, ceil(length / 8))], or the last index; for a length of 17
    they are 0, 3, 6, 9, 12, 15 and 16. *)
Theorem shared_tick_indices (seriesLength : Z) :
  1 <= seriesLength ->
  let xTickStep := Z.max 1 (CarbonCharts.ceilDiv seriesLength 8) in
  8 * (CarbonCharts.ceilDiv seriesLength 8 - 1) < seriesLength
    <= 8 * CarbonCharts.ceilDiv seriesLength 8 /\
  (forall i : Z,
      i ∈ CarbonCharts.getSharedTickIndices seriesLength <->
      0 <= i < seriesLength /\
      (i = 0 \/ (exists k : Z, i = k * xTickStep) \/ i = seriesLength - 1)) /\
  CarbonCharts.getSharedTickIndices 17 = list_to_set [0; 3; 6; 9; 12; 15; 16].
Proof.
  intros Hlen xTickStep.
  split; [apply ChartFacts.ceilDiv_spec; lia|].
  split; [|vm_compute; reflexivity].
  intros i. unfold CarbonCharts.getSharedTickIndices.
  destruct (Z.ltb_spec seriesLength 1); [lia|].
  fold xTickStep. rewrite ChartFacts.ticks_fold.
  rewrite <- list_elem_of_In, elem_of_seqZ.
  assert (Hstep : xTickStep <> 0) by (unfold xTickStep; lia).
  rewrite orb_true_iff, !Z.eqb_eq, (Z.rem_divide i xTickStep Hstep).
  unfold Z.divide. split.
  - intros [Hempty|[Hrange [Hmul|Hlast]]].
    + exfalso. revert Hempty. apply not_elem_of_empty.
    + split; [lia|]. right. left. exact Hmul.
    + split; [lia|]. right. right. exact Hlast.
  - intros [Hrange [Hzero|[Hmul|Hlast]]]; right; (split; [lia|]).
    + left. exists 0. lia.
    + left. exact Hmul.
    + right. exact Hlast.
Qed.

Lemma shared_tick_indices_witness :
  1 <= 17 /\ 15 ∈ CarbonCharts.getSharedTickIndices 17.
Proof.
  assert (H : 1 <= 17) by lia.
  split; [exact H|].
  apply (proj1 (proj2 (shared_tick_indices 17 H))).
  split; [lia|]. right. left. exists 5. reflexivity.
Defined.

(** *** The cumulative series *)

(** C10: for every sequence of step changes, the cumulative series has
    the length and the labels of the changes, and its total at index
    [i] is the running sum of the deltas 0 to [i], rounded to ten
    decimals: the nearest decimal of ten places when the sum is below
    10^21.  The rounding is applied to the point that is written and
    not to the running sum. *)
Theorem cumulative_series_rounds_each_point
    (changes : list CarbonCharts.StepCarbonChange.t) :
  let series := CarbonCharts.buildCumulativeSequestrationSeries changes in
  length series = length changes /\
  map CarbonCharts.CumulativeCarbonPoint.label series
  = map CarbonCharts.StepCarbonChange.label changes /\
  forall (i : nat) (change : CarbonCharts.StepCarbonChange.t),
    changes !! i = Some change ->
    let sum :=
      fold_left add
        (map CarbonCharts.StepCarbonChange.delta (take (S i) changes)) zero in
    exists total : number,
      series !! i
      = Some {| CarbonCharts.CumulativeCarbonPoint.label :=
                  CarbonCharts.StepCarbonChange.label change;
                CarbonCharts.CumulativeCarbonPoint.total := total |} /\
      total = CarbonCharts.fixed 10 sum /\
      (below1e21 sum -> isRounded 10 sum total).
Proof.
  assert (E : CarbonCharts.buildCumulativeSequestrationSeries changes
              = CarbonCharts.accumulate zero changes)
    by (destruct changes; reflexivity).
  cbv zeta. rewrite E.
  split; [apply ChartFacts.accumulate_length|].
  split; [apply ChartFacts.accumulate_labels|].
  intros i change Hi. eexists.
  split; [exact (ChartFacts.accumulate_lookup zero changes i change Hi)|].
  split; [reflexivity|]. apply RoundingFacts.fixed_isRounded.
Qed.

Lemma cumulative_series_rounds_each_point_witness :
  exists total : number,
    CarbonCharts.buildCumulativeSequestrationSeries exampleChanges !! 1%nat
    = Some {| CarbonCharts.CumulativeCarbonPoint.label := "2024-S3"%string;
              CarbonCharts.CumulativeCarbonPoint.total := total |} /\
    total
    = CarbonCharts.fixed 10
        (fold_left add
           (map CarbonCharts.StepCarbonChange.delta (take 2 exampleChanges)) zero) /\
    (below1e21
       (fold_left add
          (map CarbonCharts.StepCarbonChange.delta (take 2 exampleChanges)) zero) ->
     isRounded 10
       (fold_left add
          (map CarbonCharts.StepCarbonChange.delta (take 2 exampleChanges)) zero)
       total).
Proof.
  pose proof (cumulative_series_rounds_each_point exampleChanges) as H.
  cbv zeta in H. destruct H as (_ & _ & H).
  exact (H 1%nat
           {| CarbonCharts.StepCarbonChange.label := "2024-S3"%string;
              CarbonCharts.StepCarbonChange.delta := ofDecimal true 1 (-1) |}
           eq_refl).
Defined.

(** The series of the deltas 0.6 and -0.1 is 0.6 and 0.5. *)
Example cumulative_series_example :
  CarbonCharts.buildCumulativeSequestrationSeries
    [ {| CarbonCharts.StepCarbonChange.label := "2024-S2";
         CarbonCharts.StepCarbonChange.delta := ofDecimal false 6 (-1) |};
      {| CarbonCharts.StepCarbonChange.label := "2024-S3";
         CarbonCharts.StepCarbonChange.delta := ofDecimal true 1 (-1) |} ]
  = [ {| CarbonCharts.CumulativeCarbonPoint.label := "2024-S2";
         CarbonCharts.CumulativeCarbonPoint.total := ofDecimal false 6 (-1) |};
      {| CarbonCharts.CumulativeCarbonPoint.label := "2024-S3";
         CarbonCharts.CumulativeCarbonPoint.total := ofDecimal false 5 (-1) |} ].
Proof. vm_compute. reflexivity. Qed.

(** ** Further properties of the code *)

(** *** The two dates of the sequestration *)

Lemma resolveDate_found (rows : list Fullcam.Row) (target : number) :
  (exists row, In row rows /\ lt (distance target row) Infinity = true) <->
  exists value, resolveDate rows target = Some value.
Proof.
  unfold resolveDate. split.
  - intros H. destruct (FullcamFacts.nearerTo_found target rows H)
      as (k & r & Hf & _).
    rewrite Hf. eexists. reflexivity.
  - intros [value Hv].
    destruct (FullcamFacts.nearerTo_scan target rows) as [_ [Hb|Hb]].
    + rewrite Hb in Hv. discriminate.
    + destruct Hb as (k & r & _ & Hk & Hfin & _).
      exists r. split; [|exact Hfin].
      apply list_elem_of_In, list_elem_of_lookup. exists k. exact Hk.
Qed.

Lemma resolveDate_nil (target : number) : resolveDate [] target = None.
Proof. reflexivity. Qed.

Lemma scan_resolves (rows : list Fullcam.Row) (s e : number) :
  let st := fold_left (Fullcam.nearer s e) rows Fullcam.scanStart in
  Fullcam.Scan.startCarbon st = resolveDate rows s /\
  Fullcam.Scan.endCarbon st = resolveDate rows e.
Proof.
  pose proof (FullcamFacts.nearer_start s e rows Fullcam.scanStart) as Ps.
  pose proof (FullcamFacts.nearer_end s e rows Fullcam.scanStart) as Pe.
  cbv zeta in *. unfold resolveDate.
  change (Fullcam.Scan.startCarbon Fullcam.scanStart) with (@None number) in Ps.
  change (Fullcam.Scan.closestStartDiff Fullcam.scanStart) with Infinity in Ps.
  change (Fullcam.Scan.endCarbon Fullcam.scanStart) with (@None number) in Pe.
  change (Fullcam.Scan.closestEndDiff Fullcam.scanStart) with Infinity in Pe.
  rewrite <- Ps, <- Pe. split; reflexivity.
Qed.

(** The sequestration succeeds with a result exactly when the scan
    settles on a value for each date, and the result is built from
    the two values. *)
Lemma sequestrationOfLines_success (lines : list string) (s e : number)
    (result : Fullcam.Sequestration) :
  Fullcam.sequestrationOfLines lines s e = Success result <->
  exists a b, resolveDate (usableRows lines) s = Some a /\
              resolveDate (usableRows lines) e = Some b /\
              result = sequestrationBetween a b.
Proof.
  destruct (usableRows lines) as [|row rows] eqn:Hrows.
  - split.
    + intros H. pose proof (sequestrationOfLines_no_row lines s e Hrows) as Hf.
      rewrite H in Hf. discriminate.
    + intros (a & b & Ha & _). discriminate.
  - assert (Hin : In row (usableRows lines)) by (rewrite Hrows; left; reflexivity).
    destruct (usableRows_columns _ _ Hin) as (Hlen & Hd & Hc).
    rewrite FullcamFacts.sequestrationOfLines_rows by assumption. cbv zeta.
    destruct (scan_resolves (usableRows lines) s e) as [Es Ee]. cbv zeta in Es, Ee.
    rewrite Es, Ee, Hrows.
    destruct (resolveDate (row :: rows) s) as [a|],
             (resolveDate (row :: rows) e) as [b|]; split;
      try (intros H; discriminate H);
      try (intros (a' & b' & Ha & Hb & _); discriminate).
    + intros [= <-]. exists a, b. repeat split.
    + intros (a' & b' & [= <-] & [= <-] & ->). reflexivity.
Qed.

Lemma calculateCarbonSequestration_success (r : Fullcam.SimulationResponse)
    (s e : number) (result : Fullcam.Sequestration) :
  Fullcam.calculateCarbonSequestration r s e = Success result <->
  Fullcam.success r = true /\
  exists a b, resolveDate (records r) s = Some a /\
              resolveDate (records r) e = Some b /\
              result = sequestrationBetween a b.
Proof.
  unfold Fullcam.calculateCarbonSequestration, records.
  destruct (Fullcam.data r) as [csvData|].
  - destruct (Fullcam.success r); simpl.
    + destruct csvData as [|c csvData]; simpl.
      * split; [discriminate|]. intros (_ & a & b & Ha & _). discriminate.
      * rewrite sequestrationOfLines_success. tauto.
    + split; [discriminate|]. intros [H _]. discriminate.
  - split; [discriminate|]. intros (_ & a & b & Ha & _). discriminate.
Qed.

(** X1: each date is resolved on its own.  The start value of a
    successful call does not depend on the end date, nor the end value
    on the start date; and calling with the two dates exchanged
    succeeds as well, with the two values exchanged. *)
Theorem sequestration_resolves_dates_independently
    (r : Fullcam.SimulationResponse) (startDate endDate : number)
    (result : Fullcam.Sequestration) :
  Fullcam.calculateCarbonSequestration r startDate endDate = Success result ->
  (forall (otherDate : number) (other : Fullcam.Sequestration),
      (Fullcam.calculateCarbonSequestration r startDate otherDate = Success other ->
       Fullcam.startCarbon other = Fullcam.startCarbon result) /\
      (Fullcam.calculateCarbonSequestration r otherDate endDate = Success other ->
       Fullcam.endCarbon other = Fullcam.endCarbon result)) /\
  exists exchanged : Fullcam.Sequestration,
    Fullcam.calculateCarbonSequestration r endDate startDate = Success exchanged /\
    Fullcam.startCarbon exchanged = Fullcam.endCarbon result /\
    Fullcam.endCarbon exchanged = Fullcam.startCarbon result.
Proof.
  intros H. apply calculateCarbonSequestration_success in H
    as (Hok & a & b & Ha & Hb & ->).
  split.
  - intros otherDate other. split; intros H;
      apply calculateCarbonSequestration_success in H
        as (_ & a' & b' & Ha' & Hb' & ->); simpl; congruence.
  - exists (sequestrationBetween b a). split; [|split; reflexivity].
    apply calculateCarbonSequestration_success. split; [exact Hok|].
    exists b, a. repeat split; assumption.
Qed.

Lemma sequestration_resolves_dates_independently_witness :
  exists exchanged : Fullcam.Sequestration,
    Fullcam.calculateCarbonSequestration (response threeYearExport)
      (ofZ 2027) (ofZ 2024) = Success exchanged /\
    Fullcam.startCarbon exchanged = ofZ 11 /\
    Fullcam.endCarbon exchanged = ofZ 10.
Proof.
  refine (proj2 (sequestration_resolves_dates_independently
            (response threeYearExport) (ofZ 2024) (ofZ 2027)
            {| Fullcam.totalCarbon := ofZ 1;
               Fullcam.startCarbon := ofZ 10;
               Fullcam.endCarbon := ofZ 11;
               Fullcam.dataPoints := 2 |} _)).
  vm_compute. reflexivity.
Defined.

Lemma sub_same (c : number) :
  sub c c = zero \/ (sub c c = NaN /\ isFiniteNumber c = false).
Proof.
  destruct c as [[]|[]| |s m e]; try (left; reflexivity);
    try (right; split; reflexivity).
  left. unfold sub, SFsub.
  match goal with
  | |- binary_normalize _ _ (IntDef.Z.sub ?a ?a) _ _ = _ =>
      change (IntDef.Z.sub a a) with (Z.sub a a); rewrite (Z.sub_diag a)
  end.
  reflexivity.
Qed.

Lemma fixed_not_finite (digits : nat) (x : number) :
  isFiniteNumber x = false -> parseFloat (toFixed x digits) = x.
Proof. destruct x as [|[]| |]; try discriminate; reflexivity. Qed.

Lemma fixed_zero (digits : nat) : parseFloat (toFixed zero digits) = zero.
Proof.
  pose proof (RoundingFacts.fixed_isRounded digits zero I) as H. exact H.
Qed.

(** X2: over a period of no length, start and end date the same, a
    successful sequestration has the same start and end value, and its
    total is 0: unless that value is infinite, when the total is NaN. *)
Theorem sequestration_of_empty_period
    (r : Fullcam.SimulationResponse) (date : number)
    (result : Fullcam.Sequestration) :
  Fullcam.calculateCarbonSequestration r date date = Success result ->
  Fullcam.startCarbon result = Fullcam.endCarbon result /\
  (Fullcam.totalCarbon result = zero \/
   (Fullcam.totalCarbon result = NaN /\
    isFiniteNumber (Fullcam.startCarbon result) = false)).
Proof.
  intros H. apply calculateCarbonSequestration_success in H
    as (_ & a & b & Ha & Hb & ->).
  assert (b = a) by congruence. subst b. split; [reflexivity|].
  simpl. unfold Fullcam.fixed.
  destruct (sub_same a) as [->|[-> Hinf]].
  - left. apply fixed_zero.
  - right. split; [reflexivity|]. rewrite fixed_not_finite; assumption.
Qed.

Lemma sequestration_of_empty_period_witness :
  Fullcam.calculateCarbonSequestration (response threeYearExport)
    (ofZ 2027) (ofZ 2027) = Success (sequestrationBetween (ofZ 11) (ofZ 11)) /\
  Fullcam.startCarbon (sequestrationBetween (ofZ 11) (ofZ 11))
  = Fullcam.endCarbon (sequestrationBetween (ofZ 11) (ofZ 11)).
Proof.
  assert (H : Fullcam.calculateCarbonSequestration (response threeYearExport)
                (ofZ 2027) (ofZ 2027)
              = Success (sequestrationBetween (ofZ 11) (ofZ 11)))
    by (vm_compute; reflexivity).
  split; [exact H|].
  exact (proj1 (sequestration_of_empty_period _ _ _ H)).
Defined.

(** X3: the sequestration succeeds exactly when the response is
    flagged a success and, for each of the two dates, a usable row of
    its export lies at a finite distance from the date. *)
Theorem sequestration_succeeds_iff
    (r : Fullcam.SimulationResponse) (startDate endDate : number) :
  succeeded (Fullcam.calculateCarbonSequestration r startDate endDate) = true <->
  Fullcam.success r = true /\
  (exists row, In row (records r) /\ lt (distance startDate row) Infinity = true) /\
  (exists row, In row (records r) /\ lt (distance endDate row) Infinity = true).
Proof.
  rewrite !resolveDate_found. split.
  - destruct (Fullcam.calculateCarbonSequestration r startDate endDate)
      as [result|] eqn:H; [|discriminate].
    intros _. apply calculateCarbonSequestration_success in H
      as (Hok & a & b & Ha & Hb & _).
    split; [exact Hok|]. split; eexists; eassumption.
  - intros (Hok & [a Ha] & [b Hb]).
    assert (H : Fullcam.calculateCarbonSequestration r startDate endDate
                = Success (sequestrationBetween a b)).
    { apply calculateCarbonSequestration_success. split; [exact Hok|].
      exists a, b. repeat split; assumption. }
    rewrite H. reflexivity.
Qed.

(** *** The failures of the sequestration *)

Lemma findIndexFrom_none {A} (p : A -> bool) (l : list A) (i : Z) :
  0 <= i ->
  (findIndexFrom p l i = -1 <-> Forall (fun x => p x = false) l).
Proof.
  revert i. induction l as [|x l IH]; intros i Hi; simpl.
  - split; [constructor|reflexivity].
  - destruct (p x) eqn:Ex.
    + split; [lia|]. intros H. apply Forall_cons in H as [H _]. congruence.
    + rewrite (IH (i + 1)) by lia. split.
      * intros H. constructor; assumption.
      * intros H. apply Forall_cons in H as [_ H]. exact H.
Qed.

Lemma findIndex_none {A} (p : A -> bool) (l : list A) :
  findIndex p l = -1 <-> Forall (fun x => p x = false) l.
Proof. apply findIndexFrom_none. lia. Qed.

Lemma findIndex_some {A} (p : A -> bool) (l : list A) :
  findIndex p l <> -1 <-> Exists (fun x => p x = true) l.
Proof.
  rewrite findIndex_none. split.
  - intros H. apply not_Forall_Exists in H; [|intros x; apply _].
    eapply Exists_impl; [exact H|]. intros x Hx. simpl in Hx.
    destruct (p x); [reflexivity|contradiction].
  - intros H HF. apply Exists_exists in H as (x & Hin & Hx).
    rewrite Forall_forall in HF. specialize (HF x Hin). congruence.
Qed.

(** X4: which failure the sequestration returns.  A response that is
    not flagged a success, or carries no text, is invalid; an export
    of fewer than two lines that are not blank has no data rows; then
    a header without a decimal-year column is reported, before a
    header without a tree-carbon column, whatever the rows hold; and
    with both columns, the call fails for want of carbon values when
    for one of the dates no usable row lies at a finite distance. *)
Theorem sequestration_failures
    (r : Fullcam.SimulationResponse) (startDate endDate : number) :
  (Fullcam.success r = false \/ Fullcam.data r = None
   \/ Fullcam.data r = Some EmptyString ->
   Fullcam.calculateCarbonSequestration r startDate endDate
   = Failure "Invalid simulation response or no data available") /\
  (forall csvData : string,
      Fullcam.success r = true -> Fullcam.data r = Some csvData ->
      csvData <> EmptyString ->
      let lines := Fullcam.splitLines csvData in
      let headers := Fullcam.splitFields (hd EmptyString lines) in
      ((length lines < 2)%nat ->
       Fullcam.calculateCarbonSequestration r startDate endDate
       = Failure "No data rows found in simulation response") /\
      ((2 <= length lines)%nat ->
       Forall (fun h => Fullcam.isDecYear h = false) headers ->
       Fullcam.calculateCarbonSequestration r startDate endDate
       = Failure ("Could not find " ++ Fullcam.quoted "Dec. Year"
                    ++ " column in CSV data")) /\
      ((2 <= length lines)%nat ->
       Exists (fun h => Fullcam.isDecYear h = true) headers ->
       Forall (fun h => Fullcam.isTreeCarbon h = false) headers ->
       Fullcam.calculateCarbonSequestration r startDate endDate
       = Failure ("Could not find " ++ Fullcam.quoted "C mass of trees (tC/ha)"
                    ++ " column in CSV data")) /\
      ((2 <= length lines)%nat ->
       Exists (fun h => Fullcam.isDecYear h = true) headers ->
       Exists (fun h => Fullcam.isTreeCarbon h = true) headers ->
       (forall row, In row (records r) ->
                    lt (distance startDate row) Infinity = false) \/
       (forall row, In row (records r) ->
                    lt (distance endDate row) Infinity = false) ->
       Fullcam.calculateCarbonSequestration r startDate endDate
       = Failure "Could not find carbon values for the specified date range")).
Proof.
  split.
  - unfold Fullcam.calculateCarbonSequestration.
    intros [H|[H|H]]; rewrite H; try reflexivity.
    + destruct (Fullcam.data r); reflexivity.
    + rewrite orb_true_r. reflexivity.
  - intros csvData Hok Hdata Hne lines headers.
    assert (Hcall : Fullcam.calculateCarbonSequestration r startDate endDate
                    = Fullcam.sequestrationOfLines lines startDate endDate).
    { unfold Fullcam.calculateCarbonSequestration. rewrite Hdata, Hok.
      destruct csvData; [contradiction|reflexivity]. }
    rewrite Hcall.
    split; [|split; [|split]].
    + intros Hlen. unfold Fullcam.sequestrationOfLines.
      destruct (Nat.ltb_spec (length lines) 2); [reflexivity|lia].
    + intros Hlen Hd. unfold Fullcam.sequestrationOfLines. fold headers.
      destruct (Nat.ltb_spec (length lines) 2); [lia|].
      apply findIndex_none in Hd. rewrite Hd. reflexivity.
    + intros Hlen Hd Hc. unfold Fullcam.sequestrationOfLines. fold headers.
      destruct (Nat.ltb_spec (length lines) 2); [lia|].
      apply findIndex_some in Hd. apply findIndex_none in Hc.
      destruct (Z.eqb_spec (findIndex Fullcam.isDecYear headers) (-1));
        [contradiction|].
      rewrite Hc. reflexivity.
    + intros Hlen Hd Hc Hfar.
      apply findIndex_some in Hd. apply findIndex_some in Hc.
      destruct (Fullcam.sequestrationOfLines lines startDate endDate)
        as [result|error] eqn:E.
      * exfalso. apply sequestrationOfLines_success in E
          as (a & b & Ha & Hb & _).
        assert (Hrec : records r = usableRows lines)
          by (unfold records; rewrite Hdata; reflexivity).
        rewrite Hrec in Hfar.
        destruct Hfar as [Hfar|Hfar];
          [ destruct (proj2 (resolveDate_found _ _) (ex_intro _ a Ha))
              as (row & Hin & Hlt)
          | destruct (proj2 (resolveDate_found _ _) (ex_intro _ b Hb))
              as (row & Hin & Hlt) ];
          rewrite (Hfar row Hin) in Hlt; discriminate.
      * rewrite FullcamFacts.sequestrationOfLines_rows in E by assumption.
        cbv zeta in E.
        destruct (Fullcam.Scan.startCarbon _);
          [destruct (Fullcam.Scan.endCarbon _)|]; congruence.
Qed.

Lemma sequestration_failures_witness :
  Fullcam.calculateCarbonSequestration
    {| Fullcam.success := false; Fullcam.data := Some threeYearExport |}
    (ofZ 2024) (ofZ 2027)
  = Failure "Invalid simulation response or no data available" /\
  Fullcam.calculateCarbonSequestration (response treeHeader) (ofZ 2024) (ofZ 2027)
  = Failure "No data rows found in simulation response" /\
  Fullcam.calculateCarbonSequestration
    (response (joinLines ["C mass of trees (tC/ha)"; "10.0"]%string))
    (ofZ 2024) (ofZ 2027)
  = Failure ("Could not find " ++ Fullcam.quoted "Dec. Year"
               ++ " column in CSV data") /\
  Fullcam.calculateCarbonSequestration
    (response (joinLines ["Dec. Year"; "2024.0"]%string)) (ofZ 2024) (ofZ 2027)
  = Failure ("Could not find " ++ Fullcam.quoted "C mass of trees (tC/ha)"
               ++ " column in CSV data") /\
  Fullcam.calculateCarbonSequestration (response noRowExport) (ofZ 2024) (ofZ 2027)
  = Failure "Could not find carbon values for the specified date range".
Proof.
  split; [|split; [|split; [|split]]].
  - apply (proj1 (sequestration_failures
                    {| Fullcam.success := false;
                       Fullcam.data := Some threeYearExport |}
                    (ofZ 2024) (ofZ 2027))).
    left. reflexivity.
  - apply (proj2 (sequestration_failures (response treeHeader) (ofZ 2024) (ofZ 2027))
             treeHeader eq_refl eq_refl ltac:(discriminate)).
    vm_compute. lia.
  - apply (proj2 (sequestration_failures
                    (response (joinLines ["C mass of trees (tC/ha)"; "10.0"]%string))
                    (ofZ 2024) (ofZ 2027))
             _ eq_refl eq_refl ltac:(discriminate)).
    + vm_compute. lia.
    + vm_compute. repeat constructor.
  - apply (proj2 (sequestration_failures
                    (response (joinLines ["Dec. Year"; "2024.0"]%string))
                    (ofZ 2024) (ofZ 2027))
             _ eq_refl eq_refl ltac:(discriminate)).
    + vm_compute. lia.
    + vm_compute. repeat constructor.
    + vm_compute. repeat constructor.
  - apply (proj2 (sequestration_failures (response noRowExport)
                    (ofZ 2024) (ofZ 2027))
             _ eq_refl eq_refl ltac:(discriminate)).
    + vm_compute. lia.
    + vm_compute. apply Exists_cons_hd. reflexivity.
    + vm_compute. apply Exists_cons_tl, Exists_cons_hd. reflexivity.
    + left. intros row H. vm_compute in H. contradiction.
Defined.

(** *** Blank lines and line endings *)

Lemma split_nonempty (sep : ascii) (s : string) : split sep s <> [].
Proof.
  destruct s as [|c s]; simpl; [discriminate|].
  destruct (Ascii.eqb c sep); [discriminate|].
  destruct (split sep s); discriminate.
Qed.

Lemma split_app (sep : ascii) (a b : string) :
  split sep (a ++ String sep b) = split sep a ++ split sep b.
Proof.
  induction a as [|c a IH].
  - simpl. rewrite Ascii.eqb_refl. reflexivity.
  - rewrite RoundingFacts.append_cons. simpl. rewrite IH.
    destruct (Ascii.eqb c sep); [reflexivity|].
    pose proof (split_nonempty sep a) as Hne.
    destruct (split sep a) as [|h t]; [contradiction|reflexivity].
Qed.

Lemma splitLines_app (a b : string) :
  Fullcam.splitLines (a ++ String "010" b)
  = Fullcam.splitLines a ++ Fullcam.splitLines b.
Proof.
  unfold Fullcam.splitLines. rewrite split_app. apply List.filter_app.
Qed.

Lemma trimEnd_snoc (w : ascii) (x : string) :
  isWhiteSpace w = true -> trimEnd (x ++ String w EmptyString) = trimEnd x.
Proof.
  intros Hw. induction x as [|c x IH].
  - simpl. rewrite Hw. reflexivity.
  - rewrite RoundingFacts.append_cons. simpl. rewrite IH. reflexivity.
Qed.

Lemma trim_snoc (w : ascii) (x : string) :
  isWhiteSpace w = true -> trim (x ++ String w EmptyString) = trim x.
Proof.
  intros Hw. unfold trim. induction x as [|c x IH].
  - simpl. rewrite Hw. reflexivity.
  - rewrite RoundingFacts.append_cons. cbn [trimStart].
    destruct (isWhiteSpace c); [exact IH|].
    rewrite <- RoundingFacts.append_cons. apply trimEnd_snoc, Hw.
Qed.

Lemma split_snoc (sep w : ascii) (x : string) :
  Ascii.eqb w sep = false ->
  exists init last,
    split sep x = init ++ [last] /\
    split sep (x ++ String w EmptyString) = init ++ [(last ++ String w EmptyString)%string].
Proof.
  intros Hw. induction x as [|c x (init & last & E1 & E2)].
  - exists [], EmptyString. simpl. rewrite Hw. split; reflexivity.
  - rewrite RoundingFacts.append_cons. simpl. rewrite E1, E2.
    destruct (Ascii.eqb c sep).
    + exists (EmptyString :: init), last. split; reflexivity.
    + destruct init as [|h t]; simpl.
      * exists [], (String c last). split; reflexivity.
      * exists (String c h :: t), last. split; reflexivity.
Qed.

Lemma splitFields_snoc (w : ascii) (x : string) :
  isWhiteSpace w = true ->
  Fullcam.splitFields (x ++ String w EmptyString) = Fullcam.splitFields x.
Proof.
  intros Hw. unfold Fullcam.splitFields.
  assert (Hsep : Ascii.eqb w "," = false).
  { destruct (Ascii.eqb_spec w ","); [subst; discriminate|reflexivity]. }
  destruct (split_snoc "," w x Hsep) as (init & last & E1 & E2).
  rewrite E1, E2, !map_app. simpl. rewrite (trim_snoc w last Hw). reflexivity.
Qed.

Lemma sameLine_fields (a b : string) :
  sameLine a b ->
  Fullcam.splitFields a = Fullcam.splitFields b /\ trim a = trim b.
Proof.
  intros [->| ->]; [split; reflexivity|].
  split; symmetry; [apply splitFields_snoc | apply trim_snoc]; reflexivity.
Qed.

Lemma split_crlf (s : string) :
  Forall2 sameLine (split "010" s) (split "010" (crlf s)).
Proof.
  induction s as [|c s IH].
  - constructor; [left; reflexivity|constructor].
  - cbn [crlf split]. destruct (Ascii.eqb c "010") eqn:Ec.
    + cbn [split]. change (Ascii.eqb "013" "010") with false.
      change (Ascii.eqb "010" "010") with true. cbv iota.
      constructor; [right; reflexivity|exact IH].
    + cbn [split]. rewrite Ec.
      inversion IH as [|h h' t t' Hh Ht E1 E2].
      * exfalso. symmetry in H0. exact (split_nonempty _ _ H0).
      * constructor; [|exact Ht].
        destruct Hh as [->| ->]; [left; reflexivity|right; reflexivity].
Qed.

Lemma filter_Forall2 {A} (R : A -> A -> Prop) (f : A -> bool) (l l' : list A) :
  (forall a b, R a b -> f a = f b) ->
  Forall2 R l l' -> Forall2 R (List.filter f l) (List.filter f l').
Proof.
  intros Hf H. induction H as [|a b l l' Hab Hl IH]; simpl; [constructor|].
  rewrite <- (Hf a b Hab). destruct (f a); [constructor|]; assumption.
Qed.

Lemma splitLines_crlf (s : string) :
  Forall2 sameFields (Fullcam.splitLines s) (Fullcam.splitLines (crlf s)).
Proof.
  unfold Fullcam.splitLines.
  eapply Forall2_impl.
  - apply filter_Forall2; [|apply split_crlf].
    intros a b Hab. destruct (sameLine_fields a b Hab) as [_ ->]. reflexivity.
  - intros a b Hab. apply sameLine_fields, Hab.
Qed.

Lemma readRow_fields (di ci : Z) (a b : string) :
  sameFields a b -> Fullcam.readRow di ci a = Fullcam.readRow di ci b.
Proof. unfold sameFields, Fullcam.readRow. intros ->. reflexivity. Qed.

Lemma readPoint_fields (yi si ti di : Z) (a b : string) :
  sameFields a b ->
  CarbonCharts.readPoint yi si ti di a = CarbonCharts.readPoint yi si ti di b.
Proof.
  unfold sameFields, CarbonCharts.readPoint.
  change CarbonCharts.splitFields with Fullcam.splitFields.
  intros ->. reflexivity.
Qed.

Lemma omap_fields {B} (f : string -> option B) (l l' : list string) :
  (forall a b, sameFields a b -> f a = f b) ->
  Forall2 sameFields l l' -> omap f l = omap f l'.
Proof.
  intros Hf H. induction H as [|a b l l' Hab Hl IH]; [reflexivity|].
  rewrite !ListFacts.omap_cons, (Hf a b Hab), IH. reflexivity.
Qed.

Lemma lines_fields (l l' : list string) :
  Forall2 sameFields l l' ->
  length l = length l' /\
  Fullcam.splitFields (hd EmptyString l) = Fullcam.splitFields (hd EmptyString l') /\
  Forall2 sameFields (tl l) (tl l').
Proof.
  intros H. split; [eapply Forall2_length, H|].
  destruct H as [|a b l l2 Hab Hl]; simpl; split; auto; constructor.
Qed.

Lemma sequestrationOfLines_fields (l l' : list string) (s e : number) :
  Forall2 sameFields l l' ->
  Fullcam.sequestrationOfLines l s e = Fullcam.sequestrationOfLines l' s e.
Proof.
  intros H. destruct (lines_fields l l' H) as (Hlen & Hhd & Htl).
  unfold Fullcam.sequestrationOfLines. rewrite Hlen, Hhd.
  rewrite !FullcamFacts.scan_rows.
  rewrite (omap_fields _ (tl l) (tl l') (readRow_fields _ _) Htl). reflexivity.
Qed.

Lemma stepChangesOfLines_fields (l l' : list string)
    (range : CarbonCharts.CarbonAnalysisRange) :
  Forall2 sameFields l l' ->
  CarbonCharts.stepChangesOfLines l range = CarbonCharts.stepChangesOfLines l' range.
Proof.
  intros H. destruct (lines_fields l l' H) as (Hlen & Hhd & Htl).
  unfold CarbonCharts.stepChangesOfLines.
  change CarbonCharts.splitFields with Fullcam.splitFields.
  rewrite Hlen, Hhd.
  rewrite (omap_fields _ (tl l) (tl l') (readPoint_fields _ _ _ _) Htl).
  reflexivity.
Qed.

Lemma crlf_truthy (s : string) : truthy (crlf s) = truthy s.
Proof.
  destruct s as [|c s]; [reflexivity|]. simpl.
  destruct (Ascii.eqb c "010"); reflexivity.
Qed.

(** X5: blank lines do not count.  A stretch of the export that holds
    no line other than blank ones, between two line feeds, can be
    left out without a change to the outcome of the sequestration or
    of the step changes. *)
Theorem blank_lines_are_ignored
    (before blank after : string) (startDate endDate : number)
    (range : CarbonCharts.CarbonAnalysisRange) :
  Fullcam.splitLines blank = [] ->
  Fullcam.calculateCarbonSequestration
    (response (before ++ String "010" (blank ++ String "010" after)))
    startDate endDate
  = Fullcam.calculateCarbonSequestration
      (response (before ++ String "010" after)) startDate endDate /\
  CarbonCharts.extractStepCarbonChanges
    (before ++ String "010" (blank ++ String "010" after)) range
  = CarbonCharts.extractStepCarbonChanges (before ++ String "010" after) range.
Proof.
  intros Hblank.
  assert (E : Fullcam.splitLines (before ++ String "010" (blank ++ String "010" after))
              = Fullcam.splitLines (before ++ String "010" after)).
  { rewrite !splitLines_app, Hblank. reflexivity. }
  split.
  - unfold Fullcam.calculateCarbonSequestration, response.
    cbn [Fullcam.data Fullcam.success]. rewrite E.
    destruct before; reflexivity.
  - unfold CarbonCharts.extractStepCarbonChanges.
    change CarbonCharts.splitLines with Fullcam.splitLines. rewrite E. reflexivity.
Qed.

Lemma blank_lines_are_ignored_witness :
  Fullcam.splitLines "  " = [] /\
  CarbonCharts.extractStepCarbonChanges
    ("Year,Step in Year,C mass of trees (tC/ha),C mass of forest debris (tC/ha)"
       ++ String "010" ("  " ++ String "010" "2024,1,10.0,2.0")) exampleRange
  = CarbonCharts.extractStepCarbonChanges
      ("Year,Step in Year,C mass of trees (tC/ha),C mass of forest debris (tC/ha)"
         ++ String "010" "2024,1,10.0,2.0") exampleRange.
Proof.
  split; [reflexivity|].
  refine (proj2 (blank_lines_are_ignored _ "  " _ zero zero exampleRange _)).
  reflexivity.
Defined.

(** X6: line endings of a carriage return and a line feed are read
    as line feeds: writing every line feed of an export as the pair
    changes neither the outcome of the sequestration nor that of the
    step changes. *)
Theorem carriage_returns_are_ignored
    (csvData : string) (startDate endDate : number)
    (range : CarbonCharts.CarbonAnalysisRange) :
  Fullcam.calculateCarbonSequestration (response (crlf csvData)) startDate endDate
  = Fullcam.calculateCarbonSequestration (response csvData) startDate endDate /\
  CarbonCharts.extractStepCarbonChanges (crlf csvData) range
  = CarbonCharts.extractStepCarbonChanges csvData range.
Proof.
  split.
  - unfold Fullcam.calculateCarbonSequestration, response.
    cbn [Fullcam.data Fullcam.success]. rewrite crlf_truthy.
    destruct (negb true || negb (truthy csvData)); [reflexivity|].
    symmetry. apply sequestrationOfLines_fields, splitLines_crlf.
  - unfold CarbonCharts.extractStepCarbonChanges.
    symmetry. apply stepChangesOfLines_fields.
    change CarbonCharts.splitLines with Fullcam.splitLines. apply splitLines_crlf.
Qed.

(** *** The order of the rows and the number of changes *)

Lemma same_point_same_record (l : list CarbonCharts.Point) (x y : CarbonCharts.Point) :
  NoDup (map CarbonCharts.point (x :: l)) -> In y (x :: l) ->
  CarbonCharts.point y = CarbonCharts.point x -> y = x.
Proof.
  intros Hnd [<-|Hin] Hp; [reflexivity|].
  simpl in Hnd. apply NoDup_cons in Hnd as [Hx _].
  exfalso. apply Hx. rewrite <- Hp.
  apply list_elem_of_In, in_map, Hin.
Qed.

Lemma ascending_unique (l1 l2 : list CarbonCharts.Point) :
  StronglySorted ascending l1 -> StronglySorted ascending l2 ->
  Permutation l1 l2 -> NoDup (map CarbonCharts.point l1) -> l1 = l2.
Proof.
  revert l2. induction l1 as [|x t1 IH]; intros l2 H1 H2 Hp Hnd.
  - apply Permutation_nil in Hp. congruence.
  - destruct l2 as [|y t2].
    { apply Permutation_sym, Permutation_nil in Hp. discriminate. }
    apply StronglySorted_inv in H1 as [H1 Hx].
    apply StronglySorted_inv in H2 as [H2 Hy].
    assert (Hyx : y = x).
    { assert (Hin : In y (x :: t1)).
      { eapply Permutation_in; [symmetry; exact Hp|left; reflexivity]. }
      apply (same_point_same_record t1 x y Hnd Hin).
      assert (Hxin : In x (y :: t2)).
      { eapply Permutation_in; [exact Hp|left; reflexivity]. }
      rewrite Forall_forall in Hx, Hy. unfold ascending in Hx, Hy.
      assert (CarbonCharts.point x <= CarbonCharts.point y).
      { destruct Hin as [->|Hin]; [lia|]. apply Hx, list_elem_of_In, Hin. }
      assert (CarbonCharts.point y <= CarbonCharts.point x).
      { destruct Hxin as [->|Hxin]; [lia|]. apply Hy, list_elem_of_In, Hxin. }
      lia. }
    subst y. f_equal. apply IH; try assumption.
    + eapply Permutation_cons_inv, Hp.
    + simpl in Hnd. apply NoDup_cons in Hnd as [_ Hnd]. exact Hnd.
Qed.

Lemma sort_of_permutation (l l' : list CarbonCharts.Point) :
  Permutation l l' -> NoDup (map CarbonCharts.point l) ->
  CarbonCharts.sort CarbonCharts.comparePoints l
  = CarbonCharts.sort CarbonCharts.comparePoints l'.
Proof.
  intros Hp Hnd. apply ascending_unique.
  - apply ChartFacts.sort_ascending.
  - apply ChartFacts.sort_ascending.
  - rewrite <- !ChartFacts.sort_Permutation. exact Hp.
  - assert (E : Permutation
                  (map CarbonCharts.point
                     (CarbonCharts.sort CarbonCharts.comparePoints l))
                  (map CarbonCharts.point l))
      by (apply Permutation_map; symmetry; apply ChartFacts.sort_Permutation).
    rewrite E. exact Hnd.
Qed.

(** X7: the order of the data rows does not matter to the step
    changes, as long as no two usable rows have the same step point
    and the step points are computed exactly (safe integers, below
    2^53): any rearrangement of the rows under the header gives the
    same outcome. *)
Theorem step_changes_ignore_row_order (header : string) (rows rows' : list string)
    (range : CarbonCharts.CarbonAnalysisRange) :
  Permutation rows rows' ->
  exactPoints (usablePoints (header :: rows)) ->
  NoDup (map CarbonCharts.point (usablePoints (header :: rows))) ->
  CarbonCharts.stepChangesOfLines (header :: rows') range
  = CarbonCharts.stepChangesOfLines (header :: rows) range.
Proof.
  intros Hp _ Hnd. unfold CarbonCharts.stepChangesOfLines, usablePoints in *.
  cbn [hd tl] in *.
  replace (length (header :: rows')) with (length (header :: rows))
    by (simpl; f_equal; apply Permutation_length, Hp).
  destruct (length (header :: rows) <? 2)%nat; [reflexivity|].
  destruct (_ || _ || _ || _); [reflexivity|].
  rewrite (sort_of_permutation _ _ (omap_Permutation _ _ _ Hp) Hnd).
  reflexivity.
Qed.

Lemma stepChanges_needs_two_points (lines : list string)
    (range : CarbonCharts.CarbonAnalysisRange)
    (changes : list CarbonCharts.StepCarbonChange.t) :
  CarbonCharts.stepChangesOfLines lines range = Success changes ->
  (2 <= length (usablePoints lines))%nat.
Proof.
  unfold CarbonCharts.stepChangesOfLines, usablePoints.
  destruct (length lines <? 2)%nat; [discriminate|].
  destruct (_ || _ || _ || _); [discriminate|].
  match goal with
  | |- context [(length (CarbonCharts.sort CarbonCharts.comparePoints ?l) <? 2)%nat] =>
      destruct (Nat.ltb_spec (length (CarbonCharts.sort CarbonCharts.comparePoints l)) 2)
        as [|Hs]; [discriminate|]
  end.
  intros _. rewrite ChartFacts.sort_length in Hs. exact Hs.
Qed.

Lemma stepChanges_by_pairs (lines : list string)
    (range : CarbonCharts.CarbonAnalysisRange) :
  (2 <= length (usablePoints lines))%nat ->
  CarbonCharts.stepChangesOfLines lines range =
    let sorted := CarbonCharts.sort CarbonCharts.comparePoints (usablePoints lines) in
    let changes :=
      map (fun pc => changeBetween (fst pc) (snd pc))
          (List.filter (fun pc => inWindow (windowStart range) (windowEnd range) (snd pc))
                       (withPrevious sorted)) in
    match changes with
    | [] => Failure "No step changes found in selected analysis period"
    | _ => Success changes
    end.
Proof.
  intros Hlen. rewrite ChartFacts.stepChangesOfLines_points by exact Hlen.
  cbv zeta. rewrite ChartFacts.changes_withPrevious. reflexivity.
Qed.

Lemma withPrevious_length (sorted : list CarbonCharts.Point) :
  length (withPrevious sorted) = (length sorted - 1)%nat.
Proof.
  unfold withPrevious. rewrite length_zip_with.
  destruct sorted as [|x t]; [reflexivity|].
  cbn [tl length]. lia.
Qed.

Lemma filter_all {A} (f : A -> bool) (l : list A) :
  (forall x, In x l -> f x = true) -> List.filter f l = l.
Proof.
  induction l as [|x l IH]; intros H; [reflexivity|]. simpl.
  rewrite (H x (or_introl eq_refl)). f_equal. apply IH.
  intros y Hy. apply H. right. exact Hy.
Qed.

Lemma filter_none {A} (f : A -> bool) (l : list A) :
  (forall x, In x l -> f x = false) -> List.filter f l = [].
Proof.
  induction l as [|x l IH]; intros H; [reflexivity|]. simpl.
  rewrite (H x (or_introl eq_refl)). apply IH.
  intros y Hy. apply H. right. exact Hy.
Qed.

Lemma withPrevious_current (points : list CarbonCharts.Point)
    (pc : CarbonCharts.Point * CarbonCharts.Point) :
  In pc (withPrevious (CarbonCharts.sort CarbonCharts.comparePoints points)) ->
  In (snd pc) points.
Proof.
  intros H. destruct pc as [previous current].
  apply list_elem_of_In in H. unfold withPrevious in H.
  apply elem_of_zip_r in H. simpl.
  apply (Permutation_in _
           (Permutation_sym
              (ChartFacts.sort_Permutation CarbonCharts.comparePoints points))).
  apply list_elem_of_In.
  destruct (CarbonCharts.sort CarbonCharts.comparePoints points) as [|x t];
    [inversion H|]. apply list_elem_of_further. exact H.
Qed.

Lemma step_changes_ignore_row_order_witness :
  CarbonCharts.stepChangesOfLines
    (chartHeader :: ["2024,2,10.5,2.1"; "2024,1,10.0,2.0"]%string) exampleRange
  = CarbonCharts.stepChangesOfLines
      (chartHeader :: ["2024,1,10.0,2.0"; "2024,2,10.5,2.1"]%string) exampleRange.
Proof.
  apply (step_changes_ignore_row_order chartHeader
           ["2024,1,10.0,2.0"; "2024,2,10.5,2.1"]%string
           ["2024,2,10.5,2.1"; "2024,1,10.0,2.0"]%string exampleRange).
  - apply perm_swap.
  - exact_points.
  - vm_compute. apply NoDup_cons. split.
    + intros H. apply list_elem_of_singleton in H. discriminate.
    + apply NoDup_singleton.
Defined.

(** X8: a successful call returns at least one change and fewer
    changes than the export has usable rows. *)
Theorem step_changes_are_fewer_than_records (csvData : string)
    (range : CarbonCharts.CarbonAnalysisRange)
    (changes : list CarbonCharts.StepCarbonChange.t) :
  CarbonCharts.extractStepCarbonChanges csvData range = Success changes ->
  (1 <= length changes
   <= length (usablePoints (CarbonCharts.splitLines csvData)) - 1)%nat.
Proof.
  unfold CarbonCharts.extractStepCarbonChanges. intros H.
  pose proof (stepChanges_needs_two_points _ _ _ H) as Hlen.
  rewrite stepChanges_by_pairs in H by exact Hlen. cbv zeta in H.
  match type of H with
  | match ?c with _ => _ end = _ => destruct c as [|c0 cs] eqn:E; [discriminate|]
  end.
  injection H as <-. rewrite <- E. split.
  - rewrite E. simpl. lia.
  - rewrite length_map.
    etransitivity; [apply List.filter_length_le|].
    rewrite withPrevious_length, ChartFacts.sort_length. lia.
Qed.

Lemma step_changes_are_fewer_than_records_witness :
  exists changes,
    CarbonCharts.extractStepCarbonChanges exampleExport exampleRange
    = Success changes /\
    (1 <= length changes
     <= length (usablePoints (CarbonCharts.splitLines exampleExport)) - 1)%nat.
Proof.
  eexists. split; [vm_compute; reflexivity|].
  apply (step_changes_are_fewer_than_records exampleExport exampleRange).
  vm_compute. reflexivity.
Defined.

(** X9: when the window of the range holds every usable row, of
    which there are at least two, and the step points of the rows and
    of the range are computed exactly (safe integers, below 2^53), the
    call succeeds and returns one change for each row but the first of
    the sorted order: the change of that row against the row before
    it. *)
Theorem step_changes_over_full_window (csvData : string)
    (range : CarbonCharts.CarbonAnalysisRange) :
  let points := usablePoints (CarbonCharts.splitLines csvData) in
  (2 <= length points)%nat ->
  exactPoints points -> exactRange range ->
  (forall p, In p points ->
             windowStart range <= CarbonCharts.point p <= windowEnd range) ->
  exists changes,
    CarbonCharts.extractStepCarbonChanges csvData range = Success changes /\
    length changes = (length points - 1)%nat /\
    changes
    = map (fun pc => changeBetween (fst pc) (snd pc))
          (withPrevious (CarbonCharts.sort CarbonCharts.comparePoints points)).
Proof.
  intros points Hlen _ _ Hin. unfold CarbonCharts.extractStepCarbonChanges.
  rewrite stepChanges_by_pairs by exact Hlen. cbv zeta. fold points.
  rewrite filter_all.
  - assert (Hl : length (map (fun pc => changeBetween (fst pc) (snd pc))
                    (withPrevious (CarbonCharts.sort CarbonCharts.comparePoints points)))
                 = (length points - 1)%nat)
      by (rewrite length_map, withPrevious_length, ChartFacts.sort_length; reflexivity).
    set (all := map (fun pc => changeBetween (fst pc) (snd pc))
                  (withPrevious (CarbonCharts.sort CarbonCharts.comparePoints points)))
      in *.
    exists all. split; [|split; [exact Hl|reflexivity]].
    destruct all as [|c cs]; [simpl in Hl; lia|reflexivity].
  - intros pc Hpc. apply withPrevious_current in Hpc.
    specialize (Hin _ Hpc). unfold inWindow.
    apply andb_true_iff. split; apply Z.leb_le; lia.
Qed.

Lemma step_changes_over_full_window_witness :
  exists changes,
    CarbonCharts.extractStepCarbonChanges exampleExport exampleRange
    = Success changes /\
    length changes
    = (length (usablePoints (CarbonCharts.splitLines exampleExport)) - 1)%nat /\
    changes
    = map (fun pc => changeBetween (fst pc) (snd pc))
          (withPrevious
             (CarbonCharts.sort CarbonCharts.comparePoints
                (usablePoints (CarbonCharts.splitLines exampleExport)))).
Proof.
  apply (step_changes_over_full_window exampleExport exampleRange).
  - vm_compute. lia.
  - exact_points.
  - vm_compute. repeat constructor.
  - vm_compute. intros p [<-|[<-|[]]]; split; discriminate.
Defined.

(** X10: for steps from 1 to 12 and years whose step point is
    computed exactly (safe integers, below 2^53), the step point orders
    the records as their year and step do, and two records have the
    same step point only when they have the same year and step. *)
Theorem step_points_order_chronologically (year step year' step' : Z) :
  1 <= step <= 12 -> 1 <= step' <= 12 ->
  exactStepPoint year step -> exactStepPoint year' step' ->
  (CarbonCharts.toStepPoint year step < CarbonCharts.toStepPoint year' step'
   <-> year < year' \/ (year = year' /\ step < step')) /\
  (CarbonCharts.toStepPoint year step = CarbonCharts.toStepPoint year' step'
   <-> year = year' /\ step = step').
Proof. unfold CarbonCharts.toStepPoint. intros H H' _ _. split; split; lia. Qed.

(** At the largest December within the bound the arithmetic of Numbers
    gives the integer; beyond the bound two steps of the year 2^50 have
    the same step point in the arithmetic of Numbers. *)
Example step_point_within_the_bound :
  exactStepPoint 750599937895081 12 /\
  CarbonCharts.toStepPointNumber (ofZ 750599937895081) (ofZ 12)
  = ofZ (CarbonCharts.toStepPoint 750599937895081 12).
Proof. split; [vm_compute; repeat constructor|vm_compute; reflexivity]. Qed.

Example step_points_beyond_the_bound :
  ~ exactStepPoint (2 ^ 50) 2 /\
  CarbonCharts.toStepPointNumber (ofZ (2 ^ 50)) (ofZ 1)
  = CarbonCharts.toStepPointNumber (ofZ (2 ^ 50)) (ofZ 2).
Proof.
  split; [|vm_compute; reflexivity].
  unfold exactStepPoint, safeInteger. lia.
Qed.

Lemma step_points_order_chronologically_witness :
  CarbonCharts.toStepPoint 2023 12 < CarbonCharts.toStepPoint 2024 1.
Proof.
  apply (proj1 (step_points_order_chronologically 2023 12 2024 1
                  ltac:(lia) ltac:(lia)
                  ltac:(vm_compute; repeat constructor)
                  ltac:(vm_compute; repeat constructor))).
  left. lia.
Defined.

(** X11: which failure the step changes return.  An export of fewer
    than two lines that are not blank has no rows to chart; then a
    header that lacks one of the four columns is reported; then fewer
    than two usable rows; and with two usable rows or more, whose step
    points like those of the range are computed exactly (safe
    integers, below 2^53), the call fails when every one of them lies
    outside the window. *)
Theorem step_changes_failures (csvData : string)
    (range : CarbonCharts.CarbonAnalysisRange) :
  let lines := CarbonCharts.splitLines csvData in
  let headers := CarbonCharts.splitFields (hd EmptyString lines) in
  ((length lines < 2)%nat ->
   CarbonCharts.extractStepCarbonChanges csvData range
   = Failure "No simulation rows to chart") /\
  ((2 <= length lines)%nat ->
   Forall (fun h => CarbonCharts.isYear h = false) headers \/
   Forall (fun h => CarbonCharts.isStep h = false) headers \/
   Forall (fun h => CarbonCharts.isTrees h = false) headers \/
   Forall (fun h => CarbonCharts.isDebris h = false) headers ->
   CarbonCharts.extractStepCarbonChanges csvData range
   = Failure "Required carbon chart columns not found in simulation CSV") /\
  ((2 <= length lines)%nat ->
   Exists (fun h => CarbonCharts.isYear h = true) headers ->
   Exists (fun h => CarbonCharts.isStep h = true) headers ->
   Exists (fun h => CarbonCharts.isTrees h = true) headers ->
   Exists (fun h => CarbonCharts.isDebris h = true) headers ->
   (length (usablePoints lines) < 2)%nat ->
   CarbonCharts.extractStepCarbonChanges csvData range
   = Failure "Not enough data points to chart carbon change per step") /\
  ((2 <= length (usablePoints lines))%nat ->
   exactPoints (usablePoints lines) -> exactRange range ->
   (forall p, In p (usablePoints lines) ->
              CarbonCharts.point p < windowStart range
              \/ windowEnd range < CarbonCharts.point p) ->
   CarbonCharts.extractStepCarbonChanges csvData range
   = Failure "No step changes found in selected analysis period").
Proof.
  intros lines headers. unfold CarbonCharts.extractStepCarbonChanges. fold lines.
  split; [|split; [|split]].
  - intros Hlen. unfold CarbonCharts.stepChangesOfLines.
    destruct (Nat.ltb_spec (length lines) 2); [reflexivity|lia].
  - intros Hlen Hmiss. unfold CarbonCharts.stepChangesOfLines. fold headers.
    destruct (Nat.ltb_spec (length lines) 2); [lia|].
    rewrite <- !findIndex_none in Hmiss.
    destruct Hmiss as [ -> | [ -> | [ -> | -> ] ] ]; rewrite ?orb_true_r; reflexivity.
  - intros Hlen Hy Hs Ht Hd Hfew.
    apply findIndex_some in Hy, Hs, Ht, Hd.
    unfold CarbonCharts.stepChangesOfLines, usablePoints in *. fold headers in Hfew |- *.
    destruct (Nat.ltb_spec (length lines) 2); [lia|].
    destruct (Z.eqb_spec (findIndex CarbonCharts.isYear headers) (-1)); [contradiction|].
    destruct (Z.eqb_spec (findIndex CarbonCharts.isStep headers) (-1)); [contradiction|].
    destruct (Z.eqb_spec (findIndex CarbonCharts.isTrees headers) (-1)); [contradiction|].
    destruct (Z.eqb_spec (findIndex CarbonCharts.isDebris headers) (-1)); [contradiction|].
    cbn [orb] in *.
    match goal with
    | |- context [(length (CarbonCharts.sort CarbonCharts.comparePoints ?l) <? 2)%nat] =>
        destruct (Nat.ltb_spec (length (CarbonCharts.sort CarbonCharts.comparePoints l)) 2)
          as [|Hs']; [reflexivity|]
    end.
    rewrite ChartFacts.sort_length in Hs'. lia.
  - intros Hlen _ _ Hout. rewrite stepChanges_by_pairs by exact Hlen. cbv zeta.
    rewrite filter_none; [reflexivity|].
    intros pc Hpc. apply withPrevious_current in Hpc.
    specialize (Hout _ Hpc). unfold inWindow.
    apply andb_false_iff. destruct Hout; [left|right]; apply Z.leb_gt; lia.
Qed.

Lemma step_changes_failures_witness :
  CarbonCharts.extractStepCarbonChanges chartHeader exampleRange
  = Failure "No simulation rows to chart" /\
  CarbonCharts.extractStepCarbonChanges (joinLines [treeHeader; "2024.0,10.0"]%string)
    exampleRange
  = Failure "Required carbon chart columns not found in simulation CSV" /\
  CarbonCharts.extractStepCarbonChanges (joinLines [chartHeader; "2024,1,10.0,2.0"]%string)
    exampleRange
  = Failure "Not enough data points to chart carbon change per step" /\
  CarbonCharts.extractStepCarbonChanges
    (joinLines [chartHeader; "2030,1,10.0,2.0"; "2030,2,10.5,2.1"]%string) exampleRange
  = Failure "No step changes found in selected analysis period".
Proof.
  split; [|split; [|split]].
  - apply (proj1 (step_changes_failures chartHeader exampleRange)).
    vm_compute. lia.
  - apply (proj1 (proj2 (step_changes_failures
                           (joinLines [treeHeader; "2024.0,10.0"]%string)
                           exampleRange))).
    + vm_compute. lia.
    + left. vm_compute. repeat constructor.
  - apply (proj1 (proj2 (proj2 (step_changes_failures
                           (joinLines [chartHeader; "2024,1,10.0,2.0"]%string)
                           exampleRange)))).
    + vm_compute. lia.
    + vm_compute. apply Exists_cons_hd. reflexivity.
    + vm_compute. apply Exists_cons_tl, Exists_cons_hd. reflexivity.
    + vm_compute. apply Exists_cons_tl, Exists_cons_tl, Exists_cons_hd. reflexivity.
    + vm_compute. apply Exists_cons_tl, Exists_cons_tl, Exists_cons_tl, Exists_cons_hd.
      reflexivity.
    + vm_compute. lia.
  - apply (proj2 (proj2 (proj2 (step_changes_failures
                           (joinLines [chartHeader; "2030,1,10.0,2.0";
                                       "2030,2,10.5,2.1"]%string)
                           exampleRange)))).
    + vm_compute. lia.
    + exact_points.
    + vm_compute. repeat constructor.
    + intros p H. vm_compute in H.
      destruct H as [<-|[<-|[]]]; right; vm_compute; reflexivity.
Defined.

(** *** The number of tick indices *)

Lemma ticks_member (seriesLength i : Z) :
  i ∈ CarbonCharts.getSharedTickIndices seriesLength <->
  1 <= seriesLength /\ 0 <= i < seriesLength /\
  (Z.rem i (Z.max 1 (CarbonCharts.ceilDiv seriesLength 8)) = 0
   \/ i = seriesLength - 1).
Proof.
  unfold CarbonCharts.getSharedTickIndices.
  destruct (Z.ltb_spec seriesLength 1) as [Hlt|Hge].
  - split; [|lia]. intros H. apply not_elem_of_empty in H. contradiction.
  - rewrite ChartFacts.ticks_fold, <- list_elem_of_In, elem_of_seqZ.
    rewrite orb_true_iff, !Z.eqb_eq. split.
    + intros [H|[Hr Hc]]; [apply not_elem_of_empty in H; contradiction|].
      split; [lia|]. split; [lia|exact Hc].
    + intros (_ & Hr & Hc). right. split; [lia|exact Hc].
Qed.

Lemma size_union_le (X Y : gset Z) : (size (X ∪ Y) <= size X + size Y)%nat.
Proof.
  rewrite size_union_alt.
  assert (Hd : (size (Y ∖ X) <= size Y)%nat)
    by (apply subseteq_size, subseteq_difference_l; reflexivity).
  lia.
Qed.

Lemma size_list_to_set_le (l : list Z) :
  (size (list_to_set l : gset Z) <= length l)%nat.
Proof.
  induction l as [|x l IH].
  - change (size (∅ : gset Z) <= 0)%nat. rewrite size_empty. lia.
  - change (size ({[ x ]} ∪ (list_to_set l : gset Z)) <= S (length l))%nat.
    etransitivity; [apply size_union_le|]. rewrite size_singleton. lia.
Qed.

(** X12: there are never more than nine tick indices, however long
    the series is. *)
Theorem shared_ticks_are_at_most_nine (seriesLength : Z) :
  (size (CarbonCharts.getSharedTickIndices seriesLength) <= 9)%nat.
Proof.
  set (xTickStep := Z.max 1 (CarbonCharts.ceilDiv seriesLength 8)).
  assert (Hsub : CarbonCharts.getSharedTickIndices seriesLength
                 ⊆ list_to_set (map (fun k => k * xTickStep) (seqZ 0 8))
                   ∪ {[ seriesLength - 1 ]}).
  { intros i Hi. apply ticks_member in Hi as (Hn & Hr & Hc).
    fold xTickStep in Hc. apply elem_of_union.
    destruct Hc as [Hrem| ->]; [left|right; apply elem_of_singleton; reflexivity].
    assert (Hstep : xTickStep <> 0) by (unfold xTickStep; lia).
    apply (Z.rem_divide i xTickStep Hstep) in Hrem as [k Hk].
    apply elem_of_list_to_set, list_elem_of_In, in_map_iff.
    exists k. split; [symmetry; exact Hk|].
    apply list_elem_of_In, elem_of_seqZ.
    pose proof (ChartFacts.ceilDiv_spec seriesLength 8 ltac:(lia)).
    assert (1 <= xTickStep /\ seriesLength <= 8 * xTickStep)
      by (unfold xTickStep; lia).
    nia. }
  apply subseteq_size in Hsub.
  etransitivity; [exact Hsub|].
  etransitivity; [apply size_union_le|].
  rewrite size_singleton.
  pose proof (size_list_to_set_le (map (fun k => k * xTickStep) (seqZ 0 8))) as H.
  rewrite length_map, length_seqZ in H.
  change (Z.to_nat 8) with 8%nat in H.
  apply (Nat.add_le_mono_r _ _ 1) in H. exact H.
Qed.

(** X13: a series of up to eight points has a tick at every index,
    and a series of no point has none. *)
Theorem short_series_tick_every_index (seriesLength : Z) :
  seriesLength <= 8 ->
  forall i : Z,
    i ∈ CarbonCharts.getSharedTickIndices seriesLength <-> 0 <= i < seriesLength.
Proof.
  intros Hshort i. rewrite ticks_member. split; [lia|].
  intros Hi. split; [lia|]. split; [exact Hi|]. left.
  pose proof (ChartFacts.ceilDiv_spec seriesLength 8 ltac:(lia)).
  replace (Z.max 1 (CarbonCharts.ceilDiv seriesLength 8)) with 1 by lia.
  apply Z.rem_1_r.
Qed.

Lemma short_series_tick_every_index_witness :
  5 <= 8 /\ 3 ∈ CarbonCharts.getSharedTickIndices 5.
Proof.
  assert (H : 5 <= 8) by lia.
  split; [exact H|].
  apply (proj2 (short_series_tick_every_index 5 H 3)). lia.
Defined.

(** *** The failures of the average *)

(** X14: the average fails on a month outside of 1 to 12, at the start
    or at the end, whatever the payload holds; with both months in
    range it fails as the sequestration does, with the same error. *)
Theorem average_fails_on_month_or_sequestration
    (r : Fullcam.SimulationResponse) (startYear startMonth endYear endMonth : Z) :
  (startMonth < 1 \/ 12 < startMonth \/ endMonth < 1 \/ 12 < endMonth ->
   Fullcam.calculateAverageAnnualSequestration r startYear startMonth endYear endMonth
   = Failure "Month must be between 1 and 12") /\
  (forall (startDate endDate : number) (error : string),
      Fullcam.dateToDecimalYear startYear startMonth = Success startDate ->
      Fullcam.dateToDecimalYear endYear endMonth = Success endDate ->
      Fullcam.calculateCarbonSequestration r startDate endDate = Failure error ->
      Fullcam.calculateAverageAnnualSequestration r startYear startMonth
        endYear endMonth = Failure error).
Proof.
  split.
  - intros H. unfold Fullcam.calculateAverageAnnualSequestration,
      Fullcam.dateToDecimalYear.
    destruct (Z.ltb_spec startMonth 1); [reflexivity|].
    destruct (Z.ltb_spec 12 startMonth); [reflexivity|].
    destruct (Z.ltb_spec endMonth 1); [reflexivity|].
    destruct (Z.ltb_spec 12 endMonth); [reflexivity|]. lia.
  - intros startDate endDate error Hs He Hr.
    unfold Fullcam.calculateAverageAnnualSequestration. rewrite Hs, He, Hr.
    reflexivity.
Qed.

Lemma average_fails_on_month_or_sequestration_witness :
  Fullcam.calculateAverageAnnualSequestration (response threeYearExport) 2024 13 2027 1
  = Failure "Month must be between 1 and 12" /\
  Fullcam.calculateAverageAnnualSequestration (response noRowExport) 2024 1 2027 1
  = Failure "Could not find carbon values for the specified date range".
Proof.
  split.
  - apply (proj1 (average_fails_on_month_or_sequestration
                    (response threeYearExport) 2024 13 2027 1)). lia.
  - apply (proj2 (average_fails_on_month_or_sequestration
                    (response noRowExport) 2024 1 2027 1) (ofZ 2024) (ofZ 2027));
      vm_compute; reflexivity.
Defined.

(** *** The metrics of an area *)

Lemma div_by_zero (x years : number) :
  isZero years = true -> isFiniteNumber (div x years) = false.
Proof.
  destruct years as [s| | |]; try discriminate. intros _.
  destruct x as [[]|[]| |[] m e]; destruct s; reflexivity.
Qed.

Lemma mul_not_finite (x area : number) :
  isFiniteNumber x = false -> isFiniteNumber (mul x area) = false.
Proof.
  destruct x as [|sx| |]; try discriminate; intros _;
    destruct area as [sa|sa| |sa m e]; reflexivity.
Qed.

(** X15: the metrics of an area do not guard the division by the
    years: for years that are 0, of either sign, the average per year
    per hectare and the average per year for the area are never finite
    numbers, whatever the total and the area are. *)
Theorem area_metrics_do_not_guard_zero_years
    (carbonResult : Fullcam.Sequestration) (areaInHectares years : number) :
  isZero years = true ->
  let metrics := Fullcam.calculateAreaCarbonMetrics carbonResult areaInHectares years in
  isFiniteNumber (Fullcam.AreaMetrics.averagePerYearPerHectare metrics) = false /\
  isFiniteNumber (Fullcam.AreaMetrics.averagePerYearForArea metrics) = false.
Proof.
  intros Hzero metrics.
  pose proof (div_by_zero (Fullcam.totalCarbon carbonResult) years Hzero) as Hd.
  unfold metrics, Fullcam.calculateAreaCarbonMetrics,
    Fullcam.calculateTotalCarbonForArea, Fullcam.fixed.
  cbn [Fullcam.AreaMetrics.averagePerYearPerHectare
       Fullcam.AreaMetrics.averagePerYearForArea].
  split.
  - rewrite fixed_not_finite; exact Hd.
  - pose proof (mul_not_finite _ areaInHectares Hd) as Hm.
    rewrite fixed_not_finite; exact Hm.
Qed.

Lemma area_metrics_do_not_guard_zero_years_witness :
  isFiniteNumber
    (Fullcam.AreaMetrics.averagePerYearPerHectare
       (Fullcam.calculateAreaCarbonMetrics (sequestrationBetween (ofZ 10) (ofZ 11))
          (ofZ 3) zero)) = false /\
  isFiniteNumber
    (Fullcam.AreaMetrics.averagePerYearForArea
       (Fullcam.calculateAreaCarbonMetrics (sequestrationBetween (ofZ 10) (ofZ 11))
          (ofZ 3) zero)) = false.
Proof.
  apply (area_metrics_do_not_guard_zero_years
           (sequestrationBetween (ofZ 10) (ofZ 11)) (ofZ 3) zero).
  reflexivity.
Defined.

(** X16: over an area that is 0 a finite amount of carbon per hectare
    gives a total of 0. *)
Theorem zero_area_gives_zero_total (carbonPerHectare areaInHectares : number) :
  isZero areaInHectares = true -> isFiniteNumber carbonPerHectare = true ->
  Fullcam.calculateTotalCarbonForArea carbonPerHectare areaInHectares = zero.
Proof.
  destruct areaInHectares as [sa| | |]; try discriminate. intros _.
  destruct carbonPerHectare as [sc|sc| |sc m e]; try discriminate; intros _;
    unfold Fullcam.calculateTotalCarbonForArea, Fullcam.fixed, mul, SFmul;
    exact (RoundingFacts.fixed_isRounded 10 (S754_zero (xorb sc sa)) I).
Qed.

Lemma zero_area_gives_zero_total_witness :
  Fullcam.calculateTotalCarbonForArea (ofDecimal true 25 (-1)) zero = zero.
Proof.
  apply (zero_area_gives_zero_total (ofDecimal true 25 (-1)) zero);
    reflexivity.
Defined.

(** X17: the total for an area is the product of the carbon per
    hectare and the area, rounded to ten decimal places, whenever the
    product is below 10^21. *)
Theorem area_total_is_rounded_product (carbonPerHectare areaInHectares : number) :
  below1e21 (mul carbonPerHectare areaInHectares) ->
  isRounded 10 (mul carbonPerHectare areaInHectares)
    (Fullcam.calculateTotalCarbonForArea carbonPerHectare areaInHectares).
Proof. apply RoundingFacts.fixed_isRounded. Qed.

Lemma area_total_is_rounded_product_witness :
  isRounded 10 (mul (ofDecimal false 15 (-1)) (ofZ 3))
    (Fullcam.calculateTotalCarbonForArea (ofDecimal false 15 (-1)) (ofZ 3)).
Proof.
  apply (area_total_is_rounded_product (ofDecimal false 15 (-1)) (ofZ 3)).
  vm_compute. reflexivity.
Defined.

(** X18: the three numbers of a successful sequestration are the value
    resolved for the start date, the value resolved for the end date
    and the difference of these two values, not of their roundings,
    each rounded to ten decimal places when it is below 10^21. *)
Theorem sequestration_values_are_rounded
    (r : Fullcam.SimulationResponse) (startDate endDate : number)
    (result : Fullcam.Sequestration) :
  Fullcam.calculateCarbonSequestration r startDate endDate = Success result ->
  exists a b : number,
    resolveDate (records r) startDate = Some a /\
    resolveDate (records r) endDate = Some b /\
    (below1e21 a -> isRounded 10 a (Fullcam.startCarbon result)) /\
    (below1e21 b -> isRounded 10 b (Fullcam.endCarbon result)) /\
    (below1e21 (sub b a) -> isRounded 10 (sub b a) (Fullcam.totalCarbon result)).
Proof.
  intros H. apply calculateCarbonSequestration_success in H
    as (_ & a & b & Ha & Hb & ->).
  exists a, b. split; [exact Ha|]. split; [exact Hb|].
  repeat split; apply RoundingFacts.fixed_isRounded.
Qed.

Lemma sequestration_values_are_rounded_witness :
  exists a b : number,
    resolveDate (records (response threeYearExport)) (ofZ 2024) = Some a /\
    resolveDate (records (response threeYearExport)) (ofZ 2027) = Some b /\
    (below1e21 a -> isRounded 10 a (ofZ 10)) /\
    (below1e21 b -> isRounded 10 b (ofZ 11)) /\
    (below1e21 (sub b a) -> isRounded 10 (sub b a) (ofZ 1)).
Proof.
  apply (sequestration_values_are_rounded (response threeYearExport)
           (ofZ 2024) (ofZ 2027) (sequestrationBetween (ofZ 10) (ofZ 11))).
  vm_compute. reflexivity.
Defined.

(** *** Unescaping *)

Lemma replaceEscape_pair (c r x y : ascii) (rest : string) :
  Fullcam.replaceEscape c r (String x (String y rest))
  = if Ascii.eqb x "\"%char && Ascii.eqb y c
    then String r (Fullcam.replaceEscape c r rest)
    else String x (Fullcam.replaceEscape c r (String y rest)).
Proof. reflexivity. Qed.

Lemma replaceEscape_pass (c r x : ascii) (t : string) :
  x <> "\"%char ->
  Fullcam.replaceEscape c r (String x t) = String x (Fullcam.replaceEscape c r t).
Proof.
  intros Hx. destruct t as [|y rest]; [reflexivity|].
  rewrite replaceEscape_pair.
  destruct (Ascii.eqb_spec x "\"%char); [contradiction|]. reflexivity.
Qed.

Lemma hasBackslash_cons (x : ascii) (s : string) :
  hasBackslash (String x s) = false -> x <> "\"%char /\ hasBackslash s = false.
Proof.
  cbn [hasBackslash]. intros H. apply orb_false_iff in H as [Hx Hs].
  split; [|exact Hs]. intros ->. discriminate.
Qed.

Lemma replaceEscape_plain (c r : ascii) (s : string) :
  hasBackslash s = false -> Fullcam.replaceEscape c r s = s.
Proof.
  induction s as [|x s IH]; [reflexivity|].
  intros H. apply hasBackslash_cons in H as [Hx Hs].
  rewrite replaceEscape_pass by exact Hx. rewrite IH by exact Hs. reflexivity.
Qed.

(** One replacement undoes one letter of the escaping. *)
Lemma replaceEscape_escapeWith (letter : ascii -> option ascii) (c r : ascii)
    (s : string) :
  letter r = Some c ->
  (forall x, letter x = Some c -> x = r) ->
  (forall x, letter x <> Some "\"%char) ->
  hasBackslash s = false ->
  Fullcam.replaceEscape c r (escapeWith letter s) = escapeWith (without r letter) s.
Proof.
  intros Hr Hc Hd. induction s as [|x s IH]; [reflexivity|].
  intros H. apply hasBackslash_cons in H as [Hx Hs]. specialize (IH Hs).
  cbn [escapeWith]. unfold without at 1.
  destruct (letter x) as [d|] eqn:E.
  - rewrite replaceEscape_pair, Ascii.eqb_refl. cbn [andb].
    destruct (Ascii.eqb_spec d c) as [->|Hdc].
    + rewrite (Hc x E), Ascii.eqb_refl, IH. reflexivity.
    + destruct (Ascii.eqb_spec x r) as [->|_]; [congruence|].
      rewrite replaceEscape_pass, IH; [reflexivity|].
      intros ->. exact (Hd x E).
  - rewrite replaceEscape_pass by exact Hx. rewrite IH.
    destruct (Ascii.eqb x r); reflexivity.
Qed.

Lemma escapeWith_none (letter : ascii -> option ascii) (s : string) :
  (forall x, letter x = None) -> escapeWith letter s = s.
Proof.
  intros H. induction s as [|x s IH]; [reflexivity|].
  cbn [escapeWith]. rewrite H, IH. reflexivity.
Qed.

Ltac by_letter x :=
  unfold without, escapeLetter;
  repeat match goal with
         | |- context [Ascii.eqb x ?c] => destruct (Ascii.eqb_spec x c); subst
         end;
  try congruence; try discriminate; try reflexivity.

Lemma replaceEscape_length (c r : ascii) (s : string) :
  (String.length (Fullcam.replaceEscape c r s) <= String.length s)%nat /\
  (forall x, (String.length (Fullcam.replaceEscape c r (String x s))
              <= S (String.length s))%nat).
Proof.
  induction s as [|y rest [IH1 IH2]].
  - split; [apply Nat.le_refl|]. intros x. apply Nat.le_refl.
  - split; [exact (IH2 y)|]. intros x. rewrite replaceEscape_pair.
    destruct (Ascii.eqb x "\"%char && Ascii.eqb y c).
    + change (S (String.length (Fullcam.replaceEscape c r rest))
              <= S (S (String.length rest)))%nat.
      apply le_n_S. apply Nat.le_le_succ_r. exact IH1.
    + change (S (String.length (Fullcam.replaceEscape c r (String y rest)))
              <= S (S (String.length rest)))%nat.
      apply le_n_S. exact (IH2 y).
Qed.

(** X19: a text without a backslash is left as it is by the five
    replacements. *)
Theorem unescape_leaves_plain_text (str : string) :
  hasBackslash str = false -> Fullcam.unescapeJsonString str = str.
Proof.
  intros H. unfold Fullcam.unescapeJsonString.
  rewrite (replaceEscape_plain _ _ str H), (replaceEscape_plain _ _ str H),
    (replaceEscape_plain _ _ str H), (replaceEscape_plain _ _ str H).
  exact (replaceEscape_plain _ _ str H).
Qed.

Lemma unescape_leaves_plain_text_witness :
  Fullcam.unescapeJsonString threeYearExport = threeYearExport.
Proof.
  apply (unescape_leaves_plain_text threeYearExport). vm_compute. reflexivity.
Defined.

(** X20: unescaping undoes the escaping of quotes, line feeds, carriage
    returns and tabs in a text without a backslash. *)
Theorem unescape_undoes_escaping (str : string) :
  hasBackslash str = false -> Fullcam.unescapeJsonString (escapeJson str) = str.
Proof.
  intros H. unfold Fullcam.unescapeJsonString, escapeJson.
  rewrite (replaceEscape_escapeWith escapeLetter "034" "034" str);
    [|reflexivity|intros x; by_letter x|intros x; by_letter x|exact H].
  rewrite (replaceEscape_escapeWith _ "n" "010" str);
    [|reflexivity|intros x; by_letter x|intros x; by_letter x|exact H].
  rewrite (replaceEscape_escapeWith _ "r" "013" str);
    [|reflexivity|intros x; by_letter x|intros x; by_letter x|exact H].
  rewrite (replaceEscape_escapeWith _ "t" "009" str);
    [|reflexivity|intros x; by_letter x|intros x; by_letter x|exact H].
  rewrite escapeWith_none by (intros x; by_letter x).
  exact (replaceEscape_plain _ _ str H).
Qed.

Lemma unescape_undoes_escaping_witness :
  Fullcam.unescapeJsonString (escapeJson threeYearExport) = threeYearExport.
Proof.
  apply (unescape_undoes_escaping threeYearExport). vm_compute. reflexivity.
Defined.

(** X21: unescaping never lengthens a text. *)
Theorem unescape_never_lengthens (str : string) :
  (String.length (Fullcam.unescapeJsonString str) <= String.length str)%nat.
Proof.
  unfold Fullcam.unescapeJsonString.
  repeat (etransitivity; [apply replaceEscape_length|]). apply Nat.le_refl.
Qed.

(** *** The order of decimal years *)

Lemma lt_le (x y : number) : lt x y = true -> le x y = true.
Proof.
  unfold lt, le, SFltb, SFleb. destruct (SFcompare x y) as [[]|]; congruence.
Qed.

Lemma lt_trans (x y z : number) :
  lt x y = true -> lt y z = true -> lt x z = true.
Proof. intros Hxy Hyz. exact (NumberFacts.le_lt_trans x y z (lt_le x y Hxy) Hyz). Qed.

Lemma risesOnYears_spec (first count p : Z) :
  risesOnYears first count = true ->
  12 * first <= p < 12 * first + (12 * count - 1) ->
  lt (exactDecimalYear 0 (p + 1)) (exactDecimalYear 0 (p + 2)) = true.
Proof.
  intros Hall Hp. unfold risesOnYears in Hall. rewrite forallb_forall in Hall.
  apply Hall, list_elem_of_In, elem_of_seqZ. lia.
Qed.

Lemma rises_on_calendar_years : risesOnYears 1800 600 = true.
Proof. vm_compute. reflexivity. Qed.

Lemma exactDecimalYear_index (year month : Z) :
  exactDecimalYear year month
  = exactDecimalYear 0 (CarbonCharts.toStepPoint year month + 1).
Proof.
  unfold exactDecimalYear, CarbonCharts.toStepPoint. cbv zeta.
  replace (12 * 0 + (year * 12 + (month - 1) + 1 - 1))
    with (12 * year + (month - 1)) by lia.
  reflexivity.
Qed.

(** From one month to a later one. *)
Lemma rises_between (first count p q : Z) :
  risesOnYears first count = true ->
  12 * first <= p -> p < q -> q < 12 * first + 12 * count ->
  lt (exactDecimalYear 0 (p + 1)) (exactDecimalYear 0 (q + 1)) = true.
Proof.
  intros Hall Hp Hpq Hq.
  assert (Hk : forall k : nat,
             p + 1 + Z.of_nat k < 12 * first + 12 * count ->
             lt (exactDecimalYear 0 (p + 1))
                (exactDecimalYear 0 (p + 1 + Z.of_nat k + 1)) = true).
  { induction k as [|k IH]; intros Hlt.
    - replace (p + 1 + Z.of_nat 0 + 1) with (p + 2) by lia.
      apply (risesOnYears_spec first count p Hall). lia.
    - apply (lt_trans _ (exactDecimalYear 0 (p + 1 + Z.of_nat k + 1))).
      + apply IH. lia.
      + replace (p + 1 + Z.of_nat (S k) + 1) with (p + 1 + Z.of_nat k + 2) by lia.
        apply (risesOnYears_spec first count _ Hall). lia. }
  specialize (Hk (Z.to_nat (q - p - 1))).
  replace (p + 1 + Z.of_nat (Z.to_nat (q - p - 1)) + 1) with (q + 1) in Hk by lia.
  apply Hk. lia.
Qed.

(** X22: over the years 1800 to 2399 the decimal years follow the
    calendar: of two dates the one of the earlier month has the smaller
    decimal year, and two dates have the same decimal year only when
    they are the same month of the same year; the order is the one of
    the step points of the charts. *)
Theorem decimal_years_follow_the_calendar (year month year' month' : Z) :
  1800 <= year < 2400 -> 1 <= month <= 12 ->
  1800 <= year' < 2400 -> 1 <= month' <= 12 ->
  exists d d' : number,
    Fullcam.dateToDecimalYear year month = Success d /\
    Fullcam.dateToDecimalYear year' month' = Success d' /\
    (lt d d' = true <->
     CarbonCharts.toStepPoint year month < CarbonCharts.toStepPoint year' month') /\
    (d = d' <-> year = year' /\ month = month').
Proof.
  intros Hy Hm Hy' Hm'.
  exists (exactDecimalYear year month), (exactDecimalYear year' month').
  split; [apply (exactOnYears_spec 1800 600 _ _ exact_on_calendar_years); lia|].
  split; [apply (exactOnYears_spec 1800 600 _ _ exact_on_calendar_years); lia|].
  rewrite (exactDecimalYear_index year month), (exactDecimalYear_index year' month').
  assert (Hp : 12 * 1800 <= CarbonCharts.toStepPoint year month < 12 * 1800 + 12 * 600)
    by (unfold CarbonCharts.toStepPoint; lia).
  assert (Hp' : 12 * 1800 <= CarbonCharts.toStepPoint year' month' < 12 * 1800 + 12 * 600)
    by (unfold CarbonCharts.toStepPoint; lia).
  assert (Hsame : CarbonCharts.toStepPoint year month
                  = CarbonCharts.toStepPoint year' month'
                  <-> year = year' /\ month = month')
    by (unfold CarbonCharts.toStepPoint; lia).
  set (p := CarbonCharts.toStepPoint year month) in *.
  set (q := CarbonCharts.toStepPoint year' month') in *.
  pose proof (fun a b => rises_between 1800 600 a b rises_on_calendar_years) as Hrise.
  split; split.
  - intros Hlt. destruct (Z.lt_trichotomy p q) as [H|[H|H]]; [exact H| |].
    + rewrite H, NumberFacts.lt_irrefl in Hlt. discriminate.
    + pose proof (lt_trans _ _ _ Hlt (Hrise q p ltac:(lia) H ltac:(lia))) as Hc.
      rewrite NumberFacts.lt_irrefl in Hc. discriminate.
  - intros H. apply Hrise; lia.
  - intros Heq. apply Hsame. destruct (Z.lt_trichotomy p q) as [H|[H|H]]; [|exact H|].
    + pose proof (Hrise p q ltac:(lia) H ltac:(lia)) as Hc.
      rewrite Heq, NumberFacts.lt_irrefl in Hc. discriminate.
    + pose proof (Hrise q p ltac:(lia) H ltac:(lia)) as Hc.
      rewrite Heq, NumberFacts.lt_irrefl in Hc. discriminate.
  - intros H. apply Hsame in H. rewrite H. reflexivity.
Qed.

Lemma decimal_years_follow_the_calendar_witness :
  exists d d' : number,
    Fullcam.dateToDecimalYear 2024 12 = Success d /\
    Fullcam.dateToDecimalYear 2025 1 = Success d' /\
    (lt d d' = true <->
     CarbonCharts.toStepPoint 2024 12 < CarbonCharts.toStepPoint 2025 1) /\
    (d = d' <-> 2024 = 2025 /\ 12 = 1).
Proof.
  apply (decimal_years_follow_the_calendar 2024 12 2025 1); lia.
Defined.

(** *** The charts together *)

Lemma add_NaN_l (x : number) : add NaN x = NaN.
Proof. destruct x; reflexivity. Qed.

Lemma add_NaN_r (x : number) : add x NaN = NaN.
Proof. destruct x; reflexivity. Qed.

Lemma sum_from_NaN (l : list number) : fold_left add l NaN = NaN.
Proof.
  induction l as [|x l IH]; [reflexivity|].
  cbn [fold_left]. rewrite add_NaN_l. exact IH.
Qed.

Lemma sum_with_NaN (l : list number) (t : number) :
  In NaN l -> fold_left add l t = NaN.
Proof.
  revert t. induction l as [|x l IH]; intros t Hin; [contradiction|].
  cbn [fold_left]. destruct Hin as [->|Hin].
  - rewrite add_NaN_r. apply sum_from_NaN.
  - apply IH. exact Hin.
Qed.

Lemma series_lookup (changes : list CarbonCharts.StepCarbonChange.t) (i : nat)
    (change : CarbonCharts.StepCarbonChange.t) :
  changes !! i = Some change ->
  CarbonCharts.buildCumulativeSequestrationSeries changes !! i
  = Some {| CarbonCharts.CumulativeCarbonPoint.label :=
              CarbonCharts.StepCarbonChange.label change;
            CarbonCharts.CumulativeCarbonPoint.total :=
              CarbonCharts.fixed 10
                (fold_left add
                   (map CarbonCharts.StepCarbonChange.delta (take (S i) changes))
                   zero) |}.
Proof.
  intros H.
  replace (CarbonCharts.buildCumulativeSequestrationSeries changes)
    with (CarbonCharts.accumulate zero changes) by (destruct changes; reflexivity).
  apply ChartFacts.accumulate_lookup. exact H.
Qed.

(** X23: the tick indices taken for the length of the changes serve
    both charts: for changes that are not empty the first and the last
    index are ticks, and at every tick index there is a change and a
    point of the cumulative series, with the same label. *)
Theorem ticks_label_both_charts (changes : list CarbonCharts.StepCarbonChange.t) :
  changes <> [] ->
  let ticks := CarbonCharts.getSharedTickIndices (Z.of_nat (length changes)) in
  let series := CarbonCharts.buildCumulativeSequestrationSeries changes in
  0 ∈ ticks /\ Z.of_nat (length changes) - 1 ∈ ticks /\
  forall i : Z,
    i ∈ ticks ->
    0 <= i /\
    exists (change : CarbonCharts.StepCarbonChange.t)
           (point : CarbonCharts.CumulativeCarbonPoint.t),
      changes !! Z.to_nat i = Some change /\
      series !! Z.to_nat i = Some point /\
      CarbonCharts.CumulativeCarbonPoint.label point
      = CarbonCharts.StepCarbonChange.label change.
Proof.
  intros Hne ticks series.
  assert (Hlen : 1 <= Z.of_nat (length changes))
    by (destruct changes; [contradiction|cbn [length]; lia]).
  split; [|split].
  - apply ticks_member. split; [exact Hlen|]. split; [lia|]. left.
    apply Z.rem_0_l. lia.
  - apply ticks_member. split; [exact Hlen|]. split; [lia|]. right. reflexivity.
  - intros i Hi. apply ticks_member in Hi as (_ & Hrange & _).
    split; [lia|].
    destruct (lookup_lt_is_Some_2 changes (Z.to_nat i)) as [change Hc]; [lia|].
    exists change. eexists. split; [exact Hc|].
    split; [exact (series_lookup changes _ change Hc)|]. reflexivity.
Qed.

Lemma ticks_label_both_charts_witness :
  0 ∈ CarbonCharts.getSharedTickIndices
        (Z.of_nat (length [ {| CarbonCharts.StepCarbonChange.label := "2024-S2";
                               CarbonCharts.StepCarbonChange.delta := ofZ 1 |} ])).
Proof.
  apply (ticks_label_both_charts
           [ {| CarbonCharts.StepCarbonChange.label := "2024-S2"%string;
                CarbonCharts.StepCarbonChange.delta := ofZ 1 |} ]).
  discriminate.
Defined.

(** X24: the cumulative series does not guard against a change that is
    not a number: from the index of a change whose delta is NaN on,
    every total of the series is NaN. *)
Theorem cumulative_series_keeps_NaN
    (changes : list CarbonCharts.StepCarbonChange.t) (j i : nat)
    (change : CarbonCharts.StepCarbonChange.t)
    (point : CarbonCharts.CumulativeCarbonPoint.t) :
  changes !! j = Some change ->
  CarbonCharts.StepCarbonChange.delta change = NaN ->
  (j <= i)%nat ->
  CarbonCharts.buildCumulativeSequestrationSeries changes !! i = Some point ->
  CarbonCharts.CumulativeCarbonPoint.total point = NaN.
Proof.
  intros Hj Hnan Hji Hi.
  assert (Hlt : (i < length changes)%nat).
  { apply lookup_lt_Some in Hi.
    replace (CarbonCharts.buildCumulativeSequestrationSeries changes)
      with (CarbonCharts.accumulate zero changes) in Hi
      by (destruct changes; reflexivity).
    rewrite ChartFacts.accumulate_length in Hi. exact Hi. }
  destruct (lookup_lt_is_Some_2 changes i Hlt) as [c Hc].
  rewrite (series_lookup changes i c Hc) in Hi.
  injection Hi as <-. cbn [CarbonCharts.CumulativeCarbonPoint.total].
  rewrite sum_with_NaN; [reflexivity|].
  rewrite <- Hnan. apply in_map. apply list_elem_of_In.
  apply list_elem_of_lookup. exists j.
  rewrite lookup_take_lt by lia. exact Hj.
Qed.

Lemma cumulative_series_keeps_NaN_witness :
  CarbonCharts.CumulativeCarbonPoint.total
    {| CarbonCharts.CumulativeCarbonPoint.label := "2024-S3";
       CarbonCharts.CumulativeCarbonPoint.total :=
         CarbonCharts.fixed 10 (add (add zero NaN) (ofZ 1)) |} = NaN.
Proof.
  apply (cumulative_series_keeps_NaN
           [ {| CarbonCharts.StepCarbonChange.label := "2024-S2"%string;
                CarbonCharts.StepCarbonChange.delta := NaN |};
             {| CarbonCharts.StepCarbonChange.label := "2024-S3"%string;
                CarbonCharts.StepCarbonChange.delta := ofZ 1 |} ]
           0%nat 1%nat
           {| CarbonCharts.StepCarbonChange.label := "2024-S2"%string;
              CarbonCharts.StepCarbonChange.delta := NaN |});
    [reflexivity | reflexivity | lia | reflexivity].
Defined.
